(** * Verification of the docking-analysis pipeline (dockingAnalysis.py)

    A shallow embedding of the [DockingAnalyzer] class: result discovery,
    ingestion of the two raw formats, conformer reduction, the molecular
    weight step and the correlation step, together with the properties the
    specification states about them.

    Conventions of the embedding.
    - A Python [str] is a [string]; each character is a code point below
      256, compared by code point as Python does.
    - A Python [float] (and a numpy float64) is a primitive binary64
      [float]; Python integers are [Z]; a numpy int64 is a [Z] between
      [int64_min] and [int64_max], and int64 arithmetic wraps around.
    - A column of names is read by pandas with the dtype it infers
      (integers for all-digit names, strings otherwise); the dtype is a
      parameter, and a missing name is NaN.
    - A call that can raise returns a [PyResult]; [raise Exception(msg)]
      is [Raise (Exception msg)] and the error kind named in the
      specification is the text of [msg] before its first colon.
    - Library routines of pandas, numpy, scipy and RDKit whose result is
      not fixed by the repository are parameters of the section that uses
      them. *)

From Stdlib Require Import Floats ZArith QArith Lia Bool Ascii.
From Stdlib Require String.
From stdpp Require Import gmap strings list sorting.

(** ** Python exceptions and results *)

Inductive PyExn : Type :=
| Exception (msg : string)
| TypeError
| ValueError
| IndexError
| ZeroDivisionError
| UnboundLocalError
| KeyError
| AttributeError
| FileNotFoundError
| FileExistsError
| NotADirectoryError
| IsADirectoryError
| ArgumentError
| OverflowError.

Inductive PyResult (A : Type) : Type :=
| Return (a : A)
| Raise (e : PyExn).

Arguments Return {A} a.
Arguments Raise {A} e.

Global Instance PyResult_ret : MRet PyResult := fun A a => Return a.
Global Instance PyResult_bind : MBind PyResult := fun A B f m =>
  match m with
  | Return a => f a
  | Raise e => Raise e
  end.
Global Instance PyResult_fmap : FMap PyResult := fun A B f m =>
  match m with
  | Return a => Return (f a)
  | Raise e => Raise e
  end.

(** [for x in xs: body] where the body can raise: the first exception
    stops the loop. *)
Fixpoint for_each {A S : Type} (body : S -> A -> PyResult S) (st : S) (xs : list A)
  : PyResult S :=
  match xs with
  | [] => Return st
  | x :: rest => st' ← body st x; for_each body st' rest
  end.

(** [[f(x) for x in xs]] where [f] can raise. *)
Fixpoint comprehension {A B : Type} (f : A -> PyResult B) (xs : list A)
  : PyResult (list B) :=
  match xs with
  | [] => Return []
  | x :: rest => y ← f x; ys ← comprehension f rest; Return (y :: ys)
  end.

(** [xs[0]]. *)
Definition first_item {A : Type} (xs : list A) : PyResult A :=
  match xs with
  | x :: _ => Return x
  | [] => Raise IndexError
  end.

(** ** Strings *)

(** [needle in haystack], [s.startswith(p)] and [s.endswith(p)]. *)
Fixpoint startswith (p s : string) : bool :=
  match p, s with
  | EmptyString, _ => true
  | String a p', String b s' => if Ascii.eqb a b then startswith p' s' else false
  | String _ _, EmptyString => false
  end.

Fixpoint contains (needle haystack : string) : bool :=
  startswith needle haystack ||
  match haystack with
  | EmptyString => false
  | String _ rest => contains needle rest
  end.

Definition endswith (p s : string) : bool :=
  startswith (String.rev p) (String.rev s).

(** The text of an exception message before its first colon: the error
    kind, in the convention [raise Exception('Kind: explanation')]. *)
Fixpoint before_colon (s : string) : string :=
  match s with
  | EmptyString => EmptyString
  | String a rest => if Ascii.eqb a ":"%char then EmptyString else String a (before_colon rest)
  end.

Definition error_kind (e : PyExn) : option string :=
  match e with
  | Exception msg => Some (before_colon msg)
  | _ => None
  end.

(** The run fails with the error kind [kind]. *)
Definition fails_with {A : Type} (kind : string) (r : PyResult A) : bool :=
  match r with
  | Raise e => bool_decide (error_kind e = Some kind)
  | Return _ => false
  end.

(** The characters [str.split()] treats as blanks, among code points
    below 256. *)
Definition py_isspace (a : ascii) : bool :=
  let n := nat_of_ascii a in
  (9 <=? n)%nat && (n <=? 13)%nat || (28 <=? n)%nat && (n <=? 32)%nat
  || (n =? 133)%nat || (n =? 160)%nat.

(** [s.split()]: the maximal runs of non-blank characters. [tok] is the
    run being read, reversed. *)
Fixpoint split_blank_from (tok : list ascii) (s : string) : list string :=
  let close := match tok with [] => [] | _ => [String.string_of_list_ascii (reverse tok)] end in
  match s with
  | EmptyString => close
  | String a rest =>
    if py_isspace a then close ++ split_blank_from [] rest
    else split_blank_from (a :: tok) rest
  end.

Definition split_blank (s : string) : list string := split_blank_from [] s.

(** [s.split(sep)] for a one-character separator: always at least one
    field. *)
Fixpoint split_on_from (sep : ascii) (field : list ascii) (s : string) : list string :=
  match s with
  | EmptyString => [String.string_of_list_ascii (reverse field)]
  | String a rest =>
    if Ascii.eqb a sep
    then String.string_of_list_ascii (reverse field) :: split_on_from sep [] rest
    else split_on_from sep (a :: field) rest
  end.

Definition split_on (sep : ascii) (s : string) : list string := split_on_from sep [] s.

(** The newline that ends a line read from a text file. *)
Definition nl : string := String (ascii_of_nat 10) EmptyString.

(** ** Column orders

    pandas orders a column by the comparison of its dtype. A float column
    is ordered by [<=] with NaN after every number ([na_position='last']);
    an object column of strings by code point; an integer column by [<=];
    several columns lexicographically. *)

Class KeyOrder (K : Type) : Type := key_le : K -> K -> bool.

(** Two keys tie when neither is strictly before the other. *)
Definition key_tie {K : Type} `{KeyOrder K} (a b : K) : Prop :=
  key_le a b = true /\ key_le b a = true.

Definition score_le (a b : float) : bool :=
  PrimFloat.is_nan b || PrimFloat.leb a b.

Definition string_le (a b : string) : bool := String.leb a b.

Definition lex_le {K1 K2 : Type} `{KeyOrder K1} `{KeyOrder K2} (a b : K1 * K2) : bool :=
  if key_le a.1 b.1 then (if key_le b.1 a.1 then key_le a.2 b.2 else true) else false.

Global Instance float_order : KeyOrder float := score_le.
Global Instance string_order : KeyOrder string := string_le.
Global Instance Z_order : KeyOrder Z := Z.leb.
Global Instance lex_order {K1 K2 : Type} `{KeyOrder K1} `{KeyOrder K2} : KeyOrder (K1 * K2) :=
  lex_le.

(** ** Columns of names

    [pd.read_csv] infers the dtype of a column of names from its cells:
    int64 when every name is a run of digits (so that 9 is before 10),
    float64 or bool for names that read as such, and otherwise object,
    with the names as strings compared by code point. The dtype is a
    parameter: the values of the column and their order. An empty cell
    is NaN in every dtype: [None] below. NaN is after every name in a
    sort ([na_position='last']), [drop_duplicates] takes all NaN for one
    key, and Python's [!=] holds between NaN and anything, NaN
    included. *)

Class LabelDtype : Type := {
  Label : Type;
  Label_eq_dec :: EqDecision Label;
  Label_countable :: Countable Label;
  label_le : Label -> Label -> bool
}.

Definition name_le `{LabelDtype} (a b : option Label) : bool :=
  match a, b with
  | _, None => true
  | None, Some _ => false
  | Some x, Some y => label_le x y
  end.

Global Instance name_order `{LabelDtype} : KeyOrder (option Label) := name_le.

(** [a != b] on two cells of a column of names. *)
Definition name_ne `{LabelDtype} (a b : option Label) : bool :=
  match a, b with
  | Some x, Some y => bool_decide (x ≠ y)
  | _, _ => true
  end.

(** The object dtype, and the int64 dtype of all-digit names. *)
Definition object_dtype : LabelDtype :=
  {| Label := string; label_le := String.leb |}.

Definition int64_dtype : LabelDtype :=
  {| Label := Z; label_le := Z.leb |}.

(** ** int64

    numpy's int64: the integers from [int64_min] to [int64_max].
    Arithmetic on an int64 array wraps around; storing a Python integer
    outside the range into an int64 array raises OverflowError. *)

Definition int64_min : Z := - 2 ^ 63.
Definition int64_max : Z := 2 ^ 63 - 1.

Definition in_int64 (z : Z) : bool := (int64_min <=? z)%Z && (z <=? int64_max)%Z.

Definition wrap_int64 (z : Z) : Z := ((z + 2 ^ 63) `mod` 2 ^ 64 - 2 ^ 63)%Z.

(** ** pandas: sorting and duplicate removal

    [DataFrame.sort_values(col)] computes an index permutation from the
    key column alone (numpy's [argsort]) and takes the rows in that
    order. The default kind is [quicksort]: the result is sorted, and the
    order among rows with tying keys is whatever the index permutation
    gives. The permutation is a parameter; what is known of it is
    [ArgsortSorts] below. *)

Class Argsort : Type := argsort : forall K : Type, KeyOrder K -> list K -> list nat.

(** [df.take(idx)]: the rows at the positions [idx], in that order. *)
Definition take_rows {Row : Type} (df : list Row) (idx : list nat) : list Row :=
  omap (fun i => df !! i) idx.

Definition sort_values `{Argsort} {Row K : Type} `{KeyOrder K} (col : Row -> K)
  (df : list Row) : list Row :=
  take_rows df (argsort K _ (col <$> df)).

(** [df.drop_duplicates(col)] with the default [keep='first']: a row is
    dropped when its key was seen in an earlier row. *)
Fixpoint drop_duplicates_from {Row K : Type} `{EqDecision K} (col : Row -> K)
  (seen : list K) (df : list Row) : list Row :=
  match df with
  | [] => []
  | r :: rest =>
    if decide (col r ∈ seen) then drop_duplicates_from col seen rest
    else r :: drop_duplicates_from col (col r :: seen) rest
  end.

Definition drop_duplicates {Row K : Type} `{EqDecision K} (col : Row -> K)
  (df : list Row) : list Row :=
  drop_duplicates_from col [] df.

(** An instance: the stable index sort by insertion (positions with
    tying keys stay in input order), which is what numpy's plain
    quicksort does on short arrays. *)
Fixpoint insert_index {K : Type} (le : K -> K -> bool) (ks : list K) (i : nat)
  (sorted : list nat) : list nat :=
  match sorted with
  | [] => [i]
  | j :: rest =>
    match ks !! i, ks !! j with
    | Some ki, Some kj =>
      if le kj ki then j :: insert_index le ks i rest else i :: j :: rest
    | _, _ => i :: j :: rest
    end
  end.

Definition insertion_argsort : Argsort := fun K le ks =>
  foldl (fun sorted i => insert_index le ks i sorted) [] (seq 0 (length ks)).

(** ** Tables

    A CSV file is modelled by the table pandas reads from it: a list of
    rows, one record field per column that the code uses. Ligand names
    and titles are cells of a column of names: a label of the column's
    dtype, or NaN. The columns [i_i_glide_lignum] and [file_entry] are
    int64 columns: their cells are integers in the int64 range. *)

Module Glide.
(** The columns kept from Glide's result table ([columns_to_keep]). *)
Record CsvRow `{LabelDtype} : Type := {
  SMILES : string;
  title : option Label;
  i_i_glide_lignum : Z;
  r_glide_cpu_time : float;
  r_i_docking_score : float
}.
(** The same with the derived [conformer] column. *)
Record Row `{LabelDtype} : Type := {
  raw : CsvRow;
  conformer : Z
}.
Arguments Build_CsvRow {_} _ _ _ _ _.
Arguments Build_Row {_} _ _.
End Glide.

Module Rdock.
(** A row that [_rdockDataFrameGenerator] writes: the score is still the
    text read from the file. *)
Record DataRow : Type := {
  data_file_name : string;
  data_file_entry : Z;
  data_ligand : string;
  data_conformer : string;
  data_rdock_score : string
}.
(** A row of [rDock_data.csv] as pandas reads it back. *)
Record Row `{LabelDtype} : Type := {
  file_name : string;
  file_entry : Z;
  ligand : option Label;
  conformer : string;
  rdock_score : float
}.
(** A row of [rDock_best_poses.csv]. *)
Record Best `{LabelDtype} : Type := {
  pose : Row;
  docking_conformation : Z
}.
Arguments Build_Row {_} _ _ _ _ _.
Arguments Build_Best {_} _ _.
End Rdock.

(** ** Tabular ingestion: the derived conformer index
    ([_glideDataFrameRetriever], the loop over [df.iterrows()])

    The loop state is [(prev_title, prev_value)], both [None] before the
    first row and always assigned together, and the array
    [modified_i_i_glide_lignum], written at the row's index. A row of
    [iterrows] holds Python objects, so the difference of two raw values
    is exact; the array is an int64 array ([dtype=int]), and storing a
    difference outside the int64 range raises OverflowError. *)

Definition update_prev `{LabelDtype} (prev : option (option Label * Z)) (row : Glide.CsvRow)
  : option Label * Z :=
  match prev with
  | Some (prev_title, prev_value) =>
    if name_ne (Glide.title row) prev_title
    then (Glide.title row, Glide.i_i_glide_lignum row)
    else (prev_title, prev_value)
  | None => (Glide.title row, Glide.i_i_glide_lignum row)
  end.

Definition iterrows_step `{LabelDtype} (st : option (option Label * Z) * list Z)
  (irow : nat * Glide.CsvRow) : PyResult (option (option Label * Z) * list Z) :=
  let '(prev, arr) := st in
  let '(i, row) := irow in
  let prev' := update_prev prev row in
  let value := (Glide.i_i_glide_lignum row - prev'.2)%Z in
  if in_int64 value then Return (Some prev', <[i := value]> arr)
  else Raise OverflowError.

Definition modified_i_i_glide_lignum `{LabelDtype} (df : list Glide.CsvRow)
  : PyResult (list Z) :=
  st ← for_each iterrows_step (None, replicate (length df) 0%Z) (imap pair df);
  Return st.2.

(** [modified_i_i_glide_lignum + 1], on the int64 array, the column
    inserted as [conformer]. *)
Definition conformer_column `{LabelDtype} (df : list Glide.CsvRow) : PyResult (list Z) :=
  arr ← modified_i_i_glide_lignum df;
  Return (fmap (M := list) (fun v => wrap_int64 (v + 1)) arr).

Definition insert_conformer `{LabelDtype} (df : list Glide.CsvRow)
  : PyResult (list Glide.Row) :=
  column ← conformer_column df;
  Return (zip_with Glide.Build_Row df (column : list Z)).

(** ** Conformer reduction *)

(** The columns [title], [i_i_glide_lignum] and [r_i_docking_score], and
    the column pair [['title', 'i_i_glide_lignum']]. *)
Definition glide_title `{LabelDtype} (r : Glide.Row) : option Label :=
  Glide.title (Glide.raw r).
Definition glide_lignum `{LabelDtype} (r : Glide.Row) : Z :=
  Glide.i_i_glide_lignum (Glide.raw r).
Definition glide_score `{LabelDtype} (r : Glide.Row) : float :=
  Glide.r_i_docking_score (Glide.raw r).
Definition glide_title_lignum `{LabelDtype} (r : Glide.Row) : option Label * Z :=
  (glide_title r, glide_lignum r).

(** [_glideDataFrameRetriever], 'dock' protocol, the block that sorts by
    energies and keeps one row per molecule. *)
Definition glide_best_poses `{Argsort} `{LabelDtype} (df : list Glide.Row)
  : list Glide.Row :=
  let df_csv_sort := sort_values glide_score df in
  let df_result := drop_duplicates glide_title_lignum df_csv_sort in
  let sorted_df := sort_values glide_title_lignum df_result in
  let sorted_df := sort_values glide_score sorted_df in
  let sorted_df := drop_duplicates glide_title sorted_df in
  sort_values glide_title sorted_df.

(** [file_entry - ((file_entry - 1) // 50) * 50], on an int64 column:
    every operation wraps around. *)
Definition docking_conformation_of (file_entry : Z) : Z :=
  wrap_int64
    (file_entry - wrap_int64 (wrap_int64 (file_entry - 1) `div` 50 * 50))%Z.

(** [_rdockDataFrameTrimmer], 'dock' protocol, on the table read from
    [rDock_data.csv]. (For 'score' the table is kept as it was read.) *)
Definition _rdockDataFrameTrimmer `{Argsort} `{LabelDtype} (df : list Rdock.Row)
  : list Rdock.Best :=
  let sorted_df := sort_values Rdock.rdock_score df in
  let unique_df := drop_duplicates Rdock.ligand sorted_df in
  let final_df := sort_values Rdock.ligand unique_df in
  (fun r => Rdock.Build_Best r (docking_conformation_of (Rdock.file_entry r))) <$> final_df.

(** ** Sharded multi-record ingestion
    ([_rdockDataFrameGenerator], 'dock' protocol)

    A file is the list of its lines, each with its newline. The state of
    the pass over one file is [counter], the two flags, the variable
    [score] ([None] while it is unbound) and the rows appended to [data]
    so far. [score] and [data] are not reset between files. *)

Record ScanState : Type := {
  counter : Z;
  score_bool : bool;
  conformer_bool : bool;
  score : option string;
  data : list Rdock.DataRow
}.

(** One iteration of [for line in file]. *)
Definition scan_line (filename : string) (st : ScanState) (line : string)
  : PyResult ScanState :=
  score' ← (if score_bool st
            then tok ← first_item (split_blank line); Return (Some tok)
            else Return (score st));
  data' ← (if conformer_bool st
           then match split_on "-"%char line with
                | [ligand; conformer] =>
                  match score' with
                  | Some s =>
                    Return (data st ++
                      [{| Rdock.data_file_name := filename;
                          Rdock.data_file_entry := counter st;
                          Rdock.data_ligand := ligand;
                          Rdock.data_conformer := conformer;
                          Rdock.data_rdock_score := s |}])
                  | None => Raise UnboundLocalError
                  end
                | _ => Raise ValueError
                end
           else Return (data st));
  Return {| counter := if contains "$$$$" line then (counter st + 1)%Z else counter st;
            score_bool := contains ">  <SCORE>" line;
            conformer_bool := contains ">  <s_lp_Variant>" line;
            score := score';
            data := data' |}.

(** The pass over one file, from [counter = 1] and both flags false. *)
Definition scan_file (carry : option string * list Rdock.DataRow)
  (file : string * list string) : PyResult (option string * list Rdock.DataRow) :=
  st ← for_each (scan_line file.1)
         {| counter := 1; score_bool := false; conformer_bool := false;
            score := carry.1; data := carry.2 |} file.2;
  Return (score st, data st).

(** The rows written to [rDock_data.csv], from the files whose name
    starts with [split], in the order of the directory listing. *)
Definition _rdockDataFrameGenerator (files : list (string * list string))
  : PyResult (list Rdock.DataRow) :=
  snd <$> for_each scan_file (None, [])
            (filter (fun file => startswith "split" file.1 = true) files).

(** ** The file system

    The working directory is a tree. A file is modelled by what the
    library that reads it returns: the table of a CSV file, the lines of
    a text file. os.listdir returns the names of a directory in an order
    of its own; here it is the order of [map_to_list]. A file is read
    as the kind of table it holds: [SmilesCsv] is a header-less table
    given by its first column, [GlideCsv] a Glide result table with the
    dtype that pandas infers for its column of titles,
    [AffinityCsv] a table of named numeric columns; reading a table of
    another kind than the one the code expects is not modelled beyond
    the exception it ends in. *)

Inductive FileData : Type :=
| GlideCsv (dtype : LabelDtype) (rows : list (@Glide.CsvRow dtype))
| SmilesCsv (smiles : list string)
| AffinityCsv (columns : gmap string (list float))
| TextFile (lines : list string)
| OtherFile.

#[warnings="-register-all"]
Inductive Node : Type :=
| File (content : FileData)
| Dir (entries : gmap string Node).

(** The node at a path, given by its components. *)
Fixpoint resolve (path : list string) (node : Node) : PyResult Node :=
  match path with
  | [] => Return node
  | name :: rest =>
    match node with
    | Dir entries =>
      match entries !! name with
      | Some child => resolve rest child
      | None => Raise FileNotFoundError
      end
    | File _ => Raise NotADirectoryError
    end
  end.

Definition os_listdir (cwd : Node) (path : list string) : PyResult (list string) :=
  node ← resolve path cwd;
  match node with
  | Dir entries => Return (map_to_list entries).*1
  | File _ => Raise NotADirectoryError
  end.

Definition os_path_isdir (cwd : Node) (path : list string) : bool :=
  match resolve path cwd with
  | Return (Dir _) => true
  | _ => false
  end.

Definition os_path_isfile (cwd : Node) (path : list string) : bool :=
  match resolve path cwd with
  | Return (File _) => true
  | _ => false
  end.

(** [if not os.path.isdir(path): os.mkdir(path)]. The tree is not
    changed: no later step reads the folders made this way. [os.mkdir]
    needs the parent folder: it raises FileNotFoundError when a folder
    on the way is missing and NotADirectoryError when one is a file. *)
Definition mkdir_if_missing (cwd : Node) (path : list string) : PyResult () :=
  if os_path_isdir cwd path then Return ()
  else match resolve path cwd with
       | Return _ => Raise FileExistsError
       | Raise _ =>
         match resolve (removelast path) cwd with
         | Return (Dir _) => Return ()
         | Return (File _) => Raise NotADirectoryError
         | Raise e => Raise e
         end
       end.

(** [pd.read_csv(path)]: the table of a CSV file. A file that pandas
    cannot read as a table ([OtherFile], and the text files of this
    model, [TextFile]) makes it raise a ParserError or an
    EmptyDataError, which are ValueErrors. Text that pandas does accept
    as a table of its own columns is not told apart from the rest. *)
Definition pd_read_csv (cwd : Node) (path : list string) : PyResult FileData :=
  node ← resolve path cwd;
  match node with
  | Dir _ => Raise IsADirectoryError
  | File (TextFile _) | File OtherFile => Raise ValueError
  | File table => Return table
  end.

(** ** The analyzer object *)

(** [self.calculated_data]: Glide's best poses ('dock'), the tables of
    the ligand folders, concatenated ('score'), or rDock's best poses. *)
Inductive CalculatedData : Type :=
| GlideBestPoses (dtype : LabelDtype) (rows : list (@Glide.Row dtype))
| GlideMerged (tables : list FileData)
| RdockBestPoses (dtype : LabelDtype) (rows : list (@Rdock.Best dtype)).

Module Analyzer.
Record t : Type := {
  docking_tool : option string;
  protocol : option string;
  calculated_data : option CalculatedData;
  molecular_weight : option (list (nat * float))
}.
Definition set_docking_tool (tool : string) (self : t) : t :=
  {| docking_tool := Some tool; protocol := protocol self;
     calculated_data := calculated_data self; molecular_weight := molecular_weight self |}.
Definition set_protocol (p : string) (self : t) : t :=
  {| docking_tool := docking_tool self; protocol := Some p;
     calculated_data := calculated_data self; molecular_weight := molecular_weight self |}.
Definition set_calculated_data (d : CalculatedData) (self : t) : t :=
  {| docking_tool := docking_tool self; protocol := protocol self;
     calculated_data := Some d; molecular_weight := molecular_weight self |}.
Definition set_molecular_weight (mw : list (nat * float)) (self : t) : t :=
  {| docking_tool := docking_tool self; protocol := protocol self;
     calculated_data := calculated_data self; molecular_weight := Some mw |}.
(** The object after [__init__]. *)
Definition init : t :=
  {| docking_tool := None; protocol := None; calculated_data := None;
     molecular_weight := None |}.
End Analyzer.

(** ** Result discovery *)

Definition ResultsMissingError (path_docking : string) : PyExn :=
  Exception ("ResultsMissingError: Before initializing the object the results must be downloaded at " +:+ path_docking).

Definition OutputError : PyExn :=
  Exception "OutputError: No tall the simulations have generated an output.".

Definition ProtocolError : PyExn :=
  Exception "ProtocolError: Only 'dock' or 'score' are accepted as protocols.".

(** The entries of [3_docking_job/glide_score] taken as ligand folders. *)
Definition glide_score_ligands (cwd : Node) : PyResult (list string) :=
  names ← os_listdir cwd ["3_docking_job"; "glide_score"];
  Return (filter (fun x => x ≠ ".ipynb_checkpoints" /\ x ≠ "glide_score.csv") names).

(** The result file of one ligand folder: the first file whose name ends
    in [_score.csv]. *)
Definition glide_score_csv (cwd : Node) (ligand : string) : PyResult (list string) :=
  let path_ligand := ["3_docking_job"; "glide_score"; ligand] in
  files ← os_listdir cwd path_ligand;
  csv ← first_item (filter (fun x => endswith "_score.csv" x = true) files);
  Return (path_ligand ++ [csv]).

(** [paths_to_check] of Glide's 'score' protocol. *)
Definition glide_score_paths (cwd : Node) : PyResult (list (list string)) :=
  ligands ← glide_score_ligands cwd;
  comprehension (glide_score_csv cwd) ligands.

(** The result file of Glide's 'dock' protocol. *)
Definition glide_dock_path (cwd : Node) : PyResult (list string) :=
  let path_docking := ["3_docking_job"; "job"] in
  names ← os_listdir cwd path_docking;
  csv ← first_item (filter (fun x => endswith ".csv" x = true) names);
  Return (path_docking ++ [csv]).

Definition _glideDockingResultsChecker (cwd : Node) (self : Analyzer.t) (protocol : string)
  : PyResult Analyzer.t :=
  _ ← (if decide (protocol = "dock") then
         path_results ← glide_dock_path cwd;
         if os_path_isfile cwd path_results then Return ()
         else Raise (ResultsMissingError "3_docking_job/job")
       else if decide (protocol = "score") then
         paths_to_check ← glide_score_paths cwd;
         if decide (length paths_to_check = 0)
         then Raise (ResultsMissingError "3_docking_job/glide_score")
         else Return ()
       else Return ());
  Return (Analyzer.set_docking_tool "glide" self).

(** The counting loop of rDock's 'score' protocol: the state is
    [(output_files, input_folders)]. *)
Definition count_outputs (cwd : Node) (st : nat * nat) (folder : string)
  : PyResult (nat * nat) :=
  files ← os_listdir cwd ["3_docking_job"; "rdock_score"; folder];
  Return (st.1 + length (filter (fun file => file = "ligand_out.sd") files), S st.2).

Definition rdock_score_folders (cwd : Node) : PyResult (list string) :=
  let path_score := ["3_docking_job"; "rdock_score"] in
  names ← os_listdir cwd path_score;
  Return (filter (fun x => os_path_isdir cwd (path_score ++ [x]) = true) names).

(** [output_files/input_folders], exactly. The code compares the
    binary64 quotient with 1; for counts below 2^53 the two comparisons
    agree. *)
Definition true_divide (a b : nat) : PyResult Q :=
  match b with
  | O => Raise ZeroDivisionError
  | S _ => Return (Z.of_nat a # Pos.of_nat b)
  end.

Definition _rdockDockingResultsChecker (cwd : Node) (self : Analyzer.t) (protocol : string)
  : PyResult Analyzer.t :=
  if decide (protocol = "dock") then
    let self := Analyzer.set_docking_tool "rdock" (Analyzer.set_protocol "dock" self) in
    names ← os_listdir cwd ["3_docking_job"; "job"; "results"];
    path_results ← first_item (filter (fun x => endswith ".sd" x = true) names);
    if decide (String.length path_results = 0)
    then (* [path_results[0]] of an empty string *) Raise IndexError
    else Return self
  else if decide (protocol = "score") then
    let self := Analyzer.set_docking_tool "rdock" (Analyzer.set_protocol "score" self) in
    folders ← rdock_score_folders cwd;
    counts ← for_each (count_outputs cwd) (0, 0) folders;
    outputs_per_inputs ← true_divide counts.1 counts.2;
    if Qeq_bool outputs_per_inputs 1 then Return self else Raise OutputError
  else Raise ProtocolError.

(** ** Molecular weights ([_molecularWeightCalculator])

    RDKit is a parameter: [MolFromSmiles] returns [None] for a SMILES it
    cannot parse, and [ExactMolWt] called with [None] raises
    Boost.Python.ArgumentError. *)

Class RDKit : Type := {
  Mol : Type;
  MolFromSmiles : string -> option Mol;
  ExactMolWt : Mol -> float
}.

(** [ExactMolWt(mol)] for the value [mol] that [MolFromSmiles] returned. *)
Definition call_ExactMolWt `{RDKit} (mol : option Mol) : PyResult float :=
  match mol with
  | Some m => Return (ExactMolWt m)
  | None => Raise ArgumentError
  end.

Definition calculate_molecular_weight `{RDKit} (smiles : string) : PyResult float :=
  let mol := MolFromSmiles smiles in
  call_ExactMolWt mol.

(** [df.iloc[:, 0].apply(calculate_molecular_weight)]: the SMILES in
    order, the first exception ending the batch. *)
Definition molecular_weights `{RDKit} (smiles : list string) : PyResult (list float) :=
  comprehension calculate_molecular_weight smiles.

Definition _molecularWeightCalculator `{RDKit} (cwd : Node) (self : Analyzer.t)
  : PyResult Analyzer.t :=
  _ ← mkdir_if_missing cwd ["3_docking_job"; "images"];
  _ ← mkdir_if_missing cwd ["1_input_files"; "molecular_weight"];
  names ← os_listdir cwd ["1_input_files"; "ligands"];
  ligand_file ← first_item names;
  df ← pd_read_csv cwd ["1_input_files"; "ligands"; ligand_file];
  smiles ← match df with
           | SmilesCsv smiles => Return smiles
           | _ => Raise ValueError
           end;
  weights ← molecular_weights smiles;
  Return (Analyzer.set_molecular_weight (imap pair weights) self).

(** ** Correlation ([_correlationPlotter], [_doubleCorrelationPlotter])

    numpy's mean and population standard deviation and scipy's
    [linregress] are parameters. [linregress] returns [None] where scipy
    raises ValueError (empty input, all x values identical, lengths that
    differ); [Regression] is the tuple it returns otherwise. The figures
    are not modelled: each plotter returns the regressions that annotate
    its plots. *)

Class NumericLibraries : Type := {
  np_mean : list float -> float;
  np_std : list float -> float;
  Regression : Type;
  linregress : list float -> list float -> option Regression
}.

Definition call_linregress `{NumericLibraries} (x y : list float) : PyResult Regression :=
  match linregress x y with
  | Some fit => Return fit
  | None => Raise ValueError
  end.

(** [(x - np.mean(x)) / np.std(x)], element by element; binary64
    division by zero raises nothing. *)
Definition z_score `{NumericLibraries} (x : list float) : list float :=
  (fun v => ((v - np_mean x) / np_std x)%float) <$> x.

Definition _correlationPlotter `{NumericLibraries} (cwd : Node) (x y : list float)
  (docking_method protocol : string) : PyResult (Regression * Regression) :=
  _ ← mkdir_if_missing cwd ["3_docking_job"; "images"];
  let z_x := z_score x in
  let z_y := z_score y in
  fit_z ← call_linregress z_x z_y;
  fit ← call_linregress x y;
  Return (fit_z, fit).

Definition _doubleCorrelationPlotter `{NumericLibraries} (cwd : Node)
  (experimental calculated molecular_weights : list float)
  (docking_method protocol : string) : PyResult (Regression * Regression) :=
  _ ← mkdir_if_missing cwd ["3_docking_job"; "images"];
  let z_mw := z_score molecular_weights in
  let z_exp := z_score experimental in
  let z_cal := z_score calculated in
  fit_exp ← call_linregress z_mw z_exp;
  fit_cal ← call_linregress z_mw z_cal;
  Return (fit_exp, fit_cal).

(** ** The Glide pipeline *)

Definition _glideDataFrameRetriever `{Argsort} (cwd : Node) (self : Analyzer.t)
  (protocol : string) : PyResult Analyzer.t :=
  if decide (protocol = "dock") then
    path_results ← glide_dock_path cwd;
    df_og ← pd_read_csv cwd path_results;
    match df_og with
    | GlideCsv dtype df =>
      df ← insert_conformer df;
      Return (Analyzer.set_calculated_data (GlideBestPoses dtype (glide_best_poses df)) self)
    | _ => (* [df_og[columns_to_keep]] without those columns *) Raise KeyError
    end
  else if decide (protocol = "score") then
    paths_to_check ← glide_score_paths cwd;
    dfs ← comprehension (pd_read_csv cwd) paths_to_check;
    match dfs with
    | [] => (* [pd.concat([])] *) Raise ValueError
    | _ => Return (Analyzer.set_calculated_data (GlideMerged dfs) self)
    end
  else Return self.

(** The column [r_i_docking_score] of [self.calculated_data] for Glide,
    [rdock_score] for rDock. *)
Definition table_column (col : forall dtype : LabelDtype, @Glide.CsvRow dtype -> float)
  (missing : PyExn) (table : FileData) : PyResult (list float) :=
  match table with
  | GlideCsv dtype rows => Return (col dtype <$> rows)
  | _ => Raise missing
  end.

Definition glide_scores (data : option CalculatedData) : PyResult (list float) :=
  match data with
  | Some data =>
    match data with
    | GlideBestPoses _ rows => Return (glide_score <$> rows)
    | GlideMerged tables =>
      columns ← comprehension (table_column (@Glide.r_i_docking_score) AttributeError) tables;
      Return (concat columns)
    | RdockBestPoses _ _ => Raise AttributeError
    end
  | None => Raise AttributeError
  end.

Definition rdock_scores (data : option CalculatedData) : PyResult (list float) :=
  match data with
  | Some data =>
    match data with
    | RdockBestPoses _ rows => Return ((fun r => Rdock.rdock_score (Rdock.pose r)) <$> rows)
    | _ => Raise AttributeError
    end
  | None => Raise AttributeError
  end.

(** The last field of [experimental_data.split('/')]. *)
Definition base_name (experimental_data : string) : string :=
  default "" (last (split_on "/"%char experimental_data)).

(** The body of [_correlation]. When the folder of experimental energies
    is missing it is made and the file moved into it, so the table read
    is the one found under [file_name]. An empty [file_name] joined to
    the folder is the folder itself. *)
Definition correlation_body `{NumericLibraries} (cwd : Node) (self : Analyzer.t)
  (experimental_data column_name protocol : string)
  : PyResult ((Regression * Regression) * (Regression * Regression)) :=
  let file_name := base_name experimental_data in
  let folder := ["1_input_files"; "experimental_energies"] in
  path ← (if os_path_isdir cwd folder
          then Return (if decide (file_name = "") then folder else folder ++ [file_name])
          else _ ← mkdir_if_missing cwd folder;
               _ ← resolve [file_name] cwd;
               Return [file_name]);
  df_experimental ← pd_read_csv cwd path;
  x ← match df_experimental with
      | AffinityCsv columns =>
        match columns !! column_name with
        | Some x => Return x
        | None => Raise KeyError
        end
      | _ => Raise KeyError
      end;
  mw ← match Analyzer.molecular_weight self with
       | Some df_mw => Return df_mw.*2
       | None => Raise AttributeError
       end;
  y ← match Analyzer.docking_tool self with
      | Some tool =>
        if decide (tool = "rdock") then rdock_scores (Analyzer.calculated_data self)
        else if decide (tool = "glide") then glide_scores (Analyzer.calculated_data self)
        else Raise UnboundLocalError
      | None => Raise UnboundLocalError
      end;
  fits ← _correlationPlotter cwd x y (default "" (Analyzer.docking_tool self)) protocol;
  mw_fits ← _doubleCorrelationPlotter cwd x y mw
              (default "" (Analyzer.docking_tool self)) protocol;
  Return (fits, mw_fits).

(** A call of a method that has [parameters] required positional
    parameters besides [self]: with another number of arguments Python
    raises TypeError before the body runs. *)
Definition call_method {A : Type} (parameters : list string) (args : list string)
  (body : list string -> PyResult A) : PyResult A :=
  if decide (length args = length parameters) then body args else Raise TypeError.

(** [def _correlation(self, experimental_data, column_name, protocol)],
    called with [args]. *)
Definition _correlation `{NumericLibraries} (cwd : Node) (self : Analyzer.t)
  (args : list string)
  : PyResult ((Regression * Regression) * (Regression * Regression)) :=
  call_method ["experimental_data"; "column_name"; "protocol"] args
    (fun args =>
       match args with
       | [experimental_data; column_name; protocol] =>
         correlation_body cwd self experimental_data column_name protocol
       | _ => Raise TypeError
       end).

(** [_glideTimePlotter] reads [df['r_glide_cpu_time']]. What pyplot
    and seaborn do with the column is not modelled (seaborn draws no
    density line for a column of equal values, and the line the code then
    asks for is missing); [glideAnalysis] never reaches this step. *)
Definition _glideTimePlotter (self : Analyzer.t) : PyResult (list float) :=
  match Analyzer.calculated_data self with
  | Some data =>
    match data with
    | GlideBestPoses _ rows =>
      Return ((fun r => Glide.r_glide_cpu_time (Glide.raw r)) <$> rows)
    | GlideMerged tables =>
      columns ← comprehension (table_column (@Glide.r_glide_cpu_time) KeyError) tables;
      Return (concat columns)
    | RdockBestPoses _ _ => Raise KeyError
    end
  | None => Raise TypeError
  end.

(** What a completed analysis has produced: the object and the
    regressions of the correlation plots. *)
Definition AnalysisOutput `{NumericLibraries} : Type :=
  Analyzer.t * ((Regression * Regression) * (Regression * Regression)).

Definition glideAnalysis `{Argsort} `{RDKit} `{NumericLibraries} (cwd : Node)
  (self : Analyzer.t) (experimental_data column_name protocol : string)
  : PyResult AnalysisOutput :=
  let self := Analyzer.set_protocol protocol self in
  self ← _glideDockingResultsChecker cwd self protocol;
  self ← _glideDataFrameRetriever cwd self protocol;
  self ← _molecularWeightCalculator cwd self;
  correlation ← _correlation cwd self [experimental_data; column_name];
  _ ← _glideTimePlotter self;
  Return (self, correlation).

(** ** Rescoring ingestion ([_rdockDataFrameGenerator], 'score' protocol)

    One file [ligand_out.sd] per ligand folder; the ligand is the name
    of the folder. The state of the pass over one file is [counter], the
    flag [score_bool] and the rows appended to [data] so far; the score
    is read and appended in one step, so no variable outlives a line. *)

Module Rescore.
Record DataRow : Type := {
  file_name : string;
  file_entry : Z;
  ligand : string;
  rdock_score : string
}.
End Rescore.

Record RescoreState : Type := {
  rescore_counter : Z;
  rescore_score_bool : bool;
  rescore_data : list Rescore.DataRow
}.

(** One iteration of [for line in file]. *)
Definition rescore_line (filename : string) (st : RescoreState) (line : string)
  : PyResult RescoreState :=
  data' ← (if rescore_score_bool st
           then score ← first_item (split_blank line);
                Return (rescore_data st ++
                  [{| Rescore.file_name := filename;
                      Rescore.file_entry := rescore_counter st;
                      Rescore.ligand := filename;
                      Rescore.rdock_score := score |}])
           else Return (rescore_data st));
  Return {| rescore_counter :=
              if contains "$$$$" line then (rescore_counter st + 1)%Z else rescore_counter st;
            rescore_score_bool := contains ">  <SCORE>" line;
            rescore_data := data' |}.

(** The pass over the output file of one folder: [None] stands for a
    folder without [ligand_out.sd], where [open] raises. *)
Definition rescore_file (data : list Rescore.DataRow) (folder : string * option (list string))
  : PyResult (list Rescore.DataRow) :=
  match folder.2 with
  | Some lines =>
    st ← for_each (rescore_line folder.1)
           {| rescore_counter := 1; rescore_score_bool := false; rescore_data := data |} lines;
    Return (rescore_data st)
  | None => Raise FileNotFoundError
  end.

(** The rows written to [rDock_rescore_data.csv], from the folders of
    [3_docking_job/rdock_score] in the order of the directory listing,
    each given with the lines of its output file. *)
Definition rdock_rescore_rows (folders : list (string * option (list string)))
  : PyResult (list Rescore.DataRow) :=
  for_each rescore_file [] folders.

(** ** Annotations of one SD file ([rdockOutputToDataFrame])

    A molecule of the file is the map of its annotations: [GetProp]
    raises KeyError for a name it does not hold. The supplier yields
    [None] for a record RDKit cannot read. Python's [float] on a string
    is a parameter: [None] where it raises ValueError. *)

Class PyFloat : Type := {
  float_of_string : string -> option float
}.

Definition SDMol : Type := gmap string string.

Definition GetProp (mol : SDMol) (prop : string) : PyResult string :=
  match mol !! prop with
  | Some value => Return value
  | None => Raise KeyError
  end.

Definition call_float `{PyFloat} (s : string) : PyResult float :=
  match float_of_string s with
  | Some x => Return x
  | None => Raise ValueError
  end.

(** A value of a column of scores: a float, or the default, which is
    the integer 0. *)
Inductive PyNumber : Type :=
| PyFloatValue (x : float)
| PyIntValue (n : Z).

(** [try: return float(mol.GetProp(prop))] / [except: return default]. *)
Definition extract_property `{PyFloat} (mol : SDMol) (prop : string) (default : PyNumber)
  : PyNumber :=
  match (s ← GetProp mol prop; call_float s) with
  | Return x => PyFloatValue x
  | Raise _ => default
  end.

Definition properties : list string :=
  ["SCORE"; "SCORE.INTER"; "SCORE.INTER.CONST"; "SCORE.INTER.POLAR";
   "SCORE.INTER.REPUL"; "SCORE.INTER.ROT"; "SCORE.INTER.VDW";
   "SCORE.INTRA"; "SCORE.INTRA.DIHEDRAL"; "SCORE.INTRA.DIHEDRAL.0";
   "SCORE.INTRA.POLAR"; "SCORE.INTRA.POLAR.0"; "SCORE.INTRA.REPUL";
   "SCORE.INTRA.REPUL.0"; "SCORE.INTRA.VDW"; "SCORE.INTRA.VDW.0";
   "SCORE.SYSTEM"; "SCORE.SYSTEM.CONST"; "SCORE.SYSTEM.DIHEDRAL";
   "SCORE.SYSTEM.POLAR"; "SCORE.SYSTEM.REPUL"; "SCORE.SYSTEM.VDW"].

(** [mol_dict]: the keys [Name] and [Conformer], then one key per score
    property, in the order of [properties]. *)
Record MolDict : Type := {
  Name : string;
  Conformer : string;
  scores : list (string * PyNumber)
}.

(** [fields[-2]]. *)
Definition second_to_last (fields : list string) : PyResult string :=
  match reverse fields with
  | _ :: field :: _ => Return field
  | _ => Raise IndexError
  end.

Definition mol_dict `{PyFloat} (protocol : string) (mol : SDMol) : PyResult MolDict :=
  molecule_name ← (if decide (protocol = "dock") then GetProp mol "Name"
                   else name ← GetProp mol "Name";
                        second_to_last (split_on "/"%char name));
  molecule_conformer ← (if decide (protocol = "dock") then GetProp mol "s_lp_Variant"
                        else Return "-");
  Return {| Name := molecule_name;
            Conformer := molecule_conformer;
            scores := (fun prop => (prop, extract_property mol prop (PyIntValue 0)))
                        <$> properties |}.

(** The loop over [enumerate(supplier)]: [sdf_dict] as the list of its
    items, in insertion order. The frame returned has one row per item,
    labelled by its key. *)
Definition rdockOutputToDataFrame `{PyFloat} (supplier : list (option SDMol))
  (protocol : string) : PyResult (list (nat * MolDict)) :=
  for_each (fun sdf_dict (item : nat * option SDMol) =>
              match item.2 with
              | Some mol =>
                d ← mol_dict protocol mol;
                Return (sdf_dict ++ [(item.1, d)])
              | None => Return sdf_dict
              end)
           [] (imap pair supplier).

(** ** Sample inputs

    Tables whose names are not all digits: pandas reads the column of
    names with the object dtype. *)

Definition rdock_row (entry : Z) (ligand conformer : string) (score : float)
  : @Rdock.Row object_dtype :=
  @Rdock.Build_Row object_dtype "split1.sd" entry (Some ligand) conformer score.

Definition glide_row (title : string) (lignum conformer : Z) (score : float)
  : @Glide.Row object_dtype :=
  @Glide.Build_Row object_dtype
    (@Glide.Build_CsvRow object_dtype "CCO" (Some title) lignum 1.5%float score) conformer.

(** Ligand L1 with conformer scores -8.25, -7.5 and -9, and ligand L0. *)
Definition rdock_sample : list (@Rdock.Row object_dtype) :=
  [rdock_row 1 "L1" "1" (-8.25)%float; rdock_row 2 "L1" "2" (-7.5)%float;
   rdock_row 3 "L0" "1" (-3)%float; rdock_row 51 "L1" "3" (-9)%float].

Definition glide_sample : list (@Glide.Row object_dtype) :=
  [glide_row "L1" 4 1 (-8.25)%float; glide_row "L1" 5 2 (-9)%float;
   glide_row "L0" 6 1 (-3)%float].

(** Two poses of one ligand with the same score. *)
Definition tied_pose_1 : @Rdock.Row object_dtype := rdock_row 1 "L1" "1" (-9)%float.
Definition tied_pose_2 : @Rdock.Row object_dtype := rdock_row 2 "L1" "2" (-9)%float.

Definition glide_csv_row (title : string) (lignum : Z) : @Glide.CsvRow object_dtype :=
  @Glide.Build_CsvRow object_dtype "CCO" (Some title) lignum 1.5%float (-7)%float.

(** Three runs: ligand a from raw value 5, ligand b from 3, ligand a
    again from 1. *)
Definition glide_csv_sample : list (@Glide.CsvRow object_dtype) :=
  [glide_csv_row "a" 5; glide_csv_row "a" 6; glide_csv_row "a" 9;
   glide_csv_row "b" 3; glide_csv_row "b" 4; glide_csv_row "a" 1].

(** A shard with two records: the first has a score and an identifier,
    the second an identifier only. *)
Definition shard_missing_score : list string :=
  [">  <SCORE>" +:+ nl; "-8.5" +:+ nl; nl;
   ">  <s_lp_Variant>" +:+ nl; "L1-1" +:+ nl; nl; "$$$$" +:+ nl;
   ">  <s_lp_Variant>" +:+ nl; "L2-1" +:+ nl; nl; "$$$$" +:+ nl].

(** A shard whose only record has an identifier and no score. *)
Definition shard_no_score_at_all : list string :=
  [">  <s_lp_Variant>" +:+ nl; "L2-1" +:+ nl; nl; "$$$$" +:+ nl].

(** A shard whose only record has a score and no identifier. *)
Definition shard_missing_identifier : list string :=
  [">  <SCORE>" +:+ nl; "-8.5" +:+ nl; nl; "$$$$" +:+ nl].

(** Working directories. *)
Definition in_docking_job (name : string) (node : Node) : Node :=
  Dir {[ "3_docking_job" := Dir {[ name := node ]} ]}.

Definition output_file : Node := File (TextFile []).

(** rDock rescoring: two ligand folders, none with an output file. *)
Definition rdock_score_no_outputs : Node :=
  in_docking_job "rdock_score" (Dir {[ "L1" := Dir ∅; "L2" := Dir ∅ ]}).

(** rDock rescoring: two ligand folders, one without its output file. *)
Definition rdock_score_one_missing : Node :=
  in_docking_job "rdock_score"
    (Dir {[ "L1" := Dir {[ "ligand_out.sd" := output_file ]}; "L2" := Dir ∅ ]}).

(** rDock rescoring: both ligand folders hold their output file. *)
Definition rdock_score_complete : Node :=
  in_docking_job "rdock_score"
    (Dir {[ "L1" := Dir {[ "ligand_out.sd" := output_file ]};
            "L2" := Dir {[ "ligand_out.sd" := output_file ]} ]}).

(** Glide rescoring: no ligand folder at all. *)
Definition glide_score_empty : Node := in_docking_job "glide_score" (Dir ∅).

(** Glide rescoring: two ligand folders, one without its result table. *)
Definition glide_score_one_missing : Node :=
  in_docking_job "glide_score"
    (Dir {[ "L1" := Dir {[ "L1_score.csv" := File (GlideCsv object_dtype []) ]}; "L2" := Dir ∅ ]}).

(** ** Stand-ins for the libraries

    Instances of the library parameters, for evaluating the code on
    sample inputs. They follow what the libraries document and are not
    claimed to agree with them bit for bit. *)

(** RDKit: a SMILES with a question mark does not parse; a molecule
    weighs its number of characters. *)
Definition float_of_nat (n : nat) : float := PrimFloat.of_uint63 (Uint63.of_Z (Z.of_nat n)).

Definition rdkit_stand_in : RDKit :=
  {| Mol := string;
     MolFromSmiles := fun smiles => if contains "?" smiles then None else Some smiles;
     ExactMolWt := fun mol => float_of_nat (String.length mol) |}.

(** numpy and scipy: mean and population standard deviation summed from
    left to right; [linregress] with scipy's checks of its input (empty,
    lengths that differ, all x values identical) and the textbook
    slope, intercept and correlation coefficient. *)
Definition mean_of (x : list float) : float :=
  (foldl PrimFloat.add 0 x / float_of_nat (length x))%float.

Definition std_of (x : list float) : float :=
  let m := mean_of x in
  PrimFloat.sqrt (mean_of ((fun v => ((v - m) * (v - m))%float) <$> x)).

Definition covariance_of (x y : list float) : float :=
  let mx := mean_of x in
  let my := mean_of y in
  mean_of (zip_with (fun a b => ((a - mx) * (b - my))%float) x y).

Definition linregress_of (x y : list float) : option (float * float * float) :=
  match x with
  | [] => None
  | x0 :: rest =>
    if negb (length x =? length y)%nat then None
    else if (1 <? length x)%nat && forallb (fun v => PrimFloat.eqb v x0) rest then None
    else
      let ssxm := covariance_of x x in
      let ssym := covariance_of y y in
      let ssxym := covariance_of x y in
      let r := if (PrimFloat.eqb ssxm 0 || PrimFloat.eqb ssym 0)%bool then 0%float
               else (ssxym / PrimFloat.sqrt (ssxm * ssym))%float in
      let r := if PrimFloat.ltb 1 r then 1%float
               else if PrimFloat.ltb r (-1) then (-1)%float else r in
      let slope := (ssxym / ssxm)%float in
      Some (slope, (mean_of y - slope * mean_of x)%float, r)
  end.

Definition numeric_stand_in : NumericLibraries :=
  {| np_mean := mean_of; np_std := std_of;
     Regression := float * float * float; linregress := linregress_of |}.

(** A working directory that holds only the folder [3_docking_job]. *)
Definition docking_job_folder : Node := Dir {[ "3_docking_job" := Dir ∅ ]}.

(** A working directory after a Glide 'dock' run: the result table, and
    the ligand file with one SMILES per line. *)
Definition glide_dock_complete : Node :=
  Dir {[ "3_docking_job" :=
           Dir {[ "job" := Dir {[ "results.csv" := File (GlideCsv object_dtype glide_csv_sample) ]} ]};
         "1_input_files" :=
           Dir {[ "ligands" := Dir {[ "ligands.csv" := File (SmilesCsv ["CCO"; "CC"]) ]} ]} ]}.

(** A working directory where the folder for the plots exists. *)
Definition images_folder : Node :=
  Dir {[ "3_docking_job" := Dir {[ "images" := Dir ∅ ]} ]}.

(** ** More sample inputs *)

(** One record per ligand. *)
Definition rdock_single_records : list (@Rdock.Row object_dtype) :=
  [rdock_row 1 "L2" "1" (-8.25)%float; rdock_row 2 "L0" "1" (-7.5)%float;
   rdock_row 3 "L1" "2" (-9)%float].

Definition glide_single_records : list (@Glide.Row object_dtype) :=
  [glide_row "L1" 4 1 (-8.25)%float; glide_row "L0" 6 1 (-3)%float].

(** A working directory after an rDock 'dock' run: one shard and a log. *)
Definition rdock_dock_results : Node :=
  in_docking_job "job"
    (Dir {[ "results" := Dir {[ "split1.sd" := output_file; "log.txt" := output_file ]} ]}).

(** A Glide job folder whose only entry with a [.csv] name is a folder. *)
Definition glide_dock_csv_folder : Node :=
  in_docking_job "job" (Dir {[ "old.csv" := Dir ∅ ]}).

(** A working directory after a Glide 'score' run: two ligand folders,
    each with its result table. *)
Definition glide_score_complete : Node :=
  in_docking_job "glide_score"
    (Dir {[ "L1" := Dir {[ "L1_score.csv" := File (GlideCsv object_dtype [glide_csv_row "a" 1]) ]};
            "L2" := Dir {[ "L2_score.csv" := File (GlideCsv object_dtype [glide_csv_row "b" 1]) ]} ]}).

(** ** Tables of other dtypes and at the limits of int64 *)

(** Ligands named 10 and 9: pandas reads the names as int64. *)
Definition rdock_int_row (entry ligand : Z) (score : float) : @Rdock.Row int64_dtype :=
  @Rdock.Build_Row int64_dtype "split1.sd" entry (Some ligand) "1" score.

Definition rdock_int_sample : list (@Rdock.Row int64_dtype) :=
  [rdock_int_row 1 10 (-8.25)%float; rdock_int_row 2 9 (-7.5)%float;
   rdock_int_row 3 10 (-9)%float].

(** One title; the second raw value is far below the first. *)
Definition glide_csv_overflow : list (@Glide.CsvRow object_dtype) :=
  [glide_csv_row "a" (2 ^ 63 - 1); glide_csv_row "a" (-2)].

(** One title; the second raw value is far above the first. *)
Definition glide_csv_wrap : list (@Glide.CsvRow object_dtype) :=
  [glide_csv_row "a" (-1); glide_csv_row "a" (2 ^ 63 - 2)].

(** Three rows whose title cell is empty. *)
Definition glide_csv_untitled (lignum : Z) : @Glide.CsvRow object_dtype :=
  @Glide.Build_CsvRow object_dtype "CCO" None lignum 1.5%float (-7)%float.

Definition glide_csv_no_titles : list (@Glide.CsvRow object_dtype) :=
  [glide_csv_untitled 1; glide_csv_untitled 2; glide_csv_untitled 3].


(** * Specifications

    The predicates in which the properties below are stated. *)

Class KeyOrderLaws (K : Type) `{KeyOrder K} : Prop := {
  key_le_total : forall a b : K, key_le a b = true \/ key_le b a = true;
  key_le_trans : forall a b c : K,
    key_le a b = true -> key_le b c = true -> key_le a c = true
}.

(** [score_le] on the specification of binary64 values. *)
Definition sf_le (a b : spec_float) : bool :=
  match SFcompare b b with Some Eq => false | _ => true end || SFleb a b.

(** What the code relies on from [argsort]: a permutation of the
    positions that puts the keys in order. *)
Class ArgsortSorts `{Argsort} : Prop :=
  argsort_sorts : forall (K : Type) (O : KeyOrder K), KeyOrderLaws K ->
    forall ks : list K,
      argsort K O ks ≡ₚ seq 0 (length ks) /\
      Sorted (fun a b => key_le a b = true) (take_rows ks (argsort K O ks)).

Definition le_on {Row K : Type} `{KeyOrder K} (col : Row -> K) : relation Row :=
  fun a b => key_le (col a) (col b) = true.

(** Position [i] holds a key that is not after the key at position [j]. *)
Definition index_le {K : Type} `{KeyOrder K} (ks : list K) (i j : nat) : Prop :=
  exists a b, ks !! i = Some a /\ ks !! j = Some b /\ key_le a b = true.

(** What the reductions rely on from the dtype of a column of names:
    its order is a total order. *)
Class LabelLaws `{LabelDtype} : Prop := {
  label_le_total : forall a b : Label, label_le a b = true \/ label_le b a = true;
  label_le_trans : forall a b c : Label,
    label_le a b = true -> label_le b c = true -> label_le a c = true;
  label_le_antisym : forall a b : Label,
    label_le a b = true -> label_le b a = true -> a = b
}.

(** [out] is a reduction of [df]: one row per ligand id of [df], each a
    row of [df] whose score is minimal for its ligand, in ascending order
    of ligand id (each id is before the ids after it in the order of the
    column, and differs from them). *)
Record best_pose_per_ligand {Row K : Type} `{Countable K} `{KeyOrder K}
  (ligand : Row -> K) (score : Row -> float) (df out : list Row) : Prop := {
  one_per_ligand : NoDup (ligand <$> out);
  same_ligands : forall l, l ∈ ligand <$> out <-> l ∈ ligand <$> df;
  count_distinct : length out = size (list_to_set (C := gset K) (ligand <$> df));
  minimum_score : forall r, r ∈ out ->
    r ∈ df /\ forall r', r' ∈ df -> ligand r' = ligand r -> score_le (score r) (score r') = true;
  ascending :
    StronglySorted (fun a b => key_le (ligand a) (ligand b) = true /\ ligand a ≠ ligand b) out
}.

(** Two reductions name the same ligands in the same order, with scores
    that tie ligand by ligand. *)
Definition same_winners {Row K : Type} (ligand : Row -> K) (score : Row -> float)
  (out1 out2 : list Row) : Prop :=
  ligand <$> out1 = ligand <$> out2 /\
  forall r1 r2, r1 ∈ out1 -> r2 ∈ out2 -> ligand r1 = ligand r2 ->
    key_tie (score r1) (score r2).

(** No two different rows of one ligand tie on score. *)
Definition no_score_ties {Row K : Type} (ligand : Row -> K) (score : Row -> float)
  (df : list Row) : Prop :=
  forall r r', r ∈ df -> r' ∈ df -> ligand r = ligand r' ->
    key_tie (score r) (score r') -> r = r'.

(** Row [i] belongs to the run of rows with one title that starts at row
    [j]: the rows after [j] up to [i] hold the title of row [j], which is
    a name and not NaN (Python's [!=] fails between them), and row [j] is
    the first row of the table or [!=] holds between its title and the
    one before it. A row without a title is a run of its own. *)
Definition run_starts_at `{LabelDtype} (df : list Glide.CsvRow) (j i : nat) : Prop :=
  j <= i /\
  (forall k, j < k <= i -> exists rk rj,
     df !! k = Some rk /\ df !! j = Some rj /\
     name_ne (Glide.title rk) (Glide.title rj) = false) /\
  (j = 0 \/ exists rj rp,
     df !! j = Some rj /\ df !! (j - 1) = Some rp /\
     name_ne (Glide.title rj) (Glide.title rp) = true).

(** The value of [prev_value] in each iteration, after its update. *)
Fixpoint prev_values `{LabelDtype} (prev : option (option Label * Z))
  (rows : list Glide.CsvRow) : list Z :=
  match rows with
  | [] => []
  | row :: rest =>
    let prev' := update_prev prev row in
    prev'.2 :: prev_values (Some prev') rest
  end.

Definition iterrows_from `{LabelDtype} (off : nat) (rows : list Glide.CsvRow)
  : list (nat * Glide.CsvRow) :=
  imap (fun i row => (off + i, row)) rows.

(** A ligand folder of rDock's rescoring holds its output file. *)
Definition rdock_has_output (cwd : Node) (folder : string) : Prop :=
  exists files, os_listdir cwd ["3_docking_job"; "rdock_score"; folder] = Return files /\
    "ligand_out.sd" ∈ files.

(** A ligand folder of Glide's rescoring holds a result table. *)
Definition glide_has_output (cwd : Node) (ligand : string) : Prop :=
  exists files, os_listdir cwd ["3_docking_job"; "glide_score"; ligand] = Return files /\
    exists csv, csv ∈ files /\ endswith "_score.csv" csv = true.

(** One of the three stages before the correlation step raises [e]:
    the results check, the data-frame retrieval or the molecular-weight
    calculation, the stages before it having succeeded. *)
Definition earlier_stage_raises `{Argsort} `{RDKit} (cwd : Node) (self : Analyzer.t)
  (protocol : string) (e : PyExn) : Prop :=
  let check := _glideDockingResultsChecker cwd (Analyzer.set_protocol protocol self) protocol in
  check = Raise e \/
  exists self1, check = Return self1 /\
    (_glideDataFrameRetriever cwd self1 protocol = Raise e \/
     exists self2, _glideDataFrameRetriever cwd self1 protocol = Return self2 /\
       _molecularWeightCalculator cwd self2 = Raise e).

(** The three stages before the correlation step succeed. *)
Definition earlier_stages_succeed `{Argsort} `{RDKit} (cwd : Node) (self : Analyzer.t)
  (protocol : string) : Prop :=
  exists self1 self2 self3,
    _glideDockingResultsChecker cwd (Analyzer.set_protocol protocol self) protocol
      = Return self1 /\
    _glideDataFrameRetriever cwd self1 protocol = Return self2 /\
    _molecularWeightCalculator cwd self2 = Return self3.

(** ** Shards in canonical form

    The seven lines of one record of a shard as rDock writes it: the
    score annotation, the identifier annotation, each followed by an
    empty line, and the record terminator. *)

Record ShardRecord : Type := {
  shard_score : string;
  shard_ligand : string;
  shard_conformer : string
}.

Definition record_lines (r : ShardRecord) : list string :=
  [">  <SCORE>" +:+ nl; shard_score r +:+ nl; nl;
   ">  <s_lp_Variant>" +:+ nl; shard_ligand r +:+ "-" +:+ shard_conformer r +:+ nl; nl;
   "$$$$" +:+ nl].

(** A line that holds neither marker nor the record terminator. *)
Definition plain_line (line : string) : bool :=
  negb (contains "$$$$" line) && negb (contains ">  <SCORE>" line)
  && negb (contains ">  <s_lp_Variant>" line).

Definition chars (s : string) : list ascii := String.list_ascii_of_string s.

(** The score is one token, the ligand name and the conformer hold no
    hyphen, and the two value lines are plain. *)
Definition well_formed_record (r : ShardRecord) : Prop :=
  shard_score r ≠ "" /\
  Forall (fun a => py_isspace a = false) (chars (shard_score r)) /\
  Forall (fun a => a ≠ "-"%char) (chars (shard_ligand r)) /\
  Forall (fun a => a ≠ "-"%char) (chars (shard_conformer r)) /\
  plain_line (shard_score r +:+ nl) = true /\
  plain_line (shard_ligand r +:+ "-" +:+ shard_conformer r +:+ nl) = true.

(** The row the parser is to give for the record at position [i] of the
    file: the conformer keeps the newline of its line. *)
Definition record_row (filename : string) (i : nat) (r : ShardRecord) : Rdock.DataRow :=
  {| Rdock.data_file_name := filename;
     Rdock.data_file_entry := Z.of_nat i + 1;
     Rdock.data_ligand := shard_ligand r;
     Rdock.data_conformer := shard_conformer r +:+ nl;
     Rdock.data_rdock_score := shard_score r |}.

Definition shard_file (file : string * list ShardRecord) : string * list string :=
  (file.1, concat (record_lines <$> file.2)).

Definition shard_rows (file : string * list ShardRecord) : list Rdock.DataRow :=
  imap (record_row file.1) file.2.

(** Two shards in canonical form and a file that is no shard. *)
Definition shard_files_sample : list (string * list ShardRecord) :=
  [("split1.sd",
    [{| shard_score := "-8.5"; shard_ligand := "L1"; shard_conformer := "1" |};
     {| shard_score := "-7.25"; shard_ligand := "L1"; shard_conformer := "2" |}]);
   ("notes.sd",
    [{| shard_score := ""; shard_ligand := "a-b"; shard_conformer := "$$$$" |}]);
   ("split2.sd",
    [{| shard_score := "-9.0"; shard_ligand := "L2"; shard_conformer := "1" |}])].

(** ** Rescoring output in canonical form *)

(** The score of a record is one token and its two value lines are
    plain: what the rescoring pass needs of a record. *)
Definition well_formed_score (r : ShardRecord) : Prop :=
  shard_score r ≠ "" /\
  Forall (fun a => py_isspace a = false) (chars (shard_score r)) /\
  plain_line (shard_score r +:+ nl) = true /\
  plain_line (shard_ligand r +:+ "-" +:+ shard_conformer r +:+ nl) = true.

Definition rescore_row (folder : string) (i : nat) (r : ShardRecord) : Rescore.DataRow :=
  {| Rescore.file_name := folder;
     Rescore.file_entry := Z.of_nat i + 1;
     Rescore.ligand := folder;
     Rescore.rdock_score := shard_score r |}.

Definition rescore_folder (folder : string * list ShardRecord)
  : string * option (list string) :=
  (folder.1, Some (concat (record_lines <$> folder.2))).

Definition rescore_rows (folder : string * list ShardRecord) : list Rescore.DataRow :=
  imap (rescore_row folder.1) folder.2.

(** A line with the score marker is followed by a line without any
    token. *)
Definition blank_after_marker (lines : list string) : Prop :=
  exists (i : nat) (line next : string),
    lines !! i = Some line /\ contains ">  <SCORE>" line = true /\
    lines !! S i = Some next /\ split_blank next = [].

(** The pass over a folder cannot be completed: its output file is
    missing, or a score marker of the file is followed by a blank line. *)
Definition unreadable_folder (folder : string * option (list string)) : Prop :=
  match folder.2 with
  | Some lines => blank_after_marker lines
  | None => True
  end.

(** Output folders of a rescoring run, in canonical form. *)
Definition rescore_folders_sample : list (string * list ShardRecord) :=
  [("L1", [{| shard_score := "-8.5"; shard_ligand := "L1"; shard_conformer := "1" |}]);
   ("L2", [{| shard_score := "-9.0"; shard_ligand := "L2"; shard_conformer := "1" |};
           {| shard_score := "-7.5"; shard_ligand := "a-b-c"; shard_conformer := "2" |}])].

(** ** Records without a score *)

(** The value of the variable [score] after the records [records] have
    been read, [s0] being its value before. *)
Definition last_score (s0 : option string) (records : list ShardRecord) : option string :=
  match last records with
  | Some r => Some (shard_score r)
  | None => s0
  end.

(** The lines of a record that has an identifier and no score. *)
Definition identifier_lines (r : ShardRecord) : list string :=
  [">  <s_lp_Variant>" +:+ nl; shard_ligand r +:+ "-" +:+ shard_conformer r +:+ nl; nl;
   "$$$$" +:+ nl].

Definition well_formed_identifier (r : ShardRecord) : Prop :=
  Forall (fun a => a ≠ "-"%char) (chars (shard_ligand r)) /\
  Forall (fun a => a ≠ "-"%char) (chars (shard_conformer r)) /\
  plain_line (shard_ligand r +:+ "-" +:+ shard_conformer r +:+ nl) = true.

(** A shard of two complete records, read before a record without
    score. *)
Definition complete_records_sample : list ShardRecord :=
  [{| shard_score := "-8.5"; shard_ligand := "L1"; shard_conformer := "1" |};
   {| shard_score := "-7.25"; shard_ligand := "L1"; shard_conformer := "2" |}].

Definition record_without_score : ShardRecord :=
  {| shard_score := ""; shard_ligand := "L2"; shard_conformer := "1" |}.

(** ** Annotations of one SD file *)

(** The name and the conformer that a molecule is given: for 'dock' the
    annotations [Name] and [s_lp_Variant]; for any other protocol the
    last but one field of [Name] split at the slashes, and a hyphen. *)
Definition identified (protocol : string) (mol : SDMol) (name conformer : string) : Prop :=
  if decide (protocol = "dock")
  then mol !! "Name" = Some name /\ mol !! "s_lp_Variant" = Some conformer
  else (exists full before last,
          mol !! "Name" = Some full /\
          split_on "/"%char full = before ++ [name; last]) /\
       conformer = "-".

(** The value of a score column: the annotation read as a float, and
    the integer 0 when it is missing or is no float. *)
Definition score_value `{PyFloat} (mol : SDMol) (prop : string) : PyNumber :=
  match mol !! prop ≫= float_of_string with
  | Some x => PyFloatValue x
  | None => PyIntValue 0
  end.

(** The molecules that the supplier could read, with their positions
    counted from [off]. *)
Fixpoint readable_from (off : nat) (supplier : list (option SDMol)) : list (nat * SDMol) :=
  match supplier with
  | [] => []
  | Some mol :: rest => (off, mol) :: readable_from (S off) rest
  | None :: rest => readable_from (S off) rest
  end.

(** A float parser for closed examples: it reads the two strings it
    knows. *)
Definition float_stand_in : PyFloat :=
  {| float_of_string := fun s =>
       if decide (s = "-8.5") then Some (-8.5)%float
       else if decide (s = "1.25") then Some 1.25%float
       else None |}.

(** Three records of an SD file: the second could not be read, the
    third holds a score that is no number. *)
Definition supplier_sample : list (option SDMol) :=
  [Some {[ "Name" := "runs/L1/ligand"; "s_lp_Variant" := "L1-1"; "SCORE" := "-8.5" ]};
   None;
   Some {[ "Name" := "runs/L2/ligand"; "s_lp_Variant" := "L2-1"; "SCORE" := "n/a";
           "SCORE.INTER" := "1.25" ]}].

(** ** The conformer index and the int64 range *)

(** No index of the table leaves the int64 range: for every row, its
    raw value minus the first raw value of its run, and that difference
    plus one, are int64 values. *)
Definition no_int64_overflow `{LabelDtype} (df : list Glide.CsvRow) : Prop :=
  forall i j row first,
    df !! i = Some row -> df !! j = Some first -> run_starts_at df j i ->
    in_int64 (Glide.i_i_glide_lignum row - Glide.i_i_glide_lignum first) = true /\
    in_int64 (Glide.i_i_glide_lignum row - Glide.i_i_glide_lignum first + 1) = true.

(** ** The regression on standardised values *)


(** * Properties *)

(** ** The column orders are total preorders *)

Lemma score_le_sf a b : score_le a b = sf_le (Prim2SF a) (Prim2SF b).
Proof.
  unfold score_le, sf_le, PrimFloat.is_nan.
  rewrite FloatAxioms.eqb_spec, FloatAxioms.leb_spec. unfold SFeqb.
  destruct (SFcompare (Prim2SF b) (Prim2SF b)) as [[]|]; reflexivity.
Qed.

Ltac compare_cases :=
  change (Pos.compare_cont Eq) with Pos.compare in *;
  repeat match goal with
  | |- context [(?a ?= ?b)%Z] => destruct (Z.compare_spec a b); subst; simpl
  | |- context [(?a ?= ?b)%positive] => destruct (Pos.compare_spec a b); subst; simpl
  | H : context [(?a ?= ?b)%Z] |- _ => destruct (Z.compare_spec a b); subst; simpl in H
  | H : context [(?a ?= ?b)%positive] |- _ =>
      destruct (Pos.compare_spec a b); subst; simpl in H
  end.

Lemma sf_le_total a b : sf_le a b = true \/ sf_le b a = true.
Proof.
  unfold sf_le, SFleb.
  destruct a as [[]|[]| |[] m1 e1], b as [[]|[]| |[] m2 e2]; simpl; auto;
    compare_cases; auto; lia.
Qed.

Lemma sf_le_trans a b c : sf_le a b = true -> sf_le b c = true -> sf_le a c = true.
Proof.
  unfold sf_le, SFleb.
  destruct a as [[]|[]| |[] m1 e1], b as [[]|[]| |[] m2 e2], c as [[]|[]| |[] m3 e3];
    simpl; auto; try discriminate; intros H1 H2;
    compare_cases; auto; try discriminate; lia.
Qed.

Lemma score_le_total a b : score_le a b = true \/ score_le b a = true.
Proof. rewrite !score_le_sf. apply sf_le_total. Qed.

Lemma score_le_trans a b c :
  score_le a b = true -> score_le b c = true -> score_le a c = true.
Proof. rewrite !score_le_sf. apply sf_le_trans. Qed.

Lemma string_compare_trans_lt a b c :
  String.compare a b = Lt -> String.compare b c = Lt -> String.compare a c = Lt.
Proof.
  revert b c. induction a as [|x a IH]; intros [|y b] [|z c]; simpl; try discriminate; auto.
  destruct (Ascii.compare x y) eqn:Hxy; try discriminate;
    destruct (Ascii.compare y z) eqn:Hyz; try discriminate; intros H1 H2.
  - apply Ascii.compare_eq_iff in Hxy, Hyz. subst.
    unfold Ascii.compare. rewrite N.compare_refl. eauto.
  - apply Ascii.compare_eq_iff in Hxy. subst. by rewrite Hyz.
  - apply Ascii.compare_eq_iff in Hyz. subst. by rewrite Hxy.
  - unfold Ascii.compare in *. rewrite N.compare_lt_iff in Hxy, Hyz.
    by rewrite (proj2 (N.compare_lt_iff _ _) (N.lt_trans _ _ _ Hxy Hyz)).
Qed.

Lemma string_le_total a b : string_le a b = true \/ string_le b a = true.
Proof. apply String.leb_total. Qed.

Lemma string_compare_refl a : String.compare a a = Eq.
Proof.
  induction a as [|x a IH]; simpl; [done|].
  unfold Ascii.compare. by rewrite N.compare_refl.
Qed.

Lemma string_le_trans a b c :
  string_le a b = true -> string_le b c = true -> string_le a c = true.
Proof.
  unfold string_le, String.leb.
  destruct (String.compare a b) eqn:Hab; try discriminate;
    destruct (String.compare b c) eqn:Hbc; try discriminate; intros _ _.
  - apply String.compare_eq_iff in Hab, Hbc. subst. by rewrite string_compare_refl.
  - apply String.compare_eq_iff in Hab. subst. by rewrite Hbc.
  - apply String.compare_eq_iff in Hbc. subst. by rewrite Hab.
  - by rewrite (string_compare_trans_lt _ _ _ Hab Hbc).
Qed.

Lemma Z_le_total a b : (a <=? b)%Z = true \/ (b <=? a)%Z = true.
Proof. lia. Qed.

Lemma Z_le_trans a b c : (a <=? b)%Z = true -> (b <=? c)%Z = true -> (a <=? c)%Z = true.
Proof. lia. Qed.

Lemma lex_le_total {K1 K2 : Type} `{KeyOrderLaws K1} `{KeyOrderLaws K2} (a b : K1 * K2) :
  lex_le a b = true \/ lex_le b a = true.
Proof.
  unfold lex_le. destruct (key_le_total a.1 b.1) as [E|E]; rewrite E;
    destruct (key_le b.1 a.1) eqn:E1, (key_le a.1 b.1) eqn:E2;
    try discriminate; auto using key_le_total.
Qed.

Lemma lex_le_trans {K1 K2 : Type} `{KeyOrderLaws K1} `{KeyOrderLaws K2} (a b c : K1 * K2) :
  lex_le a b = true -> lex_le b c = true -> lex_le a c = true.
Proof.
  unfold lex_le.
  destruct (key_le a.1 b.1) eqn:Eab; [|discriminate].
  destruct (key_le b.1 c.1) eqn:Ebc; [|intros _; discriminate].
  rewrite (key_le_trans _ _ _ Eab Ebc).
  destruct (key_le b.1 a.1) eqn:Eba, (key_le c.1 b.1) eqn:Ecb, (key_le c.1 a.1) eqn:Eca;
    auto; intros Hab2 Hbc2;
    try (rewrite (key_le_trans _ _ _ Eca Eab) in Ecb; discriminate);
    try (rewrite (key_le_trans _ _ _ Ebc Eca) in Eba; discriminate).
  eauto using key_le_trans.
Qed.


Global Instance float_order_laws : KeyOrderLaws float :=
  {| key_le_total := score_le_total; key_le_trans := score_le_trans |}.
Global Instance string_order_laws : KeyOrderLaws string :=
  {| key_le_total := string_le_total; key_le_trans := string_le_trans |}.
Global Instance Z_order_laws : KeyOrderLaws Z :=
  {| key_le_total := Z_le_total; key_le_trans := Z_le_trans |}.
Global Instance lex_order_laws {K1 K2 : Type} `{KeyOrderLaws K1} `{KeyOrderLaws K2} :
  KeyOrderLaws (K1 * K2) :=
  {| key_le_total := lex_le_total; key_le_trans := lex_le_trans |}.

(** A column of names, NaN last, is ordered as its dtype is. *)
Lemma name_le_total `{LabelLaws} (a b : option Label) :
  name_le a b = true \/ name_le b a = true.
Proof. destruct a, b; simpl; auto using label_le_total. Qed.

Lemma name_le_trans `{LabelLaws} (a b c : option Label) :
  name_le a b = true -> name_le b c = true -> name_le a c = true.
Proof. destruct a, b, c; simpl; try done. apply label_le_trans. Qed.

Lemma name_le_antisym `{LabelLaws} (a b : option Label) :
  name_le a b = true -> name_le b a = true -> a = b.
Proof.
  destruct a, b; simpl; try done. intros Hab Hba. f_equal. by apply label_le_antisym.
Qed.

Global Instance name_order_laws `{LabelLaws} : KeyOrderLaws (option Label) :=
  {| key_le_total := name_le_total; key_le_trans := name_le_trans |}.

Lemma string_le_antisym (a b : string) :
  String.leb a b = true -> String.leb b a = true -> a = b.
Proof.
  unfold String.leb. intros Hab Hba.
  destruct (String.compare a b) eqn:E; [by apply String.compare_eq_iff| |done].
  rewrite String.compare_antisym, E in Hba. done.
Qed.

Global Instance object_dtype_laws : @LabelLaws object_dtype.
Proof.
  split; [exact string_le_total|exact string_le_trans|exact string_le_antisym].
Qed.

Lemma Z_le_antisym (a b : Z) : (a <=? b)%Z = true -> (b <=? a)%Z = true -> a = b.
Proof. lia. Qed.

Global Instance int64_dtype_laws : @LabelLaws int64_dtype.
Proof. split; [exact Z_le_total|exact Z_le_trans|exact Z_le_antisym]. Qed.

(** ** pandas: what sorting and duplicate removal guarantee *)

Lemma take_rows_seq {Row : Type} (df : list Row) :
  take_rows df (seq 0 (length df)) = df.
Proof.
  unfold take_rows. induction df as [|r df IH] using rev_ind; [done|].
  rewrite length_app. simpl. rewrite Nat.add_1_r, seq_S, omap_app. simpl.
  rewrite list_lookup_middle by done. simpl. f_equal.
  rewrite <- IH at 2. apply list_omap_ext. apply Forall2_same_length_lookup.
  split; [done|]. intros i x y Hx Hy. simplify_eq.
  apply lookup_seq in Hx as [-> Hi]. by rewrite lookup_app_l.
Qed.

Lemma take_rows_fmap {Row K : Type} (col : Row -> K) (df : list Row) (idx : list nat) :
  take_rows (col <$> df) idx = col <$> take_rows df idx.
Proof.
  unfold take_rows. rewrite list_fmap_omap. apply list_omap_ext, Forall2_same_length_lookup.
  split; [done|]. intros i x y Hx Hy. simplify_eq. by rewrite list_lookup_fmap.
Qed.

Lemma Sorted_of_fmap {Row K : Type} (R : relation K) (col : Row -> K) (df : list Row) :
  Sorted R (col <$> df) -> Sorted (fun a b => R (col a) (col b)) df.
Proof.
  induction df as [|r df IH]; [constructor|].
  rewrite fmap_cons. intros Hs. apply Sorted_inv in Hs as [Hs Hhd].
  constructor; [by apply IH|]. destruct df; [constructor|].
  apply HdRel_inv in Hhd. by constructor.
Qed.

Section sort_values.
Context `{ArgsortSorts} {Row K : Type} `{KeyOrderLaws K} (col : Row -> K).

Lemma sort_values_Permutation (df : list Row) : sort_values col df ≡ₚ df.
Proof.
  unfold sort_values.
  destruct (argsort_sorts K _ _ (col <$> df)) as [Hp _].
  rewrite length_fmap in Hp. unfold take_rows. rewrite Hp. apply reflexive_eq, take_rows_seq.
Qed.

Global Instance le_on_trans : Transitive (le_on col).
Proof. intros a b c. unfold le_on. apply key_le_trans. Qed.

Lemma le_on_refl (a : Row) : le_on col a a.
Proof. unfold le_on. by destruct (key_le_total (col a) (col a)). Qed.

Lemma sort_values_sorted (df : list Row) : StronglySorted (le_on col) (sort_values col df).
Proof.
  apply Sorted_StronglySorted; [apply _|].
  destruct (argsort_sorts K _ _ (col <$> df)) as [_ Hs].
  rewrite take_rows_fmap in Hs. by apply Sorted_of_fmap in Hs.
Qed.

Lemma sort_values_elem_of (df : list Row) (r : Row) : r ∈ sort_values col df <-> r ∈ df.
Proof. by rewrite sort_values_Permutation. Qed.

End sort_values.

Section drop_duplicates.
Context {Row K : Type} `{EqDecision K} (col : Row -> K).

Lemma drop_duplicates_from_elem_of (seen : list K) (df : list Row) (r : Row) :
  r ∈ drop_duplicates_from col seen df <->
  exists l1 l2, df = l1 ++ r :: l2 /\ (col r ∉ seen) /\ (col r ∉ col <$> l1).
Proof.
  revert seen. induction df as [|x df IH]; intros seen; simpl.
  { split; [by intros ?%elem_of_nil|]. intros ([|??] & ? & ? & _); discriminate. }
  destruct (decide (col x ∈ seen)) as [Hin|Hnin].
  - rewrite IH. split.
    + intros (l1 & l2 & -> & Hs & Hl). exists (x :: l1), l2. split_and!; [done..|].
      rewrite fmap_cons, not_elem_of_cons. split; [|done]. intros E. by rewrite E in Hs.
    + intros ([|y l1] & l2 & Heq & Hs & Hl); simplify_eq/=; [done|].
      exists l1, l2. rewrite not_elem_of_cons in Hl. naive_solver.
  - rewrite elem_of_cons, IH. split.
    + intros [->|(l1 & l2 & -> & Hs & Hl)].
      * exists [], df. split_and!; [done..|]. apply not_elem_of_nil.
      * exists (x :: l1), l2. rewrite not_elem_of_cons in Hs.
        split_and!; [done|naive_solver|]. rewrite fmap_cons, not_elem_of_cons. naive_solver.
    + intros ([|y l1] & l2 & Heq & Hs & Hl); simplify_eq/=; [by left|].
      right. exists l1, l2. rewrite !not_elem_of_cons in *. naive_solver.
Qed.

Lemma drop_duplicates_from_keys (seen : list K) (df : list Row) (k : K) :
  k ∈ col <$> drop_duplicates_from col seen df <-> k ∈ col <$> df /\ k ∉ seen.
Proof.
  revert seen. induction df as [|x df IH]; intros seen; simpl.
  { split; [by intros ?%elem_of_nil|]. by intros [?%elem_of_nil _]. }
  destruct (decide (col x ∈ seen)) as [Hin|Hnin].
  - rewrite IH, elem_of_cons. naive_solver.
  - rewrite fmap_cons, !elem_of_cons, IH, not_elem_of_cons.
    destruct (decide (k = col x)); naive_solver.
Qed.

Lemma drop_duplicates_from_NoDup (seen : list K) (df : list Row) :
  NoDup (col <$> drop_duplicates_from col seen df).
Proof.
  revert seen. induction df as [|x df IH]; intros seen; simpl; [constructor|].
  destruct (decide (col x ∈ seen)); [done|].
  rewrite fmap_cons. constructor; [|done].
  rewrite drop_duplicates_from_keys, not_elem_of_cons. naive_solver.
Qed.

Lemma drop_duplicates_keys (df : list Row) (k : K) :
  k ∈ col <$> drop_duplicates col df <-> k ∈ col <$> df.
Proof.
  unfold drop_duplicates. rewrite drop_duplicates_from_keys.
  split; [naive_solver|]. split; [done|]. apply not_elem_of_nil.
Qed.

Lemma drop_duplicates_NoDup (df : list Row) : NoDup (col <$> drop_duplicates col df).
Proof. apply drop_duplicates_from_NoDup. Qed.

Lemma drop_duplicates_elem_of (df : list Row) (r : Row) :
  r ∈ drop_duplicates col df -> r ∈ df.
Proof.
  unfold drop_duplicates. rewrite drop_duplicates_from_elem_of.
  intros (l1 & l2 & -> & _). set_solver.
Qed.

(** In a sorted table the first row of each key is before every other
    row of that key. *)
Lemma drop_duplicates_first (R : relation Row) (df : list Row) (r r' : Row) :
  (forall a, R a a) -> StronglySorted R df ->
  r ∈ drop_duplicates col df -> r' ∈ df -> col r' = col r -> R r r'.
Proof.
  intros Hrefl Hs. unfold drop_duplicates. rewrite drop_duplicates_from_elem_of.
  intros (l1 & l2 & -> & _ & Hl1) Hr' Hcol.
  apply StronglySorted_app_1_r in Hs.
  apply StronglySorted_inv in Hs as [_ Hall].
  rewrite elem_of_app, elem_of_cons in Hr'. destruct Hr' as [Hr'|[->|Hr']]; [|done|].
  - exfalso. apply Hl1. rewrite <- Hcol. by apply list_elem_of_fmap_2.
  - rewrite Forall_forall in Hall. by apply Hall.
Qed.

End drop_duplicates.

(** ** Conformer reduction: one best pose per ligand *)

Lemma StronglySorted_strict {Row K : Type} `{KeyOrder K} (ligand : Row -> K) (l : list Row) :
  StronglySorted (le_on ligand) l -> NoDup (ligand <$> l) ->
  StronglySorted (fun a b => key_le (ligand a) (ligand b) = true /\ ligand a ≠ ligand b) l.
Proof.
  induction 1 as [|r l Hs IH Hall]; [constructor|].
  rewrite fmap_cons, NoDup_cons. intros [Hr Hnd]. constructor; [by apply IH|].
  rewrite Forall_forall in Hall |- *. intros r' Hr'. split; [by apply Hall|].
  intros E. apply Hr. rewrite E. by apply list_elem_of_fmap_2.
Qed.

(** Any table with one minimal row per ligand of [df], once sorted by
    ligand id, is a reduction of [df]. *)
Lemma best_pose_per_ligand_sorted `{ArgsortSorts} {Row K : Type} `{Countable K}
  `{KeyOrderLaws K} (ligand : Row -> K) (score : Row -> float) (df u : list Row) :
  NoDup (ligand <$> u) ->
  (forall l, l ∈ ligand <$> u <-> l ∈ ligand <$> df) ->
  (forall r, r ∈ u -> r ∈ df /\
     forall r', r' ∈ df -> ligand r' = ligand r -> score_le (score r) (score r') = true) ->
  best_pose_per_ligand ligand score df (sort_values ligand u).
Proof.
  intros Hnd Hkeys Hmin.
  assert (Hp : ligand <$> sort_values ligand u ≡ₚ ligand <$> u)
    by (by rewrite sort_values_Permutation).
  assert (Hnd' : NoDup (ligand <$> sort_values ligand u)) by (by rewrite Hp).
  split.
  - done.
  - intros l. by rewrite Hp.
  - rewrite <- (length_fmap ligand), <- (size_list_to_set (C := gset K)) by done.
    f_equal. apply set_eq. intros l. rewrite !elem_of_list_to_set, Hp. apply Hkeys.
  - intros r Hr. apply Hmin. by rewrite sort_values_elem_of in Hr.
  - apply StronglySorted_strict; [apply sort_values_sorted|done].
Qed.

Section reduction.
Context `{ArgsortSorts} `{LabelLaws}.

Lemma _rdockDataFrameTrimmer_pose (df : list Rdock.Row) :
  Rdock.pose <$> _rdockDataFrameTrimmer df =
  sort_values Rdock.ligand (drop_duplicates Rdock.ligand (sort_values Rdock.rdock_score df)).
Proof.
  unfold _rdockDataFrameTrimmer. rewrite <- list_fmap_compose.
  rewrite <- (list_fmap_id (sort_values Rdock.ligand _)) at 2. by apply list_fmap_ext.
Qed.

Lemma _rdockDataFrameTrimmer_reduces (df : list Rdock.Row) :
  best_pose_per_ligand Rdock.ligand Rdock.rdock_score df (Rdock.pose <$> _rdockDataFrameTrimmer df).
Proof.
  rewrite _rdockDataFrameTrimmer_pose. apply best_pose_per_ligand_sorted.
  - apply drop_duplicates_NoDup.
  - intros l. rewrite drop_duplicates_keys. by rewrite sort_values_Permutation.
  - intros r Hr. split.
    + apply drop_duplicates_elem_of in Hr. by rewrite sort_values_elem_of in Hr.
    + intros r' Hr' Hl.
      apply (drop_duplicates_first Rdock.ligand (le_on Rdock.rdock_score)
               (sort_values Rdock.rdock_score df));
        [apply le_on_refl|apply sort_values_sorted|done| |done].
      by rewrite sort_values_elem_of.
Qed.

Lemma glide_title_elem_of (X : list Glide.Row) (l : option Label) :
  l ∈ glide_title <$> X <-> exists n, (l, n) ∈ glide_title_lignum <$> X.
Proof.
  rewrite list_elem_of_fmap. split.
  - intros (r & -> & Hr). exists (glide_lignum r).
    by apply (list_elem_of_fmap_2 glide_title_lignum).
  - intros (n & (r & E & Hr)%list_elem_of_fmap). exists r. by inversion E.
Qed.

Lemma glide_best_poses_reduces (df : list Glide.Row) :
  best_pose_per_ligand glide_title glide_score df (glide_best_poses df).
Proof.
  unfold glide_best_poses.
  set (s1 := sort_values glide_score df).
  set (u1 := drop_duplicates glide_title_lignum s1).
  set (s2 := sort_values glide_title_lignum u1).
  set (s3 := sort_values glide_score s2).
  assert (Hs3 : forall r, r ∈ s3 <-> r ∈ u1).
  { intros r. unfold s3, s2. by rewrite !sort_values_elem_of. }
  assert (Hu1 : forall r, r ∈ u1 -> r ∈ df).
  { intros r Hr. apply drop_duplicates_elem_of in Hr. unfold s1 in Hr.
    by rewrite sort_values_elem_of in Hr. }
  assert (Hrep : forall r', r' ∈ df -> exists r'', r'' ∈ u1 /\
            glide_title_lignum r'' = glide_title_lignum r' /\ le_on glide_score r'' r').
  { intros r' Hr'.
    assert (Hk : glide_title_lignum r' ∈ glide_title_lignum <$> u1).
    { unfold u1. rewrite drop_duplicates_keys. apply list_elem_of_fmap_2.
      unfold s1. by rewrite sort_values_elem_of. }
    apply list_elem_of_fmap in Hk as (r'' & E & Hr''). exists r''. split_and!; [done..|].
    apply (drop_duplicates_first glide_title_lignum (le_on glide_score) s1);
      [apply le_on_refl|apply sort_values_sorted|done| |done].
    unfold s1. by rewrite sort_values_elem_of. }
  apply best_pose_per_ligand_sorted.
  - apply drop_duplicates_NoDup.
  - intros l. rewrite drop_duplicates_keys. unfold s3, s2.
    rewrite !sort_values_Permutation. rewrite !glide_title_elem_of.
    unfold u1. setoid_rewrite drop_duplicates_keys. unfold s1.
    by setoid_rewrite sort_values_Permutation.
  - intros r Hr. split.
    + apply drop_duplicates_elem_of in Hr. by apply Hu1, Hs3.
    + intros r' Hr' Hl. destruct (Hrep r' Hr') as (r'' & Hr'' & E & Hle).
      change (le_on glide_score r r'). etrans; [|exact Hle].
      apply (drop_duplicates_first glide_title (le_on glide_score) s3);
        [apply le_on_refl|apply sort_values_sorted|done|by apply Hs3|].
      rewrite <- Hl. by inversion E.
Qed.

End reduction.

(** ** The insertion index sort is an [argsort] *)

Section insertion_argsort.
Context {K : Type} `{KeyOrderLaws K} (ks : list K).

Lemma insert_index_Permutation (i : nat) (sorted : list nat) :
  insert_index key_le ks i sorted ≡ₚ i :: sorted.
Proof.
  induction sorted as [|j rest IH]; simpl; [done|].
  destruct (ks !! i), (ks !! j); try done.
  destruct (key_le _ _); [|done]. rewrite IH. apply Permutation_swap.
Qed.

Lemma insert_index_HdRel (i j : nat) (rest : list nat) :
  index_le ks j i -> HdRel (index_le ks) j rest ->
  HdRel (index_le ks) j (insert_index key_le ks i rest).
Proof.
  intros Hji Hhd. destruct rest as [|j' rest]; simpl; [by constructor|].
  apply HdRel_inv in Hhd.
  destruct (ks !! i), (ks !! j'); try by constructor.
  destruct (key_le _ _); by constructor.
Qed.

Lemma insert_index_Sorted (i : nat) (sorted : list nat) :
  i < length ks -> Forall (fun j => j < length ks) sorted ->
  Sorted (index_le ks) sorted -> Sorted (index_le ks) (insert_index key_le ks i sorted).
Proof.
  intros [ki Hi]%lookup_lt_is_Some. induction sorted as [|j rest IH]; simpl.
  { repeat constructor. }
  intros [[kj Hj]%lookup_lt_is_Some Hrest]%Forall_cons [Hs Hhd]%Sorted_inv.
  rewrite Hi, Hj. destruct (key_le kj ki) eqn:E.
  - constructor; [by apply IH|]. apply insert_index_HdRel; [|done]. by exists kj, ki.
  - constructor; [by constructor|]. constructor. exists ki, kj. split_and!; [done..|].
    destruct (key_le_total ki kj); congruence.
Qed.

Lemma take_rows_index_le (idx : list nat) :
  Forall (fun j => j < length ks) idx -> Sorted (index_le ks) idx ->
  Sorted (fun a b => key_le a b = true) (take_rows ks idx).
Proof.
  unfold take_rows. induction idx as [|i idx IH]; simpl; [constructor|].
  intros [[ki Hi]%lookup_lt_is_Some Hidx]%Forall_cons [Hs Hhd]%Sorted_inv.
  rewrite Hi. simpl. constructor; [by apply IH|].
  destruct idx as [|j idx]; simpl; [constructor|].
  apply HdRel_inv in Hhd as (a & b & Ha & Hb & Hle). rewrite Hb. simpl.
  constructor. congruence.
Qed.

Lemma insertion_fold (n : nat) :
  n <= length ks ->
  let idx := foldl (fun sorted i => insert_index key_le ks i sorted) [] (seq 0 n) in
  idx ≡ₚ seq 0 n /\ Sorted (index_le ks) idx.
Proof.
  induction n as [|n IH]; intros Hn; [by repeat constructor|].
  cbv zeta. rewrite seq_S, foldl_app. simpl. destruct IH as [Hp Hs]; [lia|]. split.
  - rewrite insert_index_Permutation, Hp. by rewrite Permutation_cons_append.
  - apply insert_index_Sorted; [lia| |done].
    rewrite Hp. apply Forall_forall. intros j [_ Hj]%elem_of_seq. lia.
Qed.

End insertion_argsort.

Global Instance insertion_argsort_sorts : @ArgsortSorts insertion_argsort.
Proof.
  intros K O HO ks. unfold argsort, insertion_argsort.
  destruct (insertion_fold ks (length ks)) as [Hp Hs]; [done|]. split; [done|].
  apply take_rows_index_le; [|done].
  rewrite Hp. apply Forall_forall. intros j [_ Hj]%elem_of_seq. lia.
Qed.

(** ** Reduction and the order of the input rows *)

Section order_independence.
Context {Row K : Type} `{Countable K} `{KeyOrder K}.
Context (key_le_antisym : forall a b : K, key_le a b = true -> key_le b a = true -> a = b).
Context (ligand : Row -> K) (score : Row -> float).
Context (df1 df2 out1 out2 : list Row).
Context (Hdf : df1 ≡ₚ df2).
Context (H1 : best_pose_per_ligand ligand score df1 out1).
Context (H2 : best_pose_per_ligand ligand score df2 out2).

Lemma reductions_tie (r1 r2 : Row) :
  r1 ∈ out1 -> r2 ∈ out2 -> ligand r1 = ligand r2 -> key_tie (score r1) (score r2).
Proof.
  intros Hr1 Hr2 E.
  destruct (minimum_score _ _ _ _ H1 r1 Hr1) as [Hin1 Hmin1].
  destruct (minimum_score _ _ _ _ H2 r2 Hr2) as [Hin2 Hmin2].
  split.
  - apply Hmin1; [by rewrite Hdf|done].
  - apply Hmin2; [by rewrite <- Hdf|done].
Qed.

Lemma reductions_same_ligands : ligand <$> out1 = ligand <$> out2.
Proof.
  apply (StronglySorted_unique_strong (fun a b => key_le a b = true /\ a ≠ b)).
  - intros a b _ _ [Hab Hne] [Hba _]. destruct Hne. by apply key_le_antisym.
  - eapply StronglySorted_fmap; [|apply (ascending _ _ _ _ H1)]. done.
  - eapply StronglySorted_fmap; [|apply (ascending _ _ _ _ H2)]. done.
  - apply NoDup_Permutation; [apply H1|apply H2|].
    intros l. rewrite (same_ligands _ _ _ _ H1), (same_ligands _ _ _ _ H2). by rewrite Hdf.
Qed.

Lemma reductions_same_winners : same_winners ligand score out1 out2.
Proof. split; [apply reductions_same_ligands|apply reductions_tie]. Qed.

Lemma reductions_equal : no_score_ties ligand score df1 -> out1 = out2.
Proof.
  intros Hties.
  assert (Hsub : forall (o o' : list Row) r, r ∈ o -> ligand <$> o = ligand <$> o' ->
            (forall r', r' ∈ o' -> ligand r = ligand r' -> r = r') -> r ∈ o').
  { intros o o' r Hr Hl Heq.
    assert (Hk : ligand r ∈ ligand <$> o') by (rewrite <- Hl; by apply list_elem_of_fmap_2).
    apply list_elem_of_fmap in Hk as (r' & E & Hr'). by rewrite (Heq r' Hr' E). }
  apply (StronglySorted_unique_strong
           (fun a b => key_le (ligand a) (ligand b) = true /\ ligand a ≠ ligand b)).
  - intros a b _ _ [Hab Hne] [Hba _]. destruct Hne. by apply key_le_antisym.
  - apply H1.
  - apply H2.
  - apply NoDup_Permutation.
    + eapply NoDup_fmap_1, H1.
    + eapply NoDup_fmap_1, H2.
    + intros r. split; intros Hr.
      * apply (Hsub out1 out2 r Hr reductions_same_ligands). intros r' Hr' E.
        apply Hties; [by apply (minimum_score _ _ _ _ H1)| |done|by apply reductions_tie].
        rewrite Hdf. by apply (minimum_score _ _ _ _ H2).
      * apply (Hsub out2 out1 r Hr (eq_sym reductions_same_ligands)). intros r' Hr' E.
        symmetry. apply Hties; [by apply (minimum_score _ _ _ _ H1)| |done|by apply reductions_tie].
        rewrite Hdf. by apply (minimum_score _ _ _ _ H2).
Qed.

End order_independence.

(** C1. For every list of pose records, the conformer reduction (of
    rDock's and of Glide's 'dock' results) produces exactly one record per
    distinct ligand id of the input, the count being the number of
    distinct ligand ids; each retained record is an input record with the
    minimum raw score for its ligand; and the output is in ascending
    order of ligand id. This holds for every dtype that pandas gives the
    column of ligand ids (numbers in numeric order for all-digit names,
    strings by code point otherwise), a missing id counting as one id,
    after all others. *)
Theorem reduction_one_best_pose_per_ligand `{ArgsortSorts} `{LabelLaws}
  (rdock_df : list Rdock.Row) (glide_df : list Glide.Row) :
  best_pose_per_ligand Rdock.ligand Rdock.rdock_score rdock_df
    (Rdock.pose <$> _rdockDataFrameTrimmer rdock_df) /\
  best_pose_per_ligand glide_title glide_score glide_df (glide_best_poses glide_df).
Proof. split; [apply _rdockDataFrameTrimmer_reduces|apply glide_best_poses_reduces]. Qed.

Lemma reduction_one_best_pose_per_ligand_witness :
  best_pose_per_ligand Rdock.ligand Rdock.rdock_score rdock_sample
    (Rdock.pose <$> @_rdockDataFrameTrimmer insertion_argsort object_dtype rdock_sample) /\
  best_pose_per_ligand glide_title glide_score glide_sample
    (@glide_best_poses insertion_argsort object_dtype glide_sample).
Proof.
  exact (@reduction_one_best_pose_per_ligand insertion_argsort insertion_argsort_sorts
           object_dtype object_dtype_laws rdock_sample glide_sample).
Defined.

(** On the sample, ligand L1 with scores -8.25, -7.5 and -9 keeps -9. *)
Example rdock_sample_reduced :
  @_rdockDataFrameTrimmer insertion_argsort object_dtype rdock_sample =
  [Rdock.Build_Best (rdock_row 3 "L0" "1" (-3)%float) 3;
   Rdock.Build_Best (rdock_row 51 "L1" "3" (-9)%float) 1].
Proof. vm_compute. reflexivity. Qed.

(** Ligands named 10 and 9 are read as integers: 9 comes first. *)
Example rdock_int_sample_reduced :
  @_rdockDataFrameTrimmer insertion_argsort int64_dtype rdock_int_sample =
  [Rdock.Build_Best (rdock_int_row 2 9 (-7.5)%float) 2;
   Rdock.Build_Best (rdock_int_row 3 10 (-9)%float) 3].
Proof. vm_compute. reflexivity. Qed.

Section ties.
Context `{ArgsortSorts} `{LabelLaws}.

Lemma sort_values_singleton {Row K : Type} `{KeyOrderLaws K} (col : Row -> K) (r : Row) :
  sort_values col [r] = [r].
Proof. apply Permutation_singleton_r. by rewrite sort_values_Permutation. Qed.

Lemma _rdockDataFrameTrimmer_of_pose (df : list Rdock.Row) :
  _rdockDataFrameTrimmer df =
  (fun r => Rdock.Build_Best r (docking_conformation_of (Rdock.file_entry r))) <$>
    (Rdock.pose <$> _rdockDataFrameTrimmer df).
Proof.
  rewrite _rdockDataFrameTrimmer_pose. reflexivity.
Qed.

(** Whatever index permutation [argsort] returns for two tying keys, the
    pose kept for the ligand follows the order of the input rows. *)
Lemma tie_follows_input_order (a b : Rdock.Row) :
  Rdock.ligand a = Rdock.ligand b -> Rdock.rdock_score a = Rdock.rdock_score b ->
  (Rdock.pose <$> _rdockDataFrameTrimmer [a; b] = [a] /\
   Rdock.pose <$> _rdockDataFrameTrimmer [b; a] = [b]) \/
  (Rdock.pose <$> _rdockDataFrameTrimmer [a; b] = [b] /\
   Rdock.pose <$> _rdockDataFrameTrimmer [b; a] = [a]).
Proof.
  intros El Es. rewrite !_rdockDataFrameTrimmer_pose.
  assert (Hs : (sort_values Rdock.rdock_score [a; b] = [a; b] /\
                sort_values Rdock.rdock_score [b; a] = [b; a]) \/
               (sort_values Rdock.rdock_score [a; b] = [b; a] /\
                sort_values Rdock.rdock_score [b; a] = [a; b])).
  { unfold sort_values. simpl. rewrite Es.
    destruct (argsort_sorts float _ _ [Rdock.rdock_score b; Rdock.rdock_score b]) as [Hp _].
    simpl in Hp. symmetry in Hp. apply Permutation.Permutation_length_2_inv in Hp.
    destruct Hp as [-> | ->]; [left|right]; done. }
  assert (Hd : forall x y : Rdock.Row, Rdock.ligand x = Rdock.ligand y ->
            sort_values Rdock.ligand (drop_duplicates Rdock.ligand [x; y]) = [x]).
  { intros x y E. unfold drop_duplicates. simpl.
    destruct (decide (Rdock.ligand x ∈ [])) as [Hn|_]; [by apply elem_of_nil in Hn|].
    destruct (decide (Rdock.ligand y ∈ [Rdock.ligand x])) as [_|Hn].
    - apply sort_values_singleton.
    - exfalso. apply Hn. rewrite E. left. }
  destruct Hs as [[-> ->]|[-> ->]]; [left|right]; rewrite !Hd; done.
Qed.

End ties.

(** C2, as stated, fails: the two rows below are one ligand's poses with
    the same score; read in one order the reduction keeps the first, read
    in the other order it keeps the second. *)
Lemma reduction_depends_on_input_order :
  [tied_pose_1; tied_pose_2] ≡ₚ [tied_pose_2; tied_pose_1] /\
  Rdock.pose <$> @_rdockDataFrameTrimmer insertion_argsort object_dtype [tied_pose_1; tied_pose_2]
    = [tied_pose_1] /\
  Rdock.pose <$> @_rdockDataFrameTrimmer insertion_argsort object_dtype [tied_pose_2; tied_pose_1]
    = [tied_pose_2].
Proof. split; [apply Permutation_swap|]. split; vm_compute; reflexivity. Qed.

(** C2, amended. For every list of pose records and every permutation of
    it, the conformer reduction yields the same ligand ids in the same
    order with scores that tie ligand by ligand; and the two outputs are
    identical whenever no two different records of one ligand tie on
    score. *)
Theorem reduction_order_independent_up_to_ties `{ArgsortSorts} `{LabelLaws}
  (df1 df2 : list Rdock.Row) (g1 g2 : list Glide.Row) :
  df1 ≡ₚ df2 -> g1 ≡ₚ g2 ->
  same_winners Rdock.ligand Rdock.rdock_score
    (Rdock.pose <$> _rdockDataFrameTrimmer df1) (Rdock.pose <$> _rdockDataFrameTrimmer df2) /\
  (no_score_ties Rdock.ligand Rdock.rdock_score df1 ->
   _rdockDataFrameTrimmer df1 = _rdockDataFrameTrimmer df2) /\
  same_winners glide_title glide_score (glide_best_poses g1) (glide_best_poses g2) /\
  (no_score_ties glide_title glide_score g1 -> glide_best_poses g1 = glide_best_poses g2).
Proof.
  intros Hdf Hg.
  pose proof (_rdockDataFrameTrimmer_reduces df1) as R1.
  pose proof (_rdockDataFrameTrimmer_reduces df2) as R2.
  pose proof (glide_best_poses_reduces g1) as G1.
  pose proof (glide_best_poses_reduces g2) as G2.
  split_and!.
  - by apply (reductions_same_winners name_le_antisym _ _ df1 df2).
  - intros Hties. rewrite (_rdockDataFrameTrimmer_of_pose df1), (_rdockDataFrameTrimmer_of_pose df2).
    f_equal. by apply (reductions_equal name_le_antisym Rdock.ligand Rdock.rdock_score df1 df2).
  - by apply (reductions_same_winners name_le_antisym _ _ g1 g2).
  - by apply (reductions_equal name_le_antisym glide_title glide_score g1 g2).
Qed.

Ltac each_row H :=
  repeat (apply elem_of_cons in H as [->|H]); [..|by apply elem_of_nil in H].

Lemma rdock_sample_no_ties : no_score_ties Rdock.ligand Rdock.rdock_score rdock_sample.
Proof.
  intros r r' Hr Hr' El [T1 T2]. unfold rdock_sample in Hr, Hr'.
  each_row Hr; each_row Hr'; try reflexivity; try discriminate El;
    vm_compute in T1, T2; discriminate.
Qed.

Lemma glide_sample_no_ties : no_score_ties glide_title glide_score glide_sample.
Proof.
  intros r r' Hr Hr' El [T1 T2]. unfold glide_sample in Hr, Hr'.
  each_row Hr; each_row Hr'; try reflexivity; try discriminate El;
    vm_compute in T1, T2; discriminate.
Qed.

Lemma reduction_order_independent_witness :
  @_rdockDataFrameTrimmer insertion_argsort object_dtype rdock_sample =
    @_rdockDataFrameTrimmer insertion_argsort object_dtype (reverse rdock_sample) /\
  @glide_best_poses insertion_argsort object_dtype glide_sample =
    @glide_best_poses insertion_argsort object_dtype (reverse glide_sample).
Proof.
  destruct (@reduction_order_independent_up_to_ties insertion_argsort insertion_argsort_sorts
              object_dtype object_dtype_laws
              rdock_sample (reverse rdock_sample) glide_sample (reverse glide_sample))
    as (_ & Hr & _ & Hg).
  - symmetry. apply reverse_Permutation.
  - symmetry. apply reverse_Permutation.
  - split; [apply Hr, rdock_sample_no_ties|apply Hg, glide_sample_no_ties].
Defined.

(** ** Tabular ingestion: the derived conformer index *)

Section conformer_index.
Context `{LabelDtype}.

Lemma name_ne_false (a b : option Label) :
  name_ne a b = false <-> exists x, a = Some x /\ b = Some x.
Proof.
  destruct a as [x|], b as [y|]; simpl; try (split; [done|by intros (? & ? & ?)]).
  rewrite bool_decide_eq_false. split.
  - intros Hxy. exists x. split; [done|]. f_equal. by destruct (decide (x = y)).
  - intros (z & [= ->] & [= ->]). by intros ?.
Qed.

Lemma update_prev_title prev row : (update_prev prev row).1 = Glide.title row.
Proof.
  unfold update_prev. destruct prev as [[t v]|]; [|done].
  destruct (name_ne (Glide.title row) t) eqn:E; [done|]. simpl.
  apply name_ne_false in E as (x & -> & ->). done.
Qed.

Lemma iterrows_from_cons off (row : Glide.CsvRow) rows :
  iterrows_from off (row :: rows) = (off, row) :: iterrows_from (S off) rows.
Proof.
  unfold iterrows_from. rewrite imap_cons, Nat.add_0_r. f_equal.
  apply imap_ext. intros i x _. simpl. f_equal. lia.
Qed.

Lemma length_prev_values prev (rows : list Glide.CsvRow) :
  length (prev_values prev rows) = length rows.
Proof. revert prev. induction rows as [|r rows IH]; intros prev; simpl; [done|]. by rewrite IH. Qed.

(** The loop over the rows when every difference is an int64 value:
    each is stored at the index of its row. *)
Lemma iterrows_loop_Return rows :
  forall off prev arr,
  off + length rows <= length arr ->
  Forall2 (fun row base => in_int64 (Glide.i_i_glide_lignum row - base) = true)
    rows (prev_values prev rows) ->
  exists st,
    for_each iterrows_step (prev, arr) (iterrows_from off rows) = Return st /\
    length st.2 = length arr /\
    (forall k, k < off -> st.2 !! k = arr !! k) /\
    (forall i row base, rows !! i = Some row -> prev_values prev rows !! i = Some base ->
       st.2 !! (off + i) = Some (Glide.i_i_glide_lignum row - base)%Z).
Proof.
  induction rows as [|r rows IH]; intros off prev arr Hlen Hfit.
  - exists (prev, arr). by split_and!.
  - rewrite iterrows_from_cons. cbn [for_each prev_values] in *. cbv zeta in Hfit.
    apply Forall2_cons in Hfit as [Hr Hfit]. simpl in Hlen.
    assert (Hstep : iterrows_step (prev, arr) (off, r) =
              Return (Some (update_prev prev r),
                      <[off := (Glide.i_i_glide_lignum r - (update_prev prev r).2)%Z]> arr)).
    { cbv beta iota zeta delta [iterrows_step]. by rewrite Hr. }
    rewrite Hstep. unfold mbind, PyResult_bind.
    destruct (IH (S off) (Some (update_prev prev r))
                (<[off := (Glide.i_i_glide_lignum r - (update_prev prev r).2)%Z]> arr))
      as (st & Hst & Hlength & Hbefore & Hat); [rewrite length_insert; lia|done|].
    exists st. split; [done|]. rewrite length_insert in Hlength.
    split; [done|]. split.
    + intros k Hk. rewrite Hbefore by lia. apply list_lookup_insert_ne. lia.
    + intros [|i] row base; simpl.
      * intros [= <-] [= <-]. rewrite Nat.add_0_r, Hbefore by lia.
        apply list_lookup_insert_eq. lia.
      * intros Hrow Hbase. replace (off + S i) with (S off + i) by lia. by apply Hat.
Qed.

(** The loop stops at the first difference that is no int64 value. *)
Lemma iterrows_loop_Raise rows :
  forall off prev arr,
  Exists (fun d => in_int64 d = false)
    (zip_with (fun row base => (Glide.i_i_glide_lignum row - base)%Z)
       rows (prev_values prev rows)) ->
  for_each iterrows_step (prev, arr) (iterrows_from off rows) = Raise OverflowError.
Proof.
  induction rows as [|r rows IH]; intros off prev arr Hbad.
  - by apply Exists_nil in Hbad.
  - rewrite iterrows_from_cons. cbn [for_each prev_values zip_with] in *. cbv zeta in Hbad.
    destruct (in_int64 (Glide.i_i_glide_lignum r - (update_prev prev r).2)) eqn:Hr.
    + assert (Hstep : iterrows_step (prev, arr) (off, r) =
                Return (Some (update_prev prev r),
                        <[off := (Glide.i_i_glide_lignum r - (update_prev prev r).2)%Z]> arr)).
      { cbv beta iota zeta delta [iterrows_step]. by rewrite Hr. }
      rewrite Hstep. unfold mbind, PyResult_bind.
      apply Exists_cons in Hbad as [Hbad|Hbad]; [congruence|]. by apply IH.
    + assert (Hstep : iterrows_step (prev, arr) (off, r) = Raise OverflowError).
      { cbv beta iota zeta delta [iterrows_step]. by rewrite Hr. }
      by rewrite Hstep.
Qed.

(** While the title does not change, [prev_value] is kept. *)
Lemma prev_values_same_title rows t v i :
  i < length rows ->
  (forall k row, k <= i -> rows !! k = Some row -> name_ne (Glide.title row) t = false) ->
  prev_values (Some (t, v)) rows !! i = Some v.
Proof.
  revert i. induction rows as [|r rows IH]; intros i Hi Ht; simpl in Hi; [lia|].
  cbn [prev_values]. cbv zeta.
  assert (Hr : update_prev (Some (t, v)) r = (t, v)).
  { unfold update_prev. by rewrite (Ht 0 r) by (done || lia). }
  rewrite Hr. destruct i as [|i]; simpl; [done|].
  apply IH; [lia|]. intros k row Hk Hrow. apply (Ht (S k)); [lia|done].
Qed.

(** At the first row of a run, [prev_value] becomes that row's raw value,
    and it is kept up to row [i]. *)
Lemma prev_values_run_start rows prev i j first :
  rows !! j = Some first -> j <= i < length rows ->
  (forall k row, j < k <= i -> rows !! k = Some row ->
     name_ne (Glide.title row) (Glide.title first) = false) ->
  match j with
  | 0 => forall t v, prev = Some (t, v) -> name_ne (Glide.title first) t = true
  | S j' => forall row, rows !! j' = Some row ->
      name_ne (Glide.title first) (Glide.title row) = true
  end ->
  prev_values prev rows !! i = Some (Glide.i_i_glide_lignum first).
Proof.
  revert prev i j. induction rows as [|r rows IH]; intros prev i j Hj Hi Hrun Hstart; [done|].
  cbn [prev_values]. cbv zeta. destruct j as [|j].
  - simpl in Hj. injection Hj as ->.
    assert (Hr : update_prev prev first = (Glide.title first, Glide.i_i_glide_lignum first)).
    { unfold update_prev. destruct prev as [[t v]|]; [|done]. by rewrite (Hstart t v). }
    rewrite Hr. destruct i as [|i]; simpl; [done|].
    apply prev_values_same_title; [simpl in Hi; lia|].
    intros k row Hk Hrow. apply (Hrun (S k)); [lia|done].
  - destruct i as [|i]; [lia|]. simpl in *.
    apply (IH _ i j); [done|lia| |].
    + intros k row Hk Hrow. apply (Hrun (S k)); [lia|done].
    + destruct j as [|j].
      * intros t v [= Ht]. pose proof (update_prev_title prev r) as Hr.
        rewrite Ht in Hr. simpl in Hr. subst t. by apply Hstart.
      * intros row Hrow. by apply Hstart.
Qed.

Lemma run_starts_at_prev_value df i j row first :
  df !! i = Some row -> df !! j = Some first -> run_starts_at df j i ->
  prev_values None df !! i = Some (Glide.i_i_glide_lignum first).
Proof.
  intros Hi Hj (Hji & Hrun & Hstart).
  apply (prev_values_run_start df None i j first); [done| | |].
  - split; [done|]. by apply lookup_lt_Some in Hi.
  - intros k r Hk Hr. destruct (Hrun k Hk) as (rk & rj & Hrk & Hrj & Hne).
    by simplify_eq.
  - destruct j as [|j]; [done|]. intros r Hr.
    destruct Hstart as [|(rj & rp & Hrj & Hrp & Hne)]; [lia|].
    replace (S j - 1) with j in Hrp by lia. by simplify_eq.
Qed.

(** Every row belongs to a run. *)
Lemma run_exists df i :
  i < length df -> exists j first, df !! j = Some first /\ run_starts_at df j i.
Proof.
  induction i as [|i IH]; intros Hi.
  - destruct (lookup_lt_is_Some_2 df 0 Hi) as [first Hfirst].
    exists 0, first. split; [done|]. split; [done|]. split; [lia|by left].
  - destruct (lookup_lt_is_Some_2 df (S i) Hi) as [row Hrow].
    destruct (lookup_lt_is_Some_2 df i) as [before Hbefore]; [lia|].
    destruct (name_ne (Glide.title row) (Glide.title before)) eqn:Hne.
    + exists (S i), row. split; [done|]. split; [done|]. split; [lia|].
      right. exists row, before. replace (S i - 1) with i by lia. done.
    + destruct IH as (j & first & Hfirst & Hji & Hrun & Hstart); [lia|].
      exists j, first. split; [done|]. split; [lia|]. split; [|done].
      intros k Hk. destruct (decide (k = S i)) as [->|]; [|apply Hrun; lia].
      exists row, first. split_and!; [done..|].
      destruct (decide (j = i)) as [->|]; [by simplify_eq|].
      destruct (Hrun i) as (ri & rj & Hri & Hrj & Hchain); [lia|]. simplify_eq.
      apply name_ne_false in Hne as (x & Hx & Hy). rewrite Hx. by rewrite Hy in Hchain.
Qed.

Lemma no_int64_overflow_fits df :
  no_int64_overflow df ->
  Forall2 (fun row base => in_int64 (Glide.i_i_glide_lignum row - base) = true)
    df (prev_values None df).
Proof.
  intros Hfit. apply Forall2_same_length_lookup. split; [by rewrite length_prev_values|].
  intros i row base Hrow Hbase.
  destruct (run_exists df i) as (j & first & Hfirst & Hrun); [by apply lookup_lt_Some in Hrow|].
  rewrite (run_starts_at_prev_value df i j row first) in Hbase by done.
  injection Hbase as <-. by apply (Hfit i j).
Qed.

End conformer_index.

Lemma wrap_int64_id (z : Z) : in_int64 z = true -> wrap_int64 z = z.
Proof.
  unfold in_int64, wrap_int64, int64_min, int64_max.
  rewrite andb_true_iff, !Z.leb_le. intros [Hmin Hmax].
  rewrite Z.mod_small; lia.
Qed.

(** C3, as stated, fails at the limits of int64 and on rows without a
    title. With raw values 2^63 - 1 and -2 under one title the second
    difference is no int64 value and the loop stops with OverflowError;
    with raw values -1 and 2^63 - 2 the difference fits and adding one
    wraps around, so the index is -2^63; and three rows whose title is
    missing get the index 1 each, though their raw values are 1, 2, 3. *)
Lemma conformer_index_overflows :
  insert_conformer glide_csv_overflow = Raise OverflowError /\
  fmap (M := PyResult) (fmap (M := list) Glide.conformer) (insert_conformer glide_csv_wrap)
    = Return [1; - 2 ^ 63]%Z /\
  fmap (M := PyResult) (fmap (M := list) Glide.conformer)
    (insert_conformer glide_csv_no_titles) = Return [1; 1; 1]%Z.
Proof. split_and!; vm_compute; reflexivity. Qed.

(** C3, amended. In tabular ingestion, for every table in which no
    index leaves the int64 range, the conformer column is computed, and
    each row's derived conformer index equals its raw per-conformer field
    value minus the first raw value of its run, plus one, a run being a
    stretch of rows with one title that is not missing (a row without a
    title is a run of its own); in particular the first row of every run
    gets index 1, whatever the run's starting offset. *)
Theorem conformer_index_normalised `{LabelDtype} (df : list Glide.CsvRow) :
  no_int64_overflow df ->
  exists table,
    insert_conformer df = Return table /\
    forall (i j : nat) (row first : Glide.CsvRow),
      df !! i = Some row -> df !! j = Some first -> run_starts_at df j i ->
      table !! i =
        Some {| Glide.raw := row;
                Glide.conformer :=
                  Glide.i_i_glide_lignum row - Glide.i_i_glide_lignum first + 1 |} /\
      (j = i -> Glide.conformer <$> table !! i = Some 1%Z).
Proof.
  intros Hfit.
  destruct (iterrows_loop_Return df 0 None (replicate (length df) 0%Z))
    as (st & Hst & Hlength & _ & Hat);
    [by rewrite length_replicate|by apply no_int64_overflow_fits|].
  unfold insert_conformer, conformer_column, modified_i_i_glide_lignum.
  change (imap pair df) with (iterrows_from 0 df). rewrite Hst.
  unfold mbind, PyResult_bind, mret, PyResult_ret.
  eexists. split; [done|]. intros i j row first Hi Hj Hrun.
  assert (Hrow : zip_with Glide.Build_Row df ((fun v => wrap_int64 (v + 1)) <$> st.2) !! i =
                 Some {| Glide.raw := row;
                         Glide.conformer :=
                           Glide.i_i_glide_lignum row - Glide.i_i_glide_lignum first + 1 |}).
  { rewrite lookup_zip_with, Hi. simpl. rewrite list_lookup_fmap.
    pose proof (Hat i row (Glide.i_i_glide_lignum first) Hi
                  (run_starts_at_prev_value df i j row first Hi Hj Hrun)) as Hvalue.
    change (0 + i) with i in Hvalue. rewrite Hvalue.
    simpl. by rewrite wrap_int64_id by apply (Hfit i j row first Hi Hj Hrun). }
  split; [done|]. intros ->. rewrite Hrow. simpl. f_equal.
  assert (row = first) as -> by congruence. lia.
Qed.

(** A table whose raw values are all below 2^61 in absolute value has
    no index outside the int64 range. *)
Lemma small_values_no_overflow `{LabelDtype} (df : list Glide.CsvRow) :
  Forall (fun row => (- 2 ^ 61 <= Glide.i_i_glide_lignum row < 2 ^ 61)%Z) df ->
  no_int64_overflow df.
Proof.
  intros Hsmall i j row first Hi Hj _. rewrite Forall_forall in Hsmall.
  pose proof (Hsmall row (list_elem_of_lookup_2 _ _ _ Hi)) as Hrow.
  pose proof (Hsmall first (list_elem_of_lookup_2 _ _ _ Hj)) as Hfirst.
  unfold in_int64, int64_min, int64_max. rewrite !andb_true_iff, !Z.leb_le.
  assert (E61 : (2 ^ 61 = 2305843009213693952)%Z) by reflexivity.
  assert (E63 : (2 ^ 63 = 9223372036854775808)%Z) by reflexivity.
  cbv beta in Hrow, Hfirst. rewrite E61 in Hrow, Hfirst. rewrite !E63. lia.
Qed.

Example conformer_column_sample :
  conformer_column glide_csv_sample = Return [1; 2; 5; 1; 2; 1]%Z.
Proof. reflexivity. Qed.

Lemma conformer_index_normalised_witness :
  no_int64_overflow glide_csv_sample /\
  exists table,
    insert_conformer glide_csv_sample = Return table /\
    table !! 4 = Some {| Glide.raw := glide_csv_row "b" 4; Glide.conformer := 2 |}.
Proof.
  assert (Hfit : no_int64_overflow glide_csv_sample).
  { apply small_values_no_overflow. repeat constructor; vm_compute; done. }
  split; [exact Hfit|].
  destruct (conformer_index_normalised glide_csv_sample Hfit) as (table & Htable & Hrows).
  exists table. split; [exact Htable|].
  refine (proj1 (Hrows 4 3 (glide_csv_row "b" 4) (glide_csv_row "b" 3) eq_refl eq_refl _)).
  split; [lia|]. split.
  - intros k Hk. assert (k = 4) as -> by lia.
    exists (glide_csv_row "b" 4), (glide_csv_row "b" 3). by split_and!.
  - right. exists (glide_csv_row "b" 3), (glide_csv_row "a" 9). by split_and!.
Defined.

(** ** Sharded ingestion: the two expect-value flags *)

(** After a line, each flag says whether that line holds its marker. *)
Lemma scan_line_flags filename st line st' :
  scan_line filename st line = Return st' ->
  score_bool st' = contains ">  <SCORE>" line /\
  conformer_bool st' = contains ">  <s_lp_Variant>" line.
Proof.
  unfold scan_line, mbind, PyResult_bind. intros Hst.
  repeat match type of Hst with
  | context [match ?x with _ => _ end] => destruct x; simpl in Hst; try discriminate
  end; by injection Hst as <-.
Qed.

(** A line is read as a value only under its flag: with both flags
    false, the line changes neither [score] nor [data]. *)
Lemma scan_line_idle filename st line :
  score_bool st = false -> conformer_bool st = false ->
  exists st', scan_line filename st line = Return st' /\
    score st' = score st /\ data st' = data st.
Proof. intros Hs Hc. unfold scan_line. rewrite Hs, Hc. eexists. by split. Qed.

(** C4 is contradicted by the code on a record that has an identifier
    and no score: the record is not dropped; its row takes the score of
    the record before it. When no score was read before, the pass stops
    with [UnboundLocalError]. A record with a score and no identifier
    gives no row. *)
Theorem incomplete_record_takes_neighbour_score :
  _rdockDataFrameGenerator [("split1.sd", shard_missing_score)] =
    Return
      [{| Rdock.data_file_name := "split1.sd"; Rdock.data_file_entry := 1;
          Rdock.data_ligand := "L1"; Rdock.data_conformer := "1" +:+ nl;
          Rdock.data_rdock_score := "-8.5" |};
       {| Rdock.data_file_name := "split1.sd"; Rdock.data_file_entry := 2;
          Rdock.data_ligand := "L2"; Rdock.data_conformer := "1" +:+ nl;
          Rdock.data_rdock_score := "-8.5" |}] /\
  _rdockDataFrameGenerator [("split1.sd", shard_no_score_at_all)] = Raise UnboundLocalError /\
  _rdockDataFrameGenerator [("split1.sd", shard_missing_identifier)] = Return [].
Proof. split_and!; vm_compute; reflexivity. Qed.

(** ** Result discovery, 'score' protocol *)

Ltac py_unfold := unfold mbind, PyResult_bind, mret, PyResult_ret in *.

Lemma os_listdir_NoDup cwd path files : os_listdir cwd path = Return files -> NoDup files.
Proof.
  unfold os_listdir. py_unfold. destruct (resolve path cwd) as [[c|entries]|]; try discriminate.
  intros [= <-]. apply NoDup_fst_map_to_list.
Qed.

Lemma os_listdir_isdir cwd path :
  os_path_isdir cwd path = true -> exists files, os_listdir cwd path = Return files.
Proof.
  unfold os_path_isdir, os_listdir. py_unfold.
  destruct (resolve path cwd) as [[c|entries]|]; try discriminate. eauto.
Qed.

Lemma count_name_NoDup (x : string) (l : list string) :
  NoDup l -> length (filter (fun y => y = x) l) = if decide (x ∈ l) then 1 else 0.
Proof.
  induction 1 as [|y l Hy Hnd IH]; [done|].
  rewrite filter_cons. destruct (decide (y = x)) as [->|Hne].
  - simpl. rewrite IH. rewrite decide_False by done. rewrite decide_True by left. done.
  - rewrite IH. destruct (decide (x ∈ l)) as [Hin|Hnin].
    + rewrite decide_True by (by right). done.
    + rewrite decide_False; [done|]. rewrite elem_of_cons. naive_solver.
Qed.

Lemma count_outputs_step cwd st folder files :
  os_listdir cwd ["3_docking_job"; "rdock_score"; folder] = Return files ->
  count_outputs cwd st folder =
    Return (st.1 + length (filter (fun file => file = "ligand_out.sd") files), S st.2).
Proof. intros Hfiles. unfold count_outputs. by rewrite Hfiles. Qed.

Lemma count_outputs_loop cwd folders o n :
  Forall (fun f => os_path_isdir cwd ["3_docking_job"; "rdock_score"; f] = true) folders ->
  exists o', for_each (count_outputs cwd) (o, n) folders = Return (o', n + length folders) /\
    o <= o' <= o + length folders /\
    (o' = o + length folders <-> Forall (rdock_has_output cwd) folders).
Proof.
  revert o n. induction folders as [|f folders IH]; intros o n Hdirs.
  { exists o. simpl. rewrite !Nat.add_0_r. split_and!; [done|lia..|done]. }
  apply Forall_cons in Hdirs as [Hf Hdirs].
  destruct (os_listdir_isdir _ _ Hf) as [files Hfiles].
  pose proof (count_name_NoDup "ligand_out.sd" files (os_listdir_NoDup _ _ _ Hfiles)) as Hc.
  cbn [for_each]. rewrite (count_outputs_step _ _ _ _ Hfiles). cbn [fst snd].
  change (Return ?a ≫= ?k) with (k a). cbv beta.
  destruct (IH (o + length (filter (fun file => file = "ligand_out.sd") files)) (S n) Hdirs)
    as (o' & Hloop & Hbound & Hall).
  exists o'. rewrite Hloop. cbn [length]. split_and!.
  - f_equal. f_equal. lia.
  - destruct (decide ("ligand_out.sd" ∈ files)); lia.
  - destruct (decide ("ligand_out.sd" ∈ files)); lia.
  - rewrite Forall_cons. unfold rdock_has_output at 1. rewrite <- Hall.
    destruct (decide ("ligand_out.sd" ∈ files)) as [Hin|Hnin]; rewrite Hc in *.
    + split; [|lia]. intros Ho. split; [eauto|lia].
    + split; [lia|]. intros [(files' & Hf' & Hin) _]. rewrite Hfiles in Hf'.
      injection Hf' as <-. done.
Qed.

Lemma rdock_score_folders_isdir cwd folders :
  rdock_score_folders cwd = Return folders ->
  Forall (fun f => os_path_isdir cwd ["3_docking_job"; "rdock_score"; f] = true) folders.
Proof.
  unfold rdock_score_folders. py_unfold.
  destruct (os_listdir cwd _) as [names|]; [|discriminate]. intros [= <-].
  apply Forall_forall. intros f Hf. by apply list_elem_of_filter in Hf as [Hf _].
Qed.

Lemma ratio_is_one (a b : nat) :
  Qeq_bool (Z.of_nat a # Pos.of_nat (S b)) 1 = true <-> a = S b.
Proof.
  unfold Qeq_bool. cbn [Qnum Qden]. rewrite Z.eqb_eq, Z.mul_1_r, Z.mul_1_l.
  rewrite <- positive_nat_Z, Nat2Pos.id by done. lia.
Qed.

(** rDock's check of the 'score' results, by cases on the ligand folders
    and on the number of them that hold an output file. *)
Lemma rdock_score_check cwd self folders :
  rdock_score_folders cwd = Return folders ->
  exists output_files,
    (output_files = length folders <-> Forall (rdock_has_output cwd) folders) /\
    _rdockDockingResultsChecker cwd self "score" =
      match folders with
      | [] => Raise ZeroDivisionError
      | _ :: _ =>
        if decide (output_files = length folders)
        then Return (Analyzer.set_docking_tool "rdock" (Analyzer.set_protocol "score" self))
        else Raise OutputError
      end.
Proof.
  intros Hfolders. unfold _rdockDockingResultsChecker.
  rewrite decide_False by done. rewrite decide_True by done.
  py_unfold. rewrite Hfolders.
  destruct (count_outputs_loop cwd folders 0 0 (rdock_score_folders_isdir _ _ Hfolders))
    as (o' & -> & Hbound & Hall).
  exists o'. split; [done|].
  cbn [fst snd]. destruct folders as [|f folders]; [done|].
  cbn [length Nat.add true_divide].
  destruct (Qeq_bool _ 1) eqn:Hq.
  - apply ratio_is_one in Hq. by rewrite decide_True.
  - rewrite decide_False; [done|]. intros Ho. apply ratio_is_one in Ho. congruence.
Qed.

Lemma comprehension_Return {A B : Type} (f : A -> PyResult B) xs ys :
  comprehension f xs = Return ys -> Forall2 (fun x y => f x = Return y) xs ys.
Proof.
  revert ys. induction xs as [|x xs IH]; intros ys; simpl.
  { intros [= <-]. constructor. }
  py_unfold. destruct (f x) as [y|] eqn:Hy; [|discriminate].
  destruct (comprehension f xs) as [ys'|]; [|discriminate].
  intros [= <-]. constructor; [done|]. by apply IH.
Qed.

Lemma glide_score_csv_output cwd ligand path :
  glide_score_csv cwd ligand = Return path -> glide_has_output cwd ligand.
Proof.
  unfold glide_score_csv, glide_has_output. py_unfold.
  destruct (os_listdir cwd _) as [files|]; [|discriminate].
  destruct (filter _ files) as [|csv rest] eqn:Hfilter; [discriminate|]. intros _.
  exists files. split; [done|]. exists csv.
  assert (Hin : csv ∈ filter (fun x => endswith "_score.csv" x = true) files)
    by (rewrite Hfilter; left).
  apply list_elem_of_filter in Hin. tauto.
Qed.

Lemma glide_score_check_empty cwd self :
  glide_score_ligands cwd = Return [] ->
  _glideDockingResultsChecker cwd self "score" =
    Raise (ResultsMissingError "3_docking_job/glide_score").
Proof.
  intros Hl. unfold _glideDockingResultsChecker, glide_score_paths.
  rewrite decide_False by done. rewrite decide_True by done. by rewrite Hl.
Qed.

Lemma glide_score_check_Return cwd self self' :
  _glideDockingResultsChecker cwd self "score" = Return self' ->
  exists ligands, glide_score_ligands cwd = Return ligands /\
    ligands ≠ [] /\ Forall (glide_has_output cwd) ligands.
Proof.
  unfold _glideDockingResultsChecker, glide_score_paths.
  rewrite decide_False by done. rewrite decide_True by done. py_unfold.
  destruct (glide_score_ligands cwd) as [ligands|]; [|discriminate].
  destruct (comprehension _ ligands) as [paths|] eqn:Hpaths; [|discriminate].
  apply comprehension_Return in Hpaths.
  destruct (decide (length paths = 0)) as [|Hne]; [discriminate|]. intros _.
  exists ligands. split_and!; [done| |].
  - intros ->. apply Forall2_nil_inv_l in Hpaths. by subst.
  - apply Forall_forall. intros ligand Hl.
    apply list_elem_of_lookup in Hl as [i Hi].
    destruct (Forall2_lookup_l _ _ _ _ _ Hpaths Hi) as (path & _ & Hpath).
    by apply glide_score_csv_output in Hpath.
Qed.

(** C5, as stated, fails. With no output file in any of two rDock
    ligand folders the error is [OutputError], the count mismatch, and
    not [ResultsMissingError]; with one Glide ligand folder out of two
    lacking its result table the error is [IndexError], and not a count
    mismatch. *)
Lemma score_discovery_other_errors :
  _rdockDockingResultsChecker rdock_score_no_outputs Analyzer.init "score" = Raise OutputError /\
  fails_with "ResultsMissingError"
    (_rdockDockingResultsChecker rdock_score_no_outputs Analyzer.init "score") = false /\
  _glideDockingResultsChecker glide_score_one_missing Analyzer.init "score" = Raise IndexError.
Proof. split_and!; vm_compute; reflexivity. Qed.

(** C5, amended. For the 'score' protocol: rDock's discovery fails with
    [OutputError] (the count mismatch) whenever there is at least one
    input folder and not every input folder holds its output file, also
    when none does; Glide's discovery fails with [ResultsMissingError]
    when the results folder holds no ligand entry; and either discovery
    succeeds only when there is an input folder and every input folder
    has its output. *)
Theorem score_discovery (cwd : Node) (self : Analyzer.t) :
  (forall folders, rdock_score_folders cwd = Return folders -> folders ≠ [] ->
     ~ Forall (rdock_has_output cwd) folders ->
     _rdockDockingResultsChecker cwd self "score" = Raise OutputError) /\
  (forall self', _rdockDockingResultsChecker cwd self "score" = Return self' ->
     exists folders, rdock_score_folders cwd = Return folders /\
       folders ≠ [] /\ Forall (rdock_has_output cwd) folders) /\
  (glide_score_ligands cwd = Return [] ->
     _glideDockingResultsChecker cwd self "score" =
       Raise (ResultsMissingError "3_docking_job/glide_score")) /\
  (forall self', _glideDockingResultsChecker cwd self "score" = Return self' ->
     exists ligands, glide_score_ligands cwd = Return ligands /\
       ligands ≠ [] /\ Forall (glide_has_output cwd) ligands).
Proof.
  split_and!.
  - intros folders Hfolders Hne Hnot.
    destruct (rdock_score_check cwd self folders Hfolders) as (o & Hall & ->).
    destruct folders; [done|]. rewrite decide_False; [done|]. by rewrite Hall.
  - intros self' Hret.
    destruct (rdock_score_folders cwd) as [folders|e] eqn:Hfolders.
    + destruct (rdock_score_check cwd self folders Hfolders) as (o & Hall & Hcheck).
      rewrite Hcheck in Hret. exists folders. destruct folders as [|f folders]; [discriminate|].
      destruct (decide (o = length (f :: folders))) as [Ho|]; [|discriminate].
      split_and!; [done..|]. by apply Hall.
    + unfold _rdockDockingResultsChecker in Hret.
      rewrite decide_False in Hret by done. rewrite decide_True in Hret by done.
      by rewrite Hfolders in Hret.
  - apply glide_score_check_empty.
  - apply glide_score_check_Return.
Qed.

Lemma score_discovery_witness :
  _rdockDockingResultsChecker rdock_score_one_missing Analyzer.init "score"
    = Raise OutputError /\
  _glideDockingResultsChecker glide_score_empty Analyzer.init "score"
    = Raise (ResultsMissingError "3_docking_job/glide_score").
Proof.
  split.
  - eapply (proj1 (score_discovery rdock_score_one_missing Analyzer.init)).
    + vm_compute. reflexivity.
    + discriminate.
    + intros Hall. rewrite Forall_forall in Hall.
      destruct (Hall "L2") as (files & Hfiles & Hin).
      * set_solver.
      * vm_compute in Hfiles. injection Hfiles as <-. by apply elem_of_nil in Hin.
  - apply (proj1 (proj2 (proj2 (score_discovery glide_score_empty Analyzer.init)))).
    vm_compute. reflexivity.
Defined.

(** ** The correlation step validates nothing *)

Lemma mkdir_if_missing_builtin cwd path e :
  mkdir_if_missing cwd path = Raise e -> error_kind e = None.
Proof.
  unfold mkdir_if_missing. destruct (os_path_isdir cwd path); [discriminate|].
  destruct (resolve path cwd); [by intros [= <-]|].
  destruct (resolve (removelast path) cwd) as [[c|entries]|e'] eqn:Hparent.
  - by intros [= <-].
  - discriminate.
  - intros [= <-]. revert Hparent. generalize (removelast path). clear.
    intros parent. revert cwd.
    induction parent as [|name parent IH]; intros cwd; simpl; [discriminate|].
    destruct cwd as [c|entries]; [by intros [= <-]|].
    destruct (entries !! name); [apply IH|by intros [= <-]].
Qed.

Lemma call_linregress_builtin `{NumericLibraries} x y e :
  call_linregress x y = Raise e -> e = ValueError.
Proof. unfold call_linregress. destruct (linregress x y); [discriminate|]. by intros [= <-]. Qed.

Lemma correlationPlotter_builtin `{NumericLibraries} cwd x y docking_method protocol e :
  _correlationPlotter cwd x y docking_method protocol = Raise e -> error_kind e = None.
Proof.
  unfold _correlationPlotter. py_unfold.
  destruct (mkdir_if_missing cwd _) eqn:Hm; [|intros [= <-]; by eapply mkdir_if_missing_builtin].
  destruct (call_linregress (z_score x) _) eqn:H1;
    [|intros [= <-]; by rewrite (call_linregress_builtin _ _ _ H1)].
  destruct (call_linregress x y) eqn:H2;
    [discriminate|intros [= <-]; by rewrite (call_linregress_builtin _ _ _ H2)].
Qed.

Lemma fails_with_builtin {A : Type} (kind : string) (r : PyResult A) :
  (forall e, r = Raise e -> error_kind e = None) -> fails_with kind r = false.
Proof.
  intros Hr. destruct r as [a|e]; [done|]. simpl. rewrite (Hr e eq_refl).
  by apply bool_decide_eq_false.
Qed.

(** C7, as stated, fails. A single-element vector is standardised by
    dividing by its zero standard deviation, which gives NaN, and the
    regressions run on it: no [InsufficientDataError]. The same happens
    to a constant vector: no [DegenerateInputError]. *)
Lemma correlation_divides_by_zero :
  @z_score numeric_stand_in [5%float] = [nan] /\
  @_correlationPlotter numeric_stand_in docking_job_folder [5%float] [3%float] "glide" "dock"
    = Return (nan, nan, nan, (nan, nan, 0%float)) /\
  @z_score numeric_stand_in [2; 2; 2]%float = [nan; nan; nan] /\
  @_correlationPlotter numeric_stand_in docking_job_folder [1; 2; 3]%float [2; 2; 2]%float
    "glide" "dock" = Return (nan, nan, nan, (0%float, 2%float, 0%float)).
Proof. split_and!; vm_compute; reflexivity. Qed.

(** C7, amended. For every input vector, also one of length less than 2
    or of zero variance, the correlation engine raises neither
    [InsufficientDataError] nor [DegenerateInputError]: it checks neither
    length nor variance, divides by the standard deviation as it is, and
    once the folder for the plots is available its outcome is that of the
    regression routine on the z-scores and then on the raw vectors. *)
Theorem correlation_validates_nothing `{NumericLibraries} (cwd : Node) (x y : list float)
  (docking_method protocol : string) :
  fails_with "InsufficientDataError"
    (_correlationPlotter cwd x y docking_method protocol) = false /\
  fails_with "DegenerateInputError"
    (_correlationPlotter cwd x y docking_method protocol) = false /\
  (os_path_isdir cwd ["3_docking_job"; "images"] = true ->
   _correlationPlotter cwd x y docking_method protocol =
     (fit_z ← call_linregress (z_score x) (z_score y);
      fit ← call_linregress x y;
      Return (fit_z, fit))).
Proof.
  split_and!.
  - apply fails_with_builtin. apply correlationPlotter_builtin.
  - apply fails_with_builtin. apply correlationPlotter_builtin.
  - intros Hdir. unfold _correlationPlotter, mkdir_if_missing. by rewrite Hdir.
Qed.

Lemma correlation_validates_nothing_witness :
  fails_with "InsufficientDataError"
    (@_correlationPlotter numeric_stand_in images_folder [5%float] [3%float] "glide" "dock")
    = false /\
  @_correlationPlotter numeric_stand_in images_folder [5%float] [3%float] "glide" "dock"
    = Return (nan, nan, nan, (nan, nan, 0%float)).
Proof.
  destruct (@correlation_validates_nothing numeric_stand_in images_folder
              [5%float] [3%float] "glide" "dock") as (Hlen & _ & Hrun).
  split; [exact Hlen|]. rewrite Hrun by reflexivity. vm_compute. reflexivity.
Defined.

(** ** Standardised values out of range *)








(** ** Molecular weights: an unparseable SMILES *)

Lemma calculate_molecular_weight_builtin `{RDKit} smiles e :
  calculate_molecular_weight smiles = Raise e -> e = ArgumentError.
Proof.
  unfold calculate_molecular_weight, call_ExactMolWt.
  destruct (MolFromSmiles smiles); [discriminate|]. by intros [= <-].
Qed.

Lemma comprehension_Raise {A B : Type} (f : A -> PyResult B) xs e :
  comprehension f xs = Raise e -> exists x, x ∈ xs /\ f x = Raise e.
Proof.
  induction xs as [|x xs IH]; simpl; [discriminate|]. py_unfold.
  destruct (f x) as [y|e'] eqn:Hx.
  - destruct (comprehension f xs) as [ys|e'']; [discriminate|]. intros [= <-].
    destruct IH as (x' & Hin & Hx'); [done|]. exists x'. split; [by right|done].
  - intros [= <-]. exists x. split; [left|done].
Qed.

Lemma comprehension_all_Return {A B : Type} (f : A -> PyResult B) (g : A -> B) xs :
  (forall x, x ∈ xs -> f x = Return (g x)) -> comprehension f xs = Return (g <$> xs).
Proof.
  induction xs as [|x xs IH]; intros Hf; simpl; [done|].
  rewrite (Hf x) by left. py_unfold. rewrite IH; [done|]. intros x' Hx'. apply Hf. by right.
Qed.

(** When every SMILES parses, the batch gives one weight per SMILES, in
    input order. *)
Lemma molecular_weights_all_parsed `{RDKit} (smiles : list string) (mols : list Mol) :
  MolFromSmiles <$> smiles = Some <$> mols ->
  molecular_weights smiles = Return (ExactMolWt <$> mols).
Proof.
  revert mols. induction smiles as [|s smiles IH]; intros [|m mols]; try discriminate; [done|].
  rewrite !fmap_cons. intros [= Hs Hrest]. unfold molecular_weights in *.
  cbn [comprehension].
  assert (Hc : calculate_molecular_weight s = Return (ExactMolWt m))
    by (unfold calculate_molecular_weight; by rewrite Hs).
  rewrite Hc. py_unfold. by rewrite (IH mols Hrest).
Qed.

(** C8 is contradicted by the code: a SMILES that does not parse ends
    the whole batch with the argument error of the weight routine; no
    [DescriptorError] is recorded and no other weight is returned. *)
Theorem unparseable_smiles_aborts_batch `{RDKit} (smiles : list string) (i : nat)
  (s : string) :
  smiles !! i = Some s -> MolFromSmiles s = None ->
  molecular_weights smiles = Raise ArgumentError /\
  fails_with "DescriptorError" (molecular_weights smiles) = false.
Proof.
  intros Hi Hs.
  assert (Hraise : molecular_weights smiles = Raise ArgumentError).
  { unfold molecular_weights.
    destruct (comprehension calculate_molecular_weight smiles) as [ws|e] eqn:Hc.
    - apply comprehension_Return in Hc.
      destruct (Forall2_lookup_l _ _ _ _ _ Hc Hi) as (w & _ & Hw).
      unfold calculate_molecular_weight in Hw. by rewrite Hs in Hw.
    - apply comprehension_Raise in Hc as (x & _ & Hx).
      by rewrite (calculate_molecular_weight_builtin _ _ Hx). }
  by rewrite Hraise.
Qed.

Lemma unparseable_smiles_aborts_batch_witness :
  @molecular_weights rdkit_stand_in ["CCO"; "C?"; "CC"] = Raise ArgumentError.
Proof.
  exact (proj1 (@unparseable_smiles_aborts_batch rdkit_stand_in ["CCO"; "C?"; "CC"] 1 "C?"
                  eq_refl eq_refl)).
Defined.

(** ** The Glide entry point *)

Lemma os_listdir_builtin cwd path e : os_listdir cwd path = Raise e -> error_kind e = None.
Proof.
  unfold os_listdir. py_unfold. revert cwd.
  assert (Hres : forall cwd e', resolve path cwd = Raise e' -> error_kind e' = None).
  { induction path as [|name path IH]; intros cwd e'; simpl; [discriminate|].
    destruct cwd as [c|entries]; [by intros [= <-]|].
    destruct (entries !! name); [apply IH|by intros [= <-]]. }
  intros cwd. destruct (resolve path cwd) as [[c|entries]|e'] eqn:Hr.
  - by intros [= <-].
  - discriminate.
  - intros [= <-]. by eapply Hres.
Qed.

Lemma resolve_builtin path cwd e : resolve path cwd = Raise e -> error_kind e = None.
Proof.
  revert cwd. induction path as [|name path IH]; intros cwd; simpl; [discriminate|].
  destruct cwd as [c|entries]; [by intros [= <-]|].
  destruct (entries !! name); [apply IH|by intros [= <-]].
Qed.

Lemma pd_read_csv_builtin cwd path e : pd_read_csv cwd path = Raise e -> error_kind e = None.
Proof.
  unfold pd_read_csv. py_unfold.
  destruct (resolve path cwd) as [[[]|]|e'] eqn:Hr; try discriminate;
    try (by intros [= <-]).
  intros [= <-]. by eapply resolve_builtin.
Qed.

Lemma molecular_weights_builtin `{RDKit} smiles e :
  molecular_weights smiles = Raise e -> error_kind e = None.
Proof.
  intros (s & _ & Hs)%comprehension_Raise.
  by rewrite (calculate_molecular_weight_builtin _ _ Hs).
Qed.

Lemma molecularWeightCalculator_builtin `{RDKit} cwd self e :
  _molecularWeightCalculator cwd self = Raise e -> error_kind e = None.
Proof.
  unfold _molecularWeightCalculator. py_unfold.
  destruct (mkdir_if_missing cwd ["3_docking_job"; "images"]) eqn:H1;
    [|intros [= <-]; by eapply mkdir_if_missing_builtin].
  destruct (mkdir_if_missing cwd ["1_input_files"; "molecular_weight"]) eqn:H2;
    [|intros [= <-]; by eapply mkdir_if_missing_builtin].
  destruct (os_listdir cwd _) as [names|] eqn:H3;
    [|intros [= <-]; by eapply os_listdir_builtin].
  destruct names as [|ligand_file names]; simpl; [by intros [= <-]|].
  destruct (pd_read_csv cwd _) as [df|] eqn:H4;
    [|intros [= <-]; by eapply pd_read_csv_builtin].
  destruct df; try (by intros [= <-]).
  destruct (molecular_weights smiles) eqn:H5; [discriminate|].
  intros [= <-]. by eapply molecular_weights_builtin.
Qed.

(** The call in [glideAnalysis] passes two arguments to a method with
    three positional parameters. *)
Lemma correlation_two_arguments `{NumericLibraries} cwd self experimental_data column_name :
  _correlation cwd self [experimental_data; column_name] = Raise TypeError.
Proof. reflexivity. Qed.

Lemma glideAnalysis_stages `{Argsort} `{RDKit} `{NumericLibraries} cwd self
  experimental_data column_name protocol :
  glideAnalysis cwd self experimental_data column_name protocol =
    (self1 ← _glideDockingResultsChecker cwd (Analyzer.set_protocol protocol self) protocol;
     self2 ← _glideDataFrameRetriever cwd self1 protocol;
     self3 ← _molecularWeightCalculator cwd self2;
     Raise TypeError).
Proof. reflexivity. Qed.

(** C6 is contradicted by the code for Glide: for a protocol other than
    'dock' or 'score', rDock's check raises [ProtocolError], while
    Glide's check has no such branch and returns normally; the Glide
    analysis then fails later, and not with [ProtocolError]. *)
Theorem glide_accepts_unknown_protocol `{Argsort} `{RDKit} `{NumericLibraries}
  (cwd : Node) (self : Analyzer.t) (experimental_data column_name protocol : string) :
  protocol ≠ "dock" -> protocol ≠ "score" ->
  _rdockDockingResultsChecker cwd self protocol = Raise ProtocolError /\
  _glideDockingResultsChecker cwd self protocol
    = Return (Analyzer.set_docking_tool "glide" self) /\
  fails_with "ProtocolError"
    (glideAnalysis cwd self experimental_data column_name protocol) = false.
Proof.
  intros Hdock Hscore. split_and!.
  - unfold _rdockDockingResultsChecker. by rewrite !decide_False.
  - unfold _glideDockingResultsChecker. by rewrite !decide_False.
  - assert (Hc : forall s, _glideDockingResultsChecker cwd s protocol
                       = Return (Analyzer.set_docking_tool "glide" s))
      by (intros s; unfold _glideDockingResultsChecker; by rewrite !decide_False).
    assert (Hr : forall s, _glideDataFrameRetriever cwd s protocol = Return s)
      by (intros s; unfold _glideDataFrameRetriever; by rewrite !decide_False).
    rewrite glideAnalysis_stages, Hc. unfold mbind at 1, PyResult_bind at 1.
    rewrite Hr. unfold mbind at 1, PyResult_bind at 1.
    destruct (_molecularWeightCalculator cwd _) as [self3|e] eqn:Hmw; [done|].
    apply fails_with_builtin. intros e' [= <-]. by eapply molecularWeightCalculator_builtin.
Qed.

Lemma glide_accepts_unknown_protocol_witness :
  _rdockDockingResultsChecker glide_dock_complete Analyzer.init "rescore"
    = Raise ProtocolError /\
  _glideDockingResultsChecker glide_dock_complete Analyzer.init "rescore"
    = Return (Analyzer.set_docking_tool "glide" Analyzer.init) /\
  fails_with "ProtocolError"
    (@glideAnalysis insertion_argsort rdkit_stand_in numeric_stand_in glide_dock_complete
       Analyzer.init "affinity.csv" "dG" "rescore") = false.
Proof.
  apply (@glide_accepts_unknown_protocol insertion_argsort rdkit_stand_in numeric_stand_in
           glide_dock_complete Analyzer.init "affinity.csv" "dG" "rescore");
    discriminate.
Defined.

(** C10, as stated, fails: when an earlier stage raises, its exception
    is the one that ends the run. With Glide's 'score' results folder
    empty the analysis ends in [ResultsMissingError], not in TypeError. *)
Lemma glide_analysis_earlier_error :
  @glideAnalysis insertion_argsort rdkit_stand_in numeric_stand_in glide_score_empty
    Analyzer.init "affinity.csv" "dG" "score"
  = Raise (ResultsMissingError "3_docking_job/glide_score").
Proof. vm_compute. reflexivity. Qed.

(** C10, amended. For every input the Glide entry point ends in an
    exception and never runs to completion, so it produces no
    correlation output; whenever the three stages before the correlation
    step succeed, the exception is the TypeError of calling, with two
    arguments, a method that requires a third positional argument;
    otherwise it is the exception of the earlier stage that failed. *)
Theorem glide_analysis_never_completes `{Argsort} `{RDKit} `{NumericLibraries}
  (cwd : Node) (self : Analyzer.t) (experimental_data column_name protocol : string) :
  exists e, glideAnalysis cwd self experimental_data column_name protocol = Raise e /\
    (earlier_stages_succeed cwd self protocol -> e = TypeError) /\
    (earlier_stages_succeed cwd self protocol \/ earlier_stage_raises cwd self protocol e).
Proof.
  rewrite glideAnalysis_stages. unfold earlier_stages_succeed, earlier_stage_raises.
  py_unfold.
  destruct (_glideDockingResultsChecker cwd _ protocol) as [self1|e1] eqn:Hc.
  - destruct (_glideDataFrameRetriever cwd self1 protocol) as [self2|e2] eqn:Hr.
    + destruct (_molecularWeightCalculator cwd self2) as [self3|e3] eqn:Hm.
      * exists TypeError. split_and!; [done..|]. left. by exists self1, self2, self3.
      * exists e3. split_and!; [done| |].
        -- intros (s1 & s2 & s3 & [= <-] & E2 & E3). rewrite Hr in E2. injection E2 as <-.
           rewrite Hm in E3. discriminate.
        -- right. right. exists self1. split; [done|]. right. by exists self2.
    + exists e2. split_and!; [done| |].
      * intros (s1 & s2 & s3 & [= <-] & E2 & _). rewrite Hr in E2. discriminate.
      * right. right. exists self1. split; [done|]. by left.
  - exists e1. split_and!; [done| |].
    + intros (s1 & s2 & s3 & [=] & _).
    + right. by left.
Qed.

Lemma glide_analysis_never_completes_witness :
  @glideAnalysis insertion_argsort rdkit_stand_in numeric_stand_in glide_dock_complete
    Analyzer.init "affinity.csv" "dG" "dock" = Raise TypeError.
Proof.
  destruct (@glide_analysis_never_completes insertion_argsort rdkit_stand_in
              numeric_stand_in glide_dock_complete Analyzer.init "affinity.csv" "dG" "dock")
    as (e & -> & Hstages & _).
  f_equal. apply Hstages. do 3 eexists. split_and!; vm_compute; reflexivity.
Defined.

(** * Further properties of the code *)

(** ** More on the conformer reduction *)

Lemma NoDup_fmap_eq {A B : Type} (f : A -> B) (l : list A) (a b : A) :
  NoDup (f <$> l) -> a ∈ l -> b ∈ l -> f a = f b -> a = b.
Proof.
  induction l as [|x l IH]; [by intros _ ?%elem_of_nil|].
  rewrite fmap_cons, NoDup_cons. intros [Hx Hnd] Ha Hb E.
  apply elem_of_cons in Ha as [->|Ha]; apply elem_of_cons in Hb as [->|Hb]; [done| | |by apply IH].
  - exfalso. apply Hx. rewrite E. by apply list_elem_of_fmap_2.
  - exfalso. apply Hx. rewrite <- E. by apply list_elem_of_fmap_2.
Qed.

(** A reduction of a table that has one row per ligand keeps every row. *)
Lemma reduction_keeps_single_rows {Row K : Type} `{Countable K} `{KeyOrder K}
  (ligand : Row -> K) (score : Row -> float) (df out : list Row) :
  NoDup (ligand <$> df) -> best_pose_per_ligand ligand score df out -> out ≡ₚ df.
Proof.
  intros Hdf Hred. apply NoDup_Permutation.
  - eapply NoDup_fmap_1, Hred.
  - by eapply NoDup_fmap_1.
  - intros r. split; [intros Hr; by apply (minimum_score _ _ _ _ Hred)|]. intros Hr.
    assert (Hk : ligand r ∈ ligand <$> out).
    { apply (same_ligands _ _ _ _ Hred). by apply list_elem_of_fmap_2. }
    apply list_elem_of_fmap in Hk as (r' & E & Hr').
    assert (r = r') as ->; [|done].
    apply (NoDup_fmap_eq ligand df); [done..| |done]. by apply (minimum_score _ _ _ _ Hred).
Qed.

(** A reduction of a reduction is that reduction. *)
Lemma reduction_of_reduction {Row K : Type} `{Countable K} `{KeyOrder K}
  (ligand : Row -> K) (score : Row -> float) (df out out' : list Row) :
  (forall a b : K, key_le a b = true -> key_le b a = true -> a = b) ->
  best_pose_per_ligand ligand score df out ->
  best_pose_per_ligand ligand score out out' -> out' = out.
Proof.
  intros key_le_antisym Hred Hred'.
  apply (StronglySorted_unique_strong
           (fun a b => key_le (ligand a) (ligand b) = true /\ ligand a ≠ ligand b)).
  - intros a b _ _ [Hab Hne] [Hba _]. destruct Hne. by apply key_le_antisym.
  - apply Hred'.
  - apply Hred.
  - apply (reduction_keeps_single_rows ligand score); [apply Hred|done].
Qed.

Section more_reduction.
Context `{ArgsortSorts} `{LabelLaws}.

(** Sorting by score, keeping the first row of each ligand and sorting
    by ligand: the reduction without the Glide block's middle steps. *)
Lemma plain_reduction_reduces {Row K : Type} `{Countable K} `{KeyOrderLaws K}
  (ligand : Row -> K) (score : Row -> float) (df : list Row) :
  best_pose_per_ligand ligand score df
    (sort_values ligand (drop_duplicates ligand (sort_values score df))).
Proof.
  apply best_pose_per_ligand_sorted.
  - apply drop_duplicates_NoDup.
  - intros l. rewrite drop_duplicates_keys. by rewrite sort_values_Permutation.
  - intros r Hr. split.
    + apply drop_duplicates_elem_of in Hr. by rewrite sort_values_elem_of in Hr.
    + intros r' Hr' Hl.
      apply (drop_duplicates_first ligand (le_on score) (sort_values score df));
        [apply le_on_refl|apply sort_values_sorted|done| |done].
      by rewrite sort_values_elem_of.
Qed.

(** X1. Reducing an already reduced table changes nothing, for rDock's
    trimmer and for Glide's reduction block. *)
Theorem reduction_idempotent (rdock_df : list Rdock.Row) (glide_df : list Glide.Row) :
  Rdock.pose <$> _rdockDataFrameTrimmer (Rdock.pose <$> _rdockDataFrameTrimmer rdock_df)
    = Rdock.pose <$> _rdockDataFrameTrimmer rdock_df /\
  glide_best_poses (glide_best_poses glide_df) = glide_best_poses glide_df.
Proof.
  split.
  - eapply reduction_of_reduction;
      [apply name_le_antisym|apply _rdockDataFrameTrimmer_reduces..].
  - eapply reduction_of_reduction; [apply name_le_antisym|apply glide_best_poses_reduces..].
Qed.

(** X2. When every ligand has exactly one record, the reduction drops
    nothing: its rows are the input rows, reordered by ligand id. *)
Theorem reduction_of_single_records (rdock_df : list Rdock.Row) (glide_df : list Glide.Row) :
  (NoDup (Rdock.ligand <$> rdock_df) ->
   Rdock.pose <$> _rdockDataFrameTrimmer rdock_df ≡ₚ rdock_df) /\
  (NoDup (glide_title <$> glide_df) -> glide_best_poses glide_df ≡ₚ glide_df).
Proof.
  split; intros Hnd.
  - eapply reduction_keeps_single_rows; [done|apply _rdockDataFrameTrimmer_reduces].
  - eapply reduction_keeps_single_rows; [done|apply glide_best_poses_reduces].
Qed.

(** X3. When no two different rows of one title tie on score, Glide's
    reduction block gives what the plain reduction gives: its first
    three steps (de-duplication and sort on title and ligand number) do
    not change the result. *)
Theorem glide_block_is_plain_reduction (df : list Glide.Row) :
  no_score_ties glide_title glide_score df ->
  glide_best_poses df =
    sort_values glide_title (drop_duplicates glide_title (sort_values glide_score df)).
Proof.
  intros Hties.
  apply (reductions_equal name_le_antisym glide_title glide_score df df); [done| | |done].
  - apply glide_best_poses_reduces.
  - apply plain_reduction_reduces.
Qed.

End more_reduction.

Lemma wrap_int64_minus (a b : Z) : wrap_int64 (a - wrap_int64 b) = wrap_int64 (a - b).
Proof.
  unfold wrap_int64.
  assert (E : (2 ^ 64 = 2 * 2 ^ 63)%Z) by reflexivity. rewrite E.
  generalize (2 ^ 63)%Z. intros p. f_equal.
  replace (a - ((b + p) `mod` (2 * p) - p) + p)%Z
    with (a + 2 * p - (b + p) `mod` (2 * p))%Z by lia.
  rewrite Zminus_mod_idemp_r. f_equal. lia.
Qed.

(** On an int64 entry other than the least one, the wrapping
    arithmetic gives the place of the entry in its batch of 50. *)
Lemma docking_conformation_of_mod (file_entry : Z) :
  (int64_min < file_entry <= int64_max)%Z ->
  (1 <= docking_conformation_of file_entry <= 50)%Z /\
  docking_conformation_of file_entry = ((file_entry - 1) `mod` 50 + 1)%Z.
Proof.
  unfold int64_min, int64_max. intros Hrange.
  assert (E63 : (2 ^ 63 = 9223372036854775808)%Z) by reflexivity.
  rewrite E63 in Hrange.
  pose proof (Z.div_mod (file_entry - 1) 50 ltac:(lia)) as Hdiv.
  pose proof (Z.mod_pos_bound (file_entry - 1) 50 ltac:(lia)) as Hmod.
  assert (Hin : forall z, (- 9223372036854775808 <= z <= 9223372036854775807)%Z ->
                  wrap_int64 z = z).
  { intros z Hz. apply wrap_int64_id. unfold in_int64, int64_min, int64_max.
    rewrite E63, andb_true_iff, !Z.leb_le. lia. }
  assert (Hvalue : docking_conformation_of file_entry = ((file_entry - 1) `mod` 50 + 1)%Z).
  { unfold docking_conformation_of.
    rewrite (Hin (file_entry - 1)%Z) by lia.
    rewrite wrap_int64_minus. rewrite Hin by lia. lia. }
  rewrite Hvalue. lia.
Qed.

Lemma take_rows_elem_of {Row : Type} (df : list Row) (idx : list nat) (r : Row) :
  r ∈ take_rows df idx -> r ∈ df.
Proof.
  unfold take_rows. rewrite list_elem_of_omap. intros (i & _ & Hr).
  by apply list_elem_of_lookup_2 in Hr.
Qed.

(** X4. In every row the trimmer returns, the docking conformation is
    the place of the row's file entry in its batch of 50: it lies
    between 1 and 50 and is [(file_entry - 1) mod 50 + 1], for the
    entries of an int64 column other than the least int64 value, where
    the subtraction of 1 wraps around. *)
Theorem docking_conformation_in_batch `{Argsort} `{LabelDtype} (df : list Rdock.Row) :
  Forall (fun r => (int64_min < Rdock.file_entry r <= int64_max)%Z) df ->
  Forall (fun best =>
            (1 <= Rdock.docking_conformation best <= 50)%Z /\
            Rdock.docking_conformation best
            = ((Rdock.file_entry (Rdock.pose best) - 1) `mod` 50 + 1)%Z)
         (_rdockDataFrameTrimmer df).
Proof.
  intros Hdf. unfold _rdockDataFrameTrimmer. apply Forall_fmap, Forall_forall.
  intros r Hr. apply docking_conformation_of_mod. simpl.
  rewrite Forall_forall in Hdf. apply Hdf.
  unfold sort_values in Hr. apply take_rows_elem_of, drop_duplicates_elem_of in Hr.
  by apply take_rows_elem_of in Hr.
Qed.

(** At the least int64 value the subtraction wraps around. *)
Example docking_conformation_wraps : docking_conformation_of int64_min = 8%Z.
Proof. reflexivity. Qed.

Lemma docking_conformation_in_batch_witness :
  Forall (fun best =>
            (1 <= Rdock.docking_conformation best <= 50)%Z /\
            Rdock.docking_conformation best
            = ((Rdock.file_entry (Rdock.pose best) - 1) `mod` 50 + 1)%Z)
         (@_rdockDataFrameTrimmer insertion_argsort object_dtype rdock_sample).
Proof.
  apply (@docking_conformation_in_batch insertion_argsort object_dtype rdock_sample).
  repeat constructor; vm_compute; done.
Defined.

Lemma reduction_idempotent_witness :
  Rdock.pose <$> @_rdockDataFrameTrimmer insertion_argsort object_dtype
      (Rdock.pose <$> @_rdockDataFrameTrimmer insertion_argsort object_dtype rdock_sample)
    = Rdock.pose <$> @_rdockDataFrameTrimmer insertion_argsort object_dtype rdock_sample /\
  @glide_best_poses insertion_argsort object_dtype (@glide_best_poses insertion_argsort object_dtype glide_sample)
    = @glide_best_poses insertion_argsort object_dtype glide_sample.
Proof.
  exact (@reduction_idempotent insertion_argsort insertion_argsort_sorts
           object_dtype object_dtype_laws rdock_sample glide_sample).
Defined.

Lemma reduction_of_single_records_witness :
  Rdock.pose <$> @_rdockDataFrameTrimmer insertion_argsort object_dtype rdock_single_records
    ≡ₚ rdock_single_records /\
  @glide_best_poses insertion_argsort object_dtype glide_single_records ≡ₚ glide_single_records.
Proof.
  destruct (@reduction_of_single_records insertion_argsort insertion_argsort_sorts
              object_dtype object_dtype_laws
              rdock_single_records glide_single_records) as [Hr Hg].
  split; [apply Hr|apply Hg]; apply (bool_decide_unpack _); vm_compute; reflexivity.
Defined.

Lemma glide_block_is_plain_reduction_witness :
  @glide_best_poses insertion_argsort object_dtype glide_sample =
    @sort_values insertion_argsort _ _ _ glide_title
      (drop_duplicates glide_title (@sort_values insertion_argsort _ _ _ glide_score
                                      glide_sample)).
Proof.
  exact (@glide_block_is_plain_reduction insertion_argsort insertion_argsort_sorts
           object_dtype object_dtype_laws glide_sample glide_sample_no_ties).
Defined.

(** ** Sharded ingestion of well-formed shards *)

Lemma string_of_chars (s : string) : String.string_of_list_ascii (chars s) = s.
Proof. apply String.string_of_list_ascii_of_string. Qed.

Lemma append_cons (a : ascii) (s t : string) : String a s +:+ t = String a (s +:+ t).
Proof. reflexivity. Qed.

Lemma chars_app (s t : string) : chars (s +:+ t) = chars s ++ chars t.
Proof.
  induction s as [|a s IH]; [done|].
  rewrite append_cons. unfold chars in *. simpl. by rewrite IH.
Qed.

Lemma split_blank_from_token (tok : list ascii) (s rest : string) :
  Forall (fun a => py_isspace a = false) (chars s) ->
  split_blank_from tok (s +:+ rest) = split_blank_from (reverse (chars s) ++ tok) rest.
Proof.
  revert tok. induction s as [|a s IH]; intros tok Hs; [done|].
  unfold chars in Hs. simpl in Hs. apply Forall_cons in Hs as [Ha Hs]. cbv beta in Ha.
  rewrite append_cons. cbn [split_blank_from]. rewrite Ha, IH by done.
  unfold chars. simpl. by rewrite reverse_cons, <- app_assoc.
Qed.

Lemma split_blank_token (s : string) :
  s ≠ "" -> Forall (fun a => py_isspace a = false) (chars s) ->
  split_blank (s +:+ nl) = [s].
Proof.
  intros Hne Hs. unfold split_blank. rewrite split_blank_from_token by done.
  rewrite app_nil_r. unfold nl. cbn [split_blank_from].
  replace (py_isspace (ascii_of_nat 10)) with true by reflexivity.
  rewrite reverse_involutive, app_nil_r, string_of_chars.
  destruct (reverse (chars s)) eqn:Hrev; [|done].
  apply (f_equal reverse) in Hrev. rewrite reverse_involutive in Hrev.
  destruct s; [done|discriminate].
Qed.

Lemma split_on_from_field (sep : ascii) (field : list ascii) (s rest : string) :
  Forall (fun a => a ≠ sep) (chars s) ->
  split_on_from sep field (s +:+ rest) = split_on_from sep (reverse (chars s) ++ field) rest.
Proof.
  revert field. induction s as [|a s IH]; intros field Hs; [done|].
  unfold chars in Hs. simpl in Hs. apply Forall_cons in Hs as [Ha Hs]. cbv beta in Ha.
  rewrite append_cons. cbn [split_on_from].
  rewrite (proj2 (Ascii.eqb_neq a sep) Ha), IH by done.
  unfold chars. simpl. by rewrite reverse_cons, <- app_assoc.
Qed.

Lemma split_on_hyphen (ligand conformer : string) :
  Forall (fun a => a ≠ "-"%char) (chars ligand) ->
  Forall (fun a => a ≠ "-"%char) (chars conformer) ->
  split_on "-"%char (ligand +:+ "-" +:+ conformer +:+ nl) = [ligand; conformer +:+ nl].
Proof.
  intros Hl Hc. unfold split_on. rewrite split_on_from_field by done.
  rewrite app_nil_r, append_cons. cbn [split_on_from]. rewrite Ascii.eqb_refl.
  change (EmptyString +:+ ?x) with x.
  rewrite reverse_involutive, string_of_chars. f_equal.
  rewrite split_on_from_field by done. rewrite app_nil_r. unfold nl.
  cbn [split_on_from]. replace (Ascii.eqb (ascii_of_nat 10) "-") with false by reflexivity.
  cbn [split_on_from]. f_equal.
  rewrite <- (string_of_chars (conformer +:+ _)), chars_app.
  f_equal. by rewrite reverse_cons, reverse_involutive.
Qed.

Lemma for_each_step {A S : Type} (body : S -> A -> PyResult S) (st st' : S) (x : A) (rest : list A) :
  body st x = Return st' -> for_each body st (x :: rest) = for_each body st' rest.
Proof. intros Hbody. cbn [for_each]. py_unfold. by rewrite Hbody. Qed.

Lemma plain_line_contains (line : string) :
  plain_line line = true ->
  contains "$$$$" line = false /\ contains ">  <SCORE>" line = false /\
  contains ">  <s_lp_Variant>" line = false.
Proof.
  unfold plain_line. rewrite !andb_true_iff, !negb_true_iff. tauto.
Qed.

(** The pass over the seven lines of one well-formed record, entered
    with both flags false: one row is appended, with the record's own
    score, and the counter moves on by one. *)
Lemma scan_record (filename : string) (c : Z) (s0 : option string)
    (d : list Rdock.DataRow) (r : ShardRecord) (rest : list string) :
  well_formed_record r ->
  for_each (scan_line filename)
    {| counter := c; score_bool := false; conformer_bool := false; score := s0; data := d |}
    (record_lines r ++ rest) =
  for_each (scan_line filename)
    {| counter := (c + 1)%Z; score_bool := false; conformer_bool := false;
       score := Some (shard_score r);
       data := d ++ [{| Rdock.data_file_name := filename; Rdock.data_file_entry := c;
                        Rdock.data_ligand := shard_ligand r;
                        Rdock.data_conformer := shard_conformer r +:+ nl;
                        Rdock.data_rdock_score := shard_score r |}] |}
    rest.
Proof.
  intros (Hne & Hscore & Hligand & Hconformer & Hline1 & Hline2).
  apply plain_line_contains in Hline1 as (Hd1 & Hs1 & Hv1).
  apply plain_line_contains in Hline2 as (Hd2 & Hs2 & Hv2).
  unfold record_lines. cbn [app].
  erewrite for_each_step by reflexivity.
  erewrite for_each_step; last first.
  { unfold scan_line. cbn [score_bool conformer_bool counter score data].
    replace (contains ">  <SCORE>" (">  <SCORE>" +:+ nl)) with true by reflexivity.
    replace (contains ">  <s_lp_Variant>" (">  <SCORE>" +:+ nl)) with false by reflexivity.
    replace (contains "$$$$" (">  <SCORE>" +:+ nl)) with false by reflexivity.
    rewrite split_blank_token by done. cbn [first_item]. py_unfold.
    rewrite Hd1, Hs1, Hv1. reflexivity. }
  erewrite for_each_step by reflexivity.
  erewrite for_each_step by reflexivity.
  erewrite for_each_step; last first.
  { unfold scan_line. cbn [score_bool conformer_bool counter score data].
    replace (contains ">  <SCORE>" nl) with false by reflexivity.
    replace (contains "$$$$" nl) with false by reflexivity.
    replace (contains ">  <SCORE>" (">  <s_lp_Variant>" +:+ nl)) with false by reflexivity.
    replace (contains ">  <s_lp_Variant>" (">  <s_lp_Variant>" +:+ nl)) with true by reflexivity.
    replace (contains "$$$$" (">  <s_lp_Variant>" +:+ nl)) with false by reflexivity.
    rewrite split_on_hyphen by done. py_unfold.
    rewrite Hd2, Hs2, Hv2. reflexivity. }
  erewrite for_each_step by reflexivity.
  erewrite for_each_step by reflexivity.
  reflexivity.
Qed.

Lemma scan_records (filename : string) (records : list ShardRecord) :
  forall (k : nat) (s0 : option string) (d : list Rdock.DataRow) (rest : list string),
  Forall well_formed_record records ->
  for_each (scan_line filename)
    {| counter := Z.of_nat k + 1; score_bool := false; conformer_bool := false;
       score := s0; data := d |}
    (concat (record_lines <$> records) ++ rest) =
  for_each (scan_line filename)
    {| counter := Z.of_nat (k + length records) + 1; score_bool := false;
       conformer_bool := false; score := last_score s0 records;
       data := d ++ imap (fun i => record_row filename (k + i)) records |}
    rest.
Proof.
  induction records as [|r records IH]; intros k s0 d rest Hwf.
  - cbn [fmap list_fmap concat app length imap]. by rewrite Nat.add_0_r, app_nil_r.
  - apply Forall_cons in Hwf as [Hr Hwf].
    rewrite fmap_cons. cbn [concat]. rewrite <- app_assoc, scan_record by done.
    replace (Z.of_nat k + 1 + 1)%Z with (Z.of_nat (S k) + 1)%Z by lia.
    pose proof (IH (S k) (Some (shard_score r))
                  (d ++ [record_row filename (k + 0) r]) rest Hwf) as Hs1.
    unfold record_row at 1 in Hs1. rewrite Nat.add_0_r in Hs1.
    rewrite Hs1. cbn [length imap]. rewrite <- app_assoc. cbn [app].
    replace (S k + length records)%nat with (k + S (length records))%nat by lia.
    assert (Himap : imap ((fun i => record_row filename (k + i)) ∘ S) records =
                    imap (fun i => record_row filename (S k + i)) records).
    { apply imap_ext. intros i x _. simpl. f_equal. lia. }
    assert (Hlast : last_score (Some (shard_score r)) records = last_score s0 (r :: records)).
    { unfold last_score. rewrite last_cons. by destruct (last records). }
    by rewrite Himap, Hlast, Nat.add_0_r.
Qed.

Lemma scan_shard_file (carry : option string * list Rdock.DataRow)
    (file : string * list ShardRecord) :
  Forall well_formed_record file.2 ->
  scan_file carry (shard_file file) =
    Return (last_score carry.1 file.2, carry.2 ++ shard_rows file).
Proof.
  intros Hwf. unfold scan_file, shard_file. cbn [fst snd].
  pose proof (scan_records file.1 file.2 0 carry.1 carry.2 [] Hwf) as Hs1.
  rewrite app_nil_r in Hs1.
  change 1%Z with (Z.of_nat 0 + 1)%Z. rewrite Hs1. reflexivity.
Qed.

Lemma scan_shard_files (files : list (string * list ShardRecord)) :
  forall carry : option string * list Rdock.DataRow,
  Forall (fun file => startswith "split" file.1 = true -> Forall well_formed_record file.2)
    files ->
  exists s1,
    for_each scan_file carry
      (filter (fun file => startswith "split" file.1 = true) (shard_file <$> files)) =
    Return (s1, carry.2 ++
      concat (shard_rows <$> filter (fun file => startswith "split" file.1 = true) files)).
Proof.
  induction files as [|file files IH]; intros carry Hwf.
  - exists carry.1. cbn. rewrite app_nil_r. by destruct carry.
  - apply Forall_cons in Hwf as [Hfile Hwf].
    rewrite fmap_cons, !filter_cons. change (shard_file file).1 with file.1.
    destruct (decide (startswith "split" file.1 = true)) as [Hsplit|Hsplit]; [|by apply IH].
    pose proof (scan_shard_file carry file (Hfile Hsplit)) as Hs1.
    destruct (IH (last_score carry.1 file.2, carry.2 ++ shard_rows file) Hwf) as [s2 Hs2].
    exists s2. cbn [for_each]. py_unfold. rewrite Hs1, Hs2.
    rewrite fmap_cons. cbn [concat fst snd]. by rewrite app_assoc.
Qed.

(** X5 (src/dockingAnalysis.py, [_rdockDataFrameGenerator], 'dock'
    protocol): on shards in canonical form the sharded ingestion is the
    inverse of printing. Among the given files only those whose name
    starts with [split] are read; when every record of those files is
    well formed (a one-token score, no hyphen in the ligand name and in
    the conformer, no marker in a value line), the pass raises nothing
    and returns exactly one row per record, in the order of the files and
    of the records, with the file's name, the position of the record in
    its file counted from 1, the record's ligand, its conformer followed
    by the newline of its line, and the record's own score. *)
Theorem shard_ingestion_round_trip (files : list (string * list ShardRecord)) :
  Forall (fun file => startswith "split" file.1 = true -> Forall well_formed_record file.2)
    files ->
  _rdockDataFrameGenerator (shard_file <$> files) =
    Return (concat (shard_rows <$>
      filter (fun file => startswith "split" file.1 = true) files)).
Proof.
  intros Hwf. unfold _rdockDataFrameGenerator.
  destruct (scan_shard_files files (None, []) Hwf) as [s1 Hs1].
  by rewrite Hs1.
Qed.

Lemma shard_ingestion_round_trip_witness :
  Forall (fun file => startswith "split" file.1 = true -> Forall well_formed_record file.2)
    shard_files_sample /\
  _rdockDataFrameGenerator (shard_file <$> shard_files_sample) =
    Return (concat (shard_rows <$>
      filter (fun file => startswith "split" file.1 = true) shard_files_sample)).
Proof.
  assert (Hwf : Forall (fun file => startswith "split" file.1 = true ->
                          Forall well_formed_record file.2) shard_files_sample).
  { repeat apply Forall_cons_2; try apply Forall_nil_2; cbn [fst snd]; intros Hsplit;
      try discriminate Hsplit;
      repeat apply Forall_cons_2; try apply Forall_nil_2;
      unfold well_formed_record; cbn [shard_score shard_ligand shard_conformer];
      (split_and!; [done | | | | reflexivity | reflexivity]);
      unfold chars; cbn [String.list_ascii_of_string];
      repeat apply Forall_cons_2; try apply Forall_nil_2; done. }
  split; [exact Hwf|]. exact (shard_ingestion_round_trip shard_files_sample Hwf).
Defined.

(** ** Result discovery, 'dock' protocol *)

Lemma resolve_app (p q : list string) (cwd : Node) :
  resolve (p ++ q) cwd = node ← resolve p cwd; resolve q node.
Proof.
  revert cwd. induction p as [|name p IH]; intros cwd; [done|].
  cbn [app resolve]. destruct cwd as [c|entries]; [done|].
  destruct (entries !! name); [apply IH|done].
Qed.

(** A name that [os.listdir] returns is a file or a folder. *)
Lemma os_listdir_entry (cwd : Node) (path names : list string) (x : string) :
  os_listdir cwd path = Return names -> x ∈ names ->
  os_path_isfile cwd (path ++ [x]) = negb (os_path_isdir cwd (path ++ [x])).
Proof.
  unfold os_listdir, os_path_isfile, os_path_isdir. rewrite resolve_app. py_unfold.
  destruct (resolve path cwd) as [[c|entries]|e]; try discriminate.
  intros [= <-] Hx. apply list_elem_of_fmap in Hx as ([x' child] & -> & Hx).
  apply elem_of_map_to_list in Hx. cbn [resolve fst]. rewrite Hx. by destruct child.
Qed.

Lemma first_item_filter {A : Type} (P : A -> Prop) `{forall x, Decision (P x)} (l : list A) :
  first_item (filter P l) =
    match filter P l with x :: _ => Return x | [] => Raise IndexError end.
Proof. reflexivity. Qed.

Lemma filter_nil_not_Exists {A : Type} (P : A -> Prop) `{forall x, Decision (P x)}
    (l : list A) :
  filter P l = [] <-> ~ Exists P l.
Proof.
  rewrite <- Forall_Exists_neg. induction l as [|x l IH]; [by split; [constructor|]|].
  rewrite filter_cons, Forall_cons. destruct (decide (P x)); [|tauto].
  split; [discriminate|tauto].
Qed.

Lemma rev_app_nonempty (s t : string) : t ≠ "" -> String.rev_app s t ≠ "".
Proof.
  revert t. induction s as [|a s IH]; intros t Ht; [done|]. cbn [String.rev_app]. by apply IH.
Qed.

Lemma endswith_nonempty (p x : string) :
  p ≠ "" -> endswith p x = true -> String.length x ≠ 0.
Proof.
  intros Hp. destruct x; [|done]. unfold endswith.
  destruct (String.rev p) eqn:Hrev; [|discriminate].
  destruct p as [|a p]; [done|]. exfalso.
  by apply (rev_app_nonempty p (String a "")).
Qed.

(** X6 (src/dockingAnalysis.py, [_rdockDockingResultsChecker], 'dock'
    protocol): the discovery never fails with [ResultsMissingError]: the
    test that guards that message cannot hold for a name that ends in
    [.sd]. When the results folder can be listed, the discovery succeeds
    exactly when a listed name ends in [.sd], setting the tool and the
    protocol; with no such name it stops with [IndexError]. *)
Theorem rdock_dock_discovery (cwd : Node) (self : Analyzer.t) :
  fails_with "ResultsMissingError" (_rdockDockingResultsChecker cwd self "dock") = false /\
  forall names, os_listdir cwd ["3_docking_job"; "job"; "results"] = Return names ->
    _rdockDockingResultsChecker cwd self "dock" =
      if decide (Exists (fun x => endswith ".sd" x = true) names)
      then Return (Analyzer.set_docking_tool "rdock" (Analyzer.set_protocol "dock" self))
      else Raise IndexError.
Proof.
  assert (Hcheck : forall names,
    os_listdir cwd ["3_docking_job"; "job"; "results"] = Return names ->
    _rdockDockingResultsChecker cwd self "dock" =
      if decide (Exists (fun x => endswith ".sd" x = true) names)
      then Return (Analyzer.set_docking_tool "rdock" (Analyzer.set_protocol "dock" self))
      else Raise IndexError).
  { intros names Hnames. unfold _rdockDockingResultsChecker.
    rewrite decide_True by done. rewrite Hnames. py_unfold. rewrite first_item_filter.
    destruct (filter _ names) as [|x rest] eqn:Hfilter.
    - apply filter_nil_not_Exists in Hfilter. by rewrite decide_False.
    - assert (Hx : x ∈ filter (fun x => endswith ".sd" x = true) names)
        by (rewrite Hfilter; left).
      apply list_elem_of_filter in Hx as [Hsd Hx].
      rewrite decide_False by (by apply (endswith_nonempty ".sd")).
      rewrite decide_True; [done|]. apply Exists_exists. eauto. }
  split; [|done].
  destruct (os_listdir cwd ["3_docking_job"; "job"; "results"]) as [names|e] eqn:Hnames.
  - rewrite (Hcheck names eq_refl). by destruct (decide _).
  - unfold _rdockDockingResultsChecker. rewrite decide_True by done. rewrite Hnames.
    py_unfold. cbn [fails_with]. by rewrite (os_listdir_builtin _ _ _ Hnames).
Qed.

Lemma rdock_dock_discovery_witness :
  _rdockDockingResultsChecker rdock_dock_results Analyzer.init "dock" =
    Return (Analyzer.set_docking_tool "rdock" (Analyzer.set_protocol "dock" Analyzer.init)) /\
  _rdockDockingResultsChecker docking_job_folder Analyzer.init "dock" = Raise FileNotFoundError.
Proof.
  split; [|reflexivity].
  pose proof (proj2 (rdock_dock_discovery rdock_dock_results Analyzer.init)
                ["split1.sd"; "log.txt"]) as Hcheck.
  rewrite Hcheck by (vm_compute; reflexivity).
  rewrite decide_True; [done|]. apply Exists_cons_hd. reflexivity.
Defined.

(** X7 (src/dockingAnalysis.py, [_glideDockingResultsChecker], 'dock'
    protocol): a job folder without a result table is not reported as
    [ResultsMissingError]: when no listed name ends in [.csv] the
    discovery stops with [IndexError]. It fails with
    [ResultsMissingError] exactly when the first listed name that ends
    in [.csv] is a folder. *)
Theorem glide_dock_discovery (cwd : Node) (self : Analyzer.t) :
  (forall names, os_listdir cwd ["3_docking_job"; "job"] = Return names ->
     Forall (fun x => endswith ".csv" x = false) names ->
     _glideDockingResultsChecker cwd self "dock" = Raise IndexError) /\
  (fails_with "ResultsMissingError" (_glideDockingResultsChecker cwd self "dock") = true <->
   exists names csv rest,
     os_listdir cwd ["3_docking_job"; "job"] = Return names /\
     filter (fun x => endswith ".csv" x = true) names = csv :: rest /\
     os_path_isdir cwd ["3_docking_job"; "job"; csv] = true).
Proof.
  unfold _glideDockingResultsChecker, glide_dock_path. rewrite decide_True by done.
  split.
  - intros names Hnames Hnone. rewrite Hnames. py_unfold. rewrite first_item_filter.
    destruct (filter _ names) as [|x rest] eqn:Hfilter; [done|].
    assert (Hx : x ∈ filter (fun x => endswith ".csv" x = true) names)
      by (rewrite Hfilter; left).
    apply list_elem_of_filter in Hx as [Hcsv Hx].
    rewrite Forall_forall in Hnone. specialize (Hnone x Hx). congruence.
  - destruct (os_listdir cwd ["3_docking_job"; "job"]) as [names|e] eqn:Hnames; py_unfold.
    + rewrite first_item_filter.
      destruct (filter _ names) as [|x rest] eqn:Hfilter.
      { split; [discriminate|]. intros (? & ? & ? & [= <-] & Hf & _).
        rewrite Hfilter in Hf. discriminate. }
      assert (Hx : x ∈ filter (fun x => endswith ".csv" x = true) names)
        by (rewrite Hfilter; left).
      apply list_elem_of_filter in Hx as [_ Hx].
      pose proof (os_listdir_entry cwd ["3_docking_job"; "job"] names x Hnames Hx) as Hfile.
      cbn [app] in Hfile |- *. rewrite Hfile.
      destruct (os_path_isdir cwd ["3_docking_job"; "job"; x]) eqn:Hdir; cbn [negb].
      * split; [|by intros _; vm_compute]. intros _. by exists names, x, rest.
      * split; [discriminate|]. intros (? & ? & ? & [= <-] & Hf & Hdir').
        rewrite Hfilter in Hf. injection Hf as <- _. congruence.
    + cbn [fails_with]. rewrite (os_listdir_builtin _ _ _ Hnames).
      split; [discriminate|]. by intros (? & ? & ? & ? & _).
Qed.

Lemma glide_dock_discovery_witness :
  _glideDockingResultsChecker docking_job_folder Analyzer.init "dock" = Raise FileNotFoundError /\
  fails_with "ResultsMissingError"
    (_glideDockingResultsChecker glide_dock_csv_folder Analyzer.init "dock") = true.
Proof.
  split; [reflexivity|].
  apply (proj2 (glide_dock_discovery glide_dock_csv_folder Analyzer.init)).
  exists ["old.csv"], "old.csv", []. split_and!; vm_compute; reflexivity.
Defined.

(** ** Molecular weights of a batch that parses *)

Lemma comprehension_Forall2 {A B : Type} (f : A -> PyResult B) xs ys :
  Forall2 (fun x y => f x = Return y) xs ys -> comprehension f xs = Return ys.
Proof.
  induction 1 as [|x y xs ys Hx _ IH]; [done|].
  cbn [comprehension]. py_unfold. by rewrite Hx, IH.
Qed.

(** X8 (src/dockingAnalysis.py, [_molecularWeightCalculator]): the
    batch of molecular weights is returned exactly when every SMILES
    parses, and then it holds one weight per SMILES, in input order, each
    the exact weight of the molecule parsed from its SMILES. *)
Theorem molecular_weights_of_parsed_batch `{RDKit} (smiles : list string)
    (weights : list float) :
  molecular_weights smiles = Return weights <->
  Forall2 (fun s w => exists m, MolFromSmiles s = Some m /\ w = ExactMolWt m) smiles weights.
Proof.
  unfold molecular_weights. split.
  - intros Hc. apply comprehension_Return in Hc.
    eapply Forall2_impl; [exact Hc|]. intros s w. cbv beta.
    unfold calculate_molecular_weight, call_ExactMolWt.
    destruct (MolFromSmiles s) as [m|]; [|discriminate]. intros [= <-]. by exists m.
  - intros Hall. apply comprehension_Forall2.
    eapply Forall2_impl; [exact Hall|]. intros s w (m & Hm & ->). cbv beta.
    unfold calculate_molecular_weight, call_ExactMolWt. by rewrite Hm.
Qed.

(** ** Retrieval after a successful discovery (Glide) *)

Section retrieval.
Context `{ArgsortSorts}.

(** X9 (src/dockingAnalysis.py, [_glideDockingResultsChecker] followed
    by [_glideDataFrameRetriever], 'dock' protocol): after a successful
    discovery the retrieval finds the same result file and cannot fail
    while looking for it. When that file holds a Glide table, whatever
    dtype its titles have, the retrieval does what the conformer column
    does: it stops with the exception of the column, or it returns the
    object with one best pose per title of the table extended with the
    conformer column. *)
Theorem glide_dock_retrieval (cwd : Node) (self self1 : Analyzer.t) :
  _glideDockingResultsChecker cwd self "dock" = Return self1 ->
  exists path content,
    glide_dock_path cwd = Return path /\ resolve path cwd = Return (File content) /\
    forall (dtype : LabelDtype) (rows : list Glide.CsvRow),
      @LabelLaws dtype -> content = GlideCsv dtype rows ->
      match insert_conformer rows with
      | Return table =>
        exists best,
          _glideDataFrameRetriever cwd self1 "dock" =
            Return (Analyzer.set_calculated_data (GlideBestPoses dtype best) self1) /\
          best_pose_per_ligand glide_title glide_score table best
      | Raise e => _glideDataFrameRetriever cwd self1 "dock" = Raise e
      end.
Proof.
  unfold _glideDockingResultsChecker, _glideDataFrameRetriever.
  rewrite !decide_True by done. py_unfold.
  destruct (glide_dock_path cwd) as [path|] eqn:Hpath; [|discriminate].
  unfold os_path_isfile, pd_read_csv. py_unfold.
  destruct (resolve path cwd) as [[content|entries]|] eqn:Hresolve; try discriminate.
  intros _. exists path, content. split_and!; [done..|].
  intros dtype rows Hlaws ->.
  destruct (insert_conformer rows) as [table|e]; [|done].
  eexists. split; [done|]. apply glide_best_poses_reduces.
Qed.

End retrieval.

Lemma glide_dock_retrieval_witness :
  exists path content,
    glide_dock_path glide_dock_complete = Return path /\
    resolve path glide_dock_complete = Return (File content) /\
    forall (dtype : LabelDtype) (rows : list Glide.CsvRow),
      @LabelLaws dtype -> content = GlideCsv dtype rows ->
      match insert_conformer rows with
      | Return table =>
        exists best,
          @_glideDataFrameRetriever insertion_argsort glide_dock_complete
            (Analyzer.set_docking_tool "glide" Analyzer.init) "dock" =
            Return (Analyzer.set_calculated_data (GlideBestPoses dtype best)
                      (Analyzer.set_docking_tool "glide" Analyzer.init)) /\
          best_pose_per_ligand glide_title glide_score table best
      | Raise e =>
        @_glideDataFrameRetriever insertion_argsort glide_dock_complete
          (Analyzer.set_docking_tool "glide" Analyzer.init) "dock" = Raise e
      end.
Proof.
  apply (@glide_dock_retrieval insertion_argsort insertion_argsort_sorts
           glide_dock_complete Analyzer.init).
  vm_compute. reflexivity.
Defined.

(** X10 (src/dockingAnalysis.py, [_glideDockingResultsChecker] followed
    by [_glideDataFrameRetriever], 'score' protocol): after a successful
    discovery the retrieval collects the result files of the same ligand
    folders, at least one, so the concatenation of no table at all
    cannot occur: the retrieval returns the tables read, one per ligand
    folder in listing order, or stops with the exception of the first
    table that cannot be read. *)
Theorem glide_score_retrieval `{Argsort} (cwd : Node) (self self1 : Analyzer.t) :
  _glideDockingResultsChecker cwd self "score" = Return self1 ->
  exists ligands paths,
    glide_score_ligands cwd = Return ligands /\ glide_score_paths cwd = Return paths /\
    paths ≠ [] /\ length paths = length ligands /\
    match comprehension (pd_read_csv cwd) paths with
    | Return tables =>
      _glideDataFrameRetriever cwd self1 "score" =
        Return (Analyzer.set_calculated_data (GlideMerged tables) self1) /\
      length tables = length ligands
    | Raise e => _glideDataFrameRetriever cwd self1 "score" = Raise e
    end.
Proof.
  unfold _glideDockingResultsChecker, _glideDataFrameRetriever.
  rewrite !(decide_False (P := "score" = "dock")) by done.
  rewrite !decide_True by done. unfold glide_score_paths. py_unfold.
  destruct (glide_score_ligands cwd) as [ligands|] eqn:Hligands; [|discriminate].
  destruct (comprehension (glide_score_csv cwd) ligands) as [paths|] eqn:Hpaths;
    [|discriminate].
  destruct (decide (length paths = 0)) as [|Hlen]; [discriminate|]. intros _.
  pose proof (Forall2_length _ _ _ (comprehension_Return _ _ _ Hpaths)) as Hlength.
  exists ligands, paths. split_and!; [done..|by destruct paths|done|].
  destruct (comprehension (pd_read_csv cwd) paths) as [tables|e] eqn:Htables; [|done].
  pose proof (Forall2_length _ _ _ (comprehension_Return _ _ _ Htables)) as Hlength'.
  split; [|congruence]. destruct tables; [|done]. destruct paths; [done|discriminate].
Qed.

Lemma glide_score_retrieval_witness :
  exists ligands paths,
    glide_score_ligands glide_score_complete = Return ligands /\
    glide_score_paths glide_score_complete = Return paths /\
    paths ≠ [] /\ length paths = length ligands /\
    match comprehension (pd_read_csv glide_score_complete) paths with
    | Return tables =>
      @_glideDataFrameRetriever insertion_argsort glide_score_complete
        (Analyzer.set_docking_tool "glide" Analyzer.init) "score" =
        Return (Analyzer.set_calculated_data (GlideMerged tables)
                  (Analyzer.set_docking_tool "glide" Analyzer.init)) /\
      length tables = length ligands
    | Raise e =>
      @_glideDataFrameRetriever insertion_argsort glide_score_complete
        (Analyzer.set_docking_tool "glide" Analyzer.init) "score" = Raise e
    end.
Proof.
  apply (@glide_score_retrieval insertion_argsort glide_score_complete Analyzer.init).
  vm_compute. reflexivity.
Defined.

(** ** Rescoring ingestion *)

(** The rescoring pass over the seven lines of one record with a
    well-formed score. *)
Lemma rescore_record (folder : string) (c : Z) (d : list Rescore.DataRow)
    (r : ShardRecord) (rest : list string) :
  well_formed_score r ->
  for_each (rescore_line folder)
    {| rescore_counter := c; rescore_score_bool := false; rescore_data := d |}
    (record_lines r ++ rest) =
  for_each (rescore_line folder)
    {| rescore_counter := (c + 1)%Z; rescore_score_bool := false;
       rescore_data := d ++ [{| Rescore.file_name := folder; Rescore.file_entry := c;
                                Rescore.ligand := folder;
                                Rescore.rdock_score := shard_score r |}] |}
    rest.
Proof.
  intros (Hne & Hscore & Hline1 & Hline2).
  apply plain_line_contains in Hline1 as (Hd1 & Hs1 & _).
  apply plain_line_contains in Hline2 as (Hd2 & Hs2 & _).
  unfold record_lines. cbn [app].
  erewrite for_each_step by reflexivity.
  erewrite for_each_step; last first.
  { unfold rescore_line. cbn [rescore_score_bool rescore_counter rescore_data].
    replace (contains ">  <SCORE>" (">  <SCORE>" +:+ nl)) with true by reflexivity.
    replace (contains "$$$$" (">  <SCORE>" +:+ nl)) with false by reflexivity.
    rewrite split_blank_token by done. cbn [first_item]. py_unfold.
    rewrite Hd1, Hs1. reflexivity. }
  erewrite for_each_step by reflexivity.
  erewrite for_each_step by reflexivity.
  erewrite for_each_step; last first.
  { unfold rescore_line. cbn [rescore_score_bool rescore_counter rescore_data].
    replace (contains ">  <SCORE>" nl) with false by reflexivity.
    replace (contains "$$$$" nl) with false by reflexivity.
    replace (contains ">  <SCORE>" (">  <s_lp_Variant>" +:+ nl)) with false by reflexivity.
    replace (contains "$$$$" (">  <s_lp_Variant>" +:+ nl)) with false by reflexivity.
    py_unfold. rewrite Hd2, Hs2. reflexivity. }
  erewrite for_each_step by reflexivity.
  erewrite for_each_step by reflexivity.
  reflexivity.
Qed.

Lemma rescore_records (folder : string) (records : list ShardRecord) :
  forall (k : nat) (d : list Rescore.DataRow) (rest : list string),
  Forall well_formed_score records ->
  for_each (rescore_line folder)
    {| rescore_counter := Z.of_nat k + 1; rescore_score_bool := false; rescore_data := d |}
    (concat (record_lines <$> records) ++ rest) =
  for_each (rescore_line folder)
    {| rescore_counter := Z.of_nat (k + length records) + 1; rescore_score_bool := false;
       rescore_data := d ++ imap (fun i => rescore_row folder (k + i)) records |}
    rest.
Proof.
  induction records as [|r records IH]; intros k d rest Hwf.
  - cbn [fmap list_fmap concat app length imap]. by rewrite Nat.add_0_r, app_nil_r.
  - apply Forall_cons in Hwf as [Hr Hwf].
    rewrite fmap_cons. cbn [concat]. rewrite <- app_assoc, rescore_record by done.
    replace (Z.of_nat k + 1 + 1)%Z with (Z.of_nat (S k) + 1)%Z by lia.
    pose proof (IH (S k) (d ++ [rescore_row folder (k + 0) r]) rest Hwf) as Hrest.
    unfold rescore_row at 1 in Hrest. rewrite Nat.add_0_r in Hrest.
    rewrite Hrest. cbn [length imap]. rewrite <- app_assoc. cbn [app].
    replace (S k + length records)%nat with (k + S (length records))%nat by lia.
    assert (Himap : imap ((fun i => rescore_row folder (k + i)) ∘ S) records =
                    imap (fun i => rescore_row folder (S k + i)) records).
    { apply imap_ext. intros i x _. simpl. f_equal. lia. }
    by rewrite Himap, Nat.add_0_r.
Qed.

Lemma rescore_canonical_folders (folders : list (string * list ShardRecord)) :
  forall data : list Rescore.DataRow,
  Forall (fun folder => Forall well_formed_score folder.2) folders ->
  for_each rescore_file data (rescore_folder <$> folders) =
    Return (data ++ concat (rescore_rows <$> folders)).
Proof.
  induction folders as [|folder folders IH]; intros data Hwf.
  - cbn. by rewrite app_nil_r.
  - apply Forall_cons in Hwf as [Hfolder Hwf].
    rewrite !fmap_cons. cbn [for_each concat].
    assert (Hfile : rescore_file data (rescore_folder folder) =
                    Return (data ++ rescore_rows folder)).
    { unfold rescore_file, rescore_folder. cbn [fst snd].
      pose proof (rescore_records folder.1 folder.2 0 data [] Hfolder) as Hrecords.
      rewrite app_nil_r in Hrecords. change 1%Z with (Z.of_nat 0 + 1)%Z.
      rewrite Hrecords. reflexivity. }
    py_unfold. rewrite Hfile, IH by done. by rewrite app_assoc.
Qed.

(** X11 (src/dockingAnalysis.py, [_rdockDataFrameGenerator], 'score'
    protocol): on output files in canonical form whose records have a
    one-token score and plain value lines, the rescoring pass raises
    nothing and returns exactly one row per record, in folder and record
    order; the file name and the ligand of the row are both the name of
    the folder, whatever identifier the record holds, and the entry is
    the position of the record in its file, counted from 1. *)
Theorem rescore_ingestion_round_trip (folders : list (string * list ShardRecord)) :
  Forall (fun folder => Forall well_formed_score folder.2) folders ->
  rdock_rescore_rows (rescore_folder <$> folders) =
    Return (concat (rescore_rows <$> folders)).
Proof. intros Hwf. unfold rdock_rescore_rows. by rewrite rescore_canonical_folders. Qed.

Lemma rescore_ingestion_round_trip_witness :
  Forall (fun folder => Forall well_formed_score folder.2) rescore_folders_sample /\
  rdock_rescore_rows (rescore_folder <$> rescore_folders_sample) =
    Return (concat (rescore_rows <$> rescore_folders_sample)).
Proof.
  assert (Hwf : Forall (fun folder => Forall well_formed_score folder.2)
                  rescore_folders_sample).
  { repeat apply Forall_cons_2; try apply Forall_nil_2; cbn [fst snd];
      repeat apply Forall_cons_2; try apply Forall_nil_2;
      unfold well_formed_score; cbn [shard_score shard_ligand shard_conformer];
      (split_and!; [done | | reflexivity | reflexivity]);
      unfold chars; cbn [String.list_ascii_of_string];
      repeat apply Forall_cons_2; try apply Forall_nil_2; done. }
  split; [exact Hwf|]. exact (rescore_ingestion_round_trip rescore_folders_sample Hwf).
Defined.

Lemma blank_after_marker_cons (line : string) (rest : list string) :
  blank_after_marker (line :: rest) <->
  (contains ">  <SCORE>" line = true /\
   exists next, head rest = Some next /\ split_blank next = []) \/
  blank_after_marker rest.
Proof.
  unfold blank_after_marker. split.
  - intros (i & l & next & Hi & Hm & Hn & Hb). destruct i as [|i]; simpl in Hi, Hn.
    + left. injection Hi as ->. split; [done|]. exists next. by rewrite head_lookup.
    + right. by exists i, l, next.
  - intros [(Hm & next & Hn & Hb) | (i & l & next & Hi)].
    + exists 0, line, next. rewrite head_lookup in Hn. by split_and!.
    + by exists (S i), l, next.
Qed.

(** A line ends the rescoring pass only when it is read as a score and
    holds no token. *)
Lemma rescore_line_cases (folder : string) (st : RescoreState) (line : string) :
  (rescore_score_bool st = true /\ split_blank line = [] /\
   rescore_line folder st line = Raise IndexError) \/
  (~ (rescore_score_bool st = true /\ split_blank line = []) /\
   exists st', rescore_line folder st line = Return st' /\
     rescore_score_bool st' = contains ">  <SCORE>" line).
Proof.
  unfold rescore_line. destruct (rescore_score_bool st).
  - destruct (split_blank line) as [|tok toks] eqn:Hsplit.
    + left. by split_and!.
    + right. split; [by intros [_ ?]|]. eexists. split; [reflexivity|done].
  - right. split; [by intros [? _]|]. eexists. split; [reflexivity|done].
Qed.

Lemma rescore_lines_Raise (folder : string) (lines : list string) :
  forall st : RescoreState,
  (exists e, for_each (rescore_line folder) st lines = Raise e) <->
  (rescore_score_bool st = true /\
   exists next, head lines = Some next /\ split_blank next = []) \/
  blank_after_marker lines.
Proof.
  induction lines as [|line rest IH]; intros st.
  - split; [by intros [e ?]|]. intros [(_ & next & ? & _)|(i & l & next & ? & _)]; done.
  - rewrite blank_after_marker_cons. cbn [for_each head]. py_unfold.
    destruct (rescore_line_cases folder st line)
      as [(Hflag & Hblank & ->)|(Hnot & st' & -> & Hflag')].
    + split; [|by exists IndexError]. intros _. left. split; [done|]. by exists line.
    + rewrite IH, Hflag'. split.
      * intros [?|?]; right; [by left|by right].
      * intros [(Hflag & next & [= <-] & Hblank)|[?|?]]; [by destruct Hnot|by left|by right].
Qed.

Lemma rescore_lines_IndexError (folder : string) (lines : list string) :
  forall (st : RescoreState) (e : PyExn),
  for_each (rescore_line folder) st lines = Raise e -> e = IndexError.
Proof.
  induction lines as [|line rest IH]; intros st e; [discriminate|].
  cbn [for_each]. py_unfold.
  destruct (rescore_line_cases folder st line) as [(_ & _ & ->)|(_ & st' & -> & _)].
  - by intros [= <-].
  - apply IH.
Qed.

Lemma rescore_file_Raise (data : list Rescore.DataRow)
    (folder : string * option (list string)) :
  ((exists e, rescore_file data folder = Raise e) <-> unreadable_folder folder) /\
  (forall e, rescore_file data folder = Raise e -> e = IndexError \/ e = FileNotFoundError).
Proof.
  unfold rescore_file, unreadable_folder. destruct folder.2 as [lines|].
  - pose proof (rescore_lines_Raise folder.1 lines
                  {| rescore_counter := 1; rescore_score_bool := false;
                     rescore_data := data |}) as Hraise.
    cbn [rescore_score_bool] in Hraise. py_unfold.
    destruct (for_each _ _ lines) as [st|e'] eqn:Hlines.
    + split; [|discriminate]. split; [by intros [? ?]|].
      intros Hbad. destruct (proj2 Hraise (or_intror Hbad)) as [e ?]. discriminate.
    + split.
      * split; [|by exists e']. intros _.
        destruct (proj1 Hraise (ex_intro _ e' eq_refl)) as [[? _]|?]; done.
      * intros e [= <-]. left. by eapply rescore_lines_IndexError.
  - split; [split; eauto|]. intros e [= <-]. by right.
Qed.

(** X12 (src/dockingAnalysis.py, [_rdockDataFrameGenerator], 'score'
    protocol): the rescoring pass stops with an exception exactly when
    some folder has no output file or holds a score marker followed by a
    line without any token; the exception is [FileNotFoundError] or
    [IndexError]. Unlike the pass of the 'dock' protocol it reads no
    variable that a record may have left unbound. *)
Theorem rescore_ingestion_failure (folders : list (string * option (list string))) :
  ((exists e, rdock_rescore_rows folders = Raise e) <-> Exists unreadable_folder folders) /\
  (forall e, rdock_rescore_rows folders = Raise e ->
     e = IndexError \/ e = FileNotFoundError).
Proof.
  unfold rdock_rescore_rows. generalize (@nil Rescore.DataRow).
  induction folders as [|folder folders IH]; intros data.
  - split; [|discriminate]. split; [by intros [? ?]|]. by intros ?%Exists_nil.
  - cbn [for_each]. py_unfold. rewrite Exists_cons.
    destruct (rescore_file_Raise data folder) as [Hiff Hkind].
    destruct (rescore_file data folder) as [data'|e'] eqn:Hfile.
    + destruct (IH data') as [IHiff IHkind]. split; [|done].
      rewrite IHiff. split; [by right|]. intros [Hbad|?]; [|done].
      destruct (proj2 Hiff Hbad) as [e ?]. discriminate.
    + split; [|by intros e [= <-]; apply Hkind].
      split; [|by exists e']. intros _. left. apply Hiff. by exists e'.
Qed.

Example rescore_ingestion_failure_sample :
  rdock_rescore_rows [("L1", None)] = Raise FileNotFoundError /\
  rdock_rescore_rows [("L1", Some [">  <SCORE>" +:+ nl; nl])] = Raise IndexError /\
  rdock_rescore_rows [("L1", Some [">  <s_lp_Variant>" +:+ nl; "L1-1" +:+ nl])] = Return [].
Proof. split_and!; vm_compute; reflexivity. Qed.

(** ** Sharded ingestion: a score outlives its record and its file *)

Lemma for_each_Raise {A S : Type} (body : S -> A -> PyResult S) (st : S) (x : A)
    (rest : list A) (e : PyExn) :
  body st x = Raise e -> for_each body st (x :: rest) = Raise e.
Proof. intros Hbody. cbn [for_each]. py_unfold. by rewrite Hbody. Qed.

(** The pass over the lines of a record that has an identifier and no
    score, entered with both flags false: the row takes the value that
    [score] holds, and the pass stops when it holds none. *)
Lemma scan_identifier_lines (filename : string) (c : Z) (s0 : option string)
    (d : list Rdock.DataRow) (r : ShardRecord) :
  well_formed_identifier r ->
  for_each (scan_line filename)
    {| counter := c; score_bool := false; conformer_bool := false; score := s0; data := d |}
    (identifier_lines r) =
  match s0 with
  | Some s =>
    Return {| counter := (c + 1)%Z; score_bool := false; conformer_bool := false;
              score := Some s;
              data := d ++ [{| Rdock.data_file_name := filename; Rdock.data_file_entry := c;
                               Rdock.data_ligand := shard_ligand r;
                               Rdock.data_conformer := shard_conformer r +:+ nl;
                               Rdock.data_rdock_score := s |}] |}
  | None => Raise UnboundLocalError
  end.
Proof.
  intros (Hligand & Hconformer & Hline).
  apply plain_line_contains in Hline as (Hd & Hs & Hv).
  unfold identifier_lines.
  erewrite for_each_step by reflexivity.
  replace (contains ">  <SCORE>" (">  <s_lp_Variant>" +:+ nl)) with false by reflexivity.
  replace (contains ">  <s_lp_Variant>" (">  <s_lp_Variant>" +:+ nl)) with true by reflexivity.
  replace (contains "$$$$" (">  <s_lp_Variant>" +:+ nl)) with false by reflexivity.
  destruct s0 as [s|].
  - erewrite for_each_step; last first.
    { unfold scan_line. cbn [score_bool conformer_bool counter score data].
      rewrite split_on_hyphen by done. py_unfold. rewrite Hd, Hs, Hv. reflexivity. }
    erewrite for_each_step by reflexivity.
    erewrite for_each_step by reflexivity.
    reflexivity.
  - apply for_each_Raise.
    unfold scan_line. cbn [score_bool conformer_bool counter score data].
    rewrite split_on_hyphen by done. reflexivity.
Qed.

(** X13 (src/dockingAnalysis.py, [_rdockDataFrameGenerator], 'dock'
    protocol): the variable that holds the score outlives its record and
    its file. When a shard of well-formed records is followed by a shard
    whose record has an identifier and no score, that record is not
    dropped: its row takes the score of the last record of the shard
    before it. When the shard before it holds no record, the pass stops
    with [UnboundLocalError]. *)
Theorem score_outlives_its_file (f1 f2 : string) (records : list ShardRecord)
    (r : ShardRecord) :
  startswith "split" f1 = true -> startswith "split" f2 = true ->
  Forall well_formed_record records -> well_formed_identifier r ->
  _rdockDataFrameGenerator [shard_file (f1, records); (f2, identifier_lines r)] =
    match last records with
    | Some r0 =>
      Return (shard_rows (f1, records) ++
        [{| Rdock.data_file_name := f2; Rdock.data_file_entry := 1;
            Rdock.data_ligand := shard_ligand r;
            Rdock.data_conformer := shard_conformer r +:+ nl;
            Rdock.data_rdock_score := shard_score r0 |}])
    | None => Raise UnboundLocalError
    end.
Proof.
  intros Hf1 Hf2 Hwf Hr. unfold _rdockDataFrameGenerator.
  rewrite filter_cons, decide_True by done.
  rewrite filter_cons, decide_True by done.
  rewrite filter_nil. cbn [for_each]. py_unfold.
  rewrite scan_shard_file by done. unfold scan_file. cbn [fst snd]. py_unfold.
  rewrite scan_identifier_lines by done. unfold last_score.
  by destruct (last records).
Qed.

Lemma score_outlives_its_file_witness :
  _rdockDataFrameGenerator
    [shard_file ("split1.sd", complete_records_sample);
     ("split2.sd", identifier_lines record_without_score)] =
    Return (shard_rows ("split1.sd", complete_records_sample) ++
      [{| Rdock.data_file_name := "split2.sd"; Rdock.data_file_entry := 1;
          Rdock.data_ligand := "L2"; Rdock.data_conformer := "1" +:+ nl;
          Rdock.data_rdock_score := "-7.25" |}]).
Proof.
  apply (score_outlives_its_file "split1.sd" "split2.sd" complete_records_sample
           record_without_score); [reflexivity|reflexivity| |].
  - repeat apply Forall_cons_2; try apply Forall_nil_2;
      unfold well_formed_record; cbn [shard_score shard_ligand shard_conformer];
      (split_and!; [done | | | | reflexivity | reflexivity]);
      unfold chars; cbn [String.list_ascii_of_string];
      repeat apply Forall_cons_2; try apply Forall_nil_2; done.
  - unfold well_formed_identifier, record_without_score.
    cbn [shard_score shard_ligand shard_conformer].
    (split_and!; [ | | reflexivity]);
      unfold chars; cbn [String.list_ascii_of_string];
      repeat apply Forall_cons_2; try apply Forall_nil_2; done.
Defined.

(** ** Annotations of one SD file *)

Lemma second_to_last_Return (fields : list string) (x : string) :
  second_to_last fields = Return x <-> exists before last, fields = before ++ [x; last].
Proof.
  unfold second_to_last. split.
  - destruct (reverse fields) as [|l [|y rest]] eqn:Hrev; try discriminate.
    intros [= ->]. exists (reverse rest), l.
    apply (f_equal reverse) in Hrev. rewrite reverse_involutive in Hrev.
    rewrite Hrev, !reverse_cons, <- app_assoc. done.
  - intros (before & l & ->). by rewrite reverse_app.
Qed.

Lemma second_to_last_Raise (fields : list string) (e : PyExn) :
  second_to_last fields = Raise e ->
  e = IndexError /\ forall x before last, fields ≠ before ++ [x; last].
Proof.
  intros Hraise. split.
  - unfold second_to_last in Hraise.
    destruct (reverse fields) as [|l [|y rest]]; by inversion Hraise.
  - intros x before l Hfields.
    assert (Hret : second_to_last fields = Return x)
      by (apply second_to_last_Return; eauto).
    congruence.
Qed.

Lemma extract_property_score_value `{PyFloat} (mol : SDMol) (prop : string) :
  extract_property mol prop (PyIntValue 0) = score_value mol prop.
Proof.
  unfold extract_property, score_value, GetProp, call_float. py_unfold.
  destruct (mol !! prop) as [s|]; [|done]. simpl. by destruct (float_of_string s).
Qed.

Lemma Forall2_fmap_eq {A B : Type} (f : A -> B) (xs : list A) (ys : list B) :
  Forall2 (fun x y => y = f x) xs ys <-> ys = f <$> xs.
Proof.
  split.
  - induction 1 as [|x y xs ys -> _ IH]; [done|]. by rewrite fmap_cons, IH.
  - intros ->. induction xs; constructor; done.
Qed.

(** What one molecule contributes, and when it ends the loop. *)
Lemma mol_dict_Return `{PyFloat} (protocol : string) (mol : SDMol) (d : MolDict) :
  mol_dict protocol mol = Return d <->
  identified protocol mol (Name d) (Conformer d) /\
  scores d = (fun prop => (prop, score_value mol prop)) <$> properties.
Proof.
  assert (Hscores : (fun prop => (prop, extract_property mol prop (PyIntValue 0)))
                      <$> properties =
                    (fun prop => (prop, score_value mol prop)) <$> properties).
  { apply list_fmap_ext. intros _ prop _. by rewrite extract_property_score_value. }
  unfold mol_dict, identified, GetProp. py_unfold. rewrite Hscores.
  destruct (decide (protocol = "dock")) as [Hdock|Hdock].
  - destruct (mol !! "Name") as [name|]; [|split; [discriminate|by intros [[? _] _]]].
    destruct (mol !! "s_lp_Variant") as [conformer|];
      [|split; [discriminate|by intros [[_ ?] _]]].
    split.
    + by intros [= <-].
    + intros [[[= ->] [= ->]] Hd]. destruct d. simpl in *. by subst.
  - destruct (mol !! "Name") as [full|];
      [|split; [discriminate|by intros [[(? & ? & ? & ? & _) _] _]]].
    destruct (second_to_last (split_on "/" full)) as [name|e] eqn:Hname.
    + apply second_to_last_Return in Hname as Hfields. split.
      * intros [= <-]. simpl. destruct Hfields as (before & l & Hfields).
        split; [|done]. split; [|done]. by exists full, before, l.
      * intros [[(full' & before & l & [= <-] & Hfields') Hc] Hd].
        assert (Hret : second_to_last (split_on "/" full) = Return (Name d))
          by (apply second_to_last_Return; eauto).
        rewrite Hname in Hret. injection Hret as ->.
        destruct d. simpl in *. by subst.
    + split; [discriminate|].
      intros [[(full' & before & l & [= <-] & Hfields') _] _].
      by destruct (proj2 (second_to_last_Raise _ _ Hname) (Name d) before l).
Qed.

Lemma mol_dict_Raise `{PyFloat} (protocol : string) (mol : SDMol) (e : PyExn) :
  mol_dict protocol mol = Raise e ->
  (e = KeyError \/ (e = IndexError /\ protocol ≠ "dock")) /\
  forall name conformer, ~ identified protocol mol name conformer.
Proof.
  intros Hraise. split.
  - revert Hraise. unfold mol_dict, GetProp. py_unfold.
    destruct (decide (protocol = "dock")).
    + destruct (mol !! "Name"); [|intros [= <-]; by left].
      destruct (mol !! "s_lp_Variant"); [discriminate|intros [= <-]; by left].
    + destruct (mol !! "Name") as [full|]; [|intros [= <-]; by left].
      destruct (second_to_last (split_on "/" full)) as [|e'] eqn:Hname; [discriminate|].
      intros [= <-]. right. split; [|done]. by apply (second_to_last_Raise _ _ Hname).
  - intros name conformer Hid.
    assert (Hret : mol_dict protocol mol =
                   Return {| Name := name; Conformer := conformer;
                             scores := (fun prop => (prop, score_value mol prop))
                                         <$> properties |})
      by (by apply mol_dict_Return).
    congruence.
Qed.

Lemma elem_of_readable_from (supplier : list (option SDMol)) :
  forall (off i : nat) (mol : SDMol),
  (i, mol) ∈ readable_from off supplier <->
  exists j, i = off + j /\ supplier !! j = Some (Some mol).
Proof.
  induction supplier as [|[m|] rest IH]; intros off i mol; cbn [readable_from].
  - split; [by intros ?%elem_of_nil|]. by intros (j & _ & ?).
  - rewrite elem_of_cons, IH. split.
    + intros [[= -> ->]|(j & -> & Hj)]; [exists 0|exists (S j)]; split; try done; lia.
    + intros ([|j] & -> & Hj); simpl in Hj.
      * left. injection Hj as ->. f_equal. lia.
      * right. exists j. split; [lia|done].
  - rewrite IH. split.
    + intros (j & -> & Hj). exists (S j). split; [lia|done].
    + intros ([|j] & -> & Hj); simpl in Hj; [done|]. exists j. split; [lia|done].
Qed.

Lemma readable_from_sorted (supplier : list (option SDMol)) :
  forall off : nat,
  StronglySorted lt (readable_from off supplier).*1 /\
  Forall (fun i => off <= i) (readable_from off supplier).*1.
Proof.
  induction supplier as [|[m|] rest IH]; intros off; cbn [readable_from].
  - split; constructor.
  - destruct (IH (S off)) as [Hsorted Hfrom]. rewrite fmap_cons. cbn [fst]. split.
    + constructor; [done|]. eapply Forall_impl; [exact Hfrom|]. intros i. cbv beta. lia.
    + constructor; [done|]. eapply Forall_impl; [exact Hfrom|]. intros i. cbv beta. lia.
  - destruct (IH (S off)) as [Hsorted Hfrom]. split; [done|].
    eapply Forall_impl; [exact Hfrom|]. intros i. cbv beta. lia.
Qed.

(** The loop visits the molecules that could be read, in order, each
    under its position in the file. *)
Lemma rdockOutputToDataFrame_readable `{PyFloat} (protocol : string)
    (supplier : list (option SDMol)) :
  rdockOutputToDataFrame supplier protocol =
    comprehension (fun item : nat * SDMol => d ← mol_dict protocol item.2; Return (item.1, d))
      (readable_from 0 supplier).
Proof.
  unfold rdockOutputToDataFrame.
  assert (Hloop : forall (off : nat) (sdf_dict : list (nat * MolDict)),
    for_each (fun sdf_dict (item : nat * option SDMol) =>
                match item.2 with
                | Some mol => d ← mol_dict protocol mol; Return (sdf_dict ++ [(item.1, d)])
                | None => Return sdf_dict
                end)
             sdf_dict (imap (fun i mol => (off + i, mol)) supplier) =
    rows ← comprehension
              (fun item : nat * SDMol => d ← mol_dict protocol item.2; Return (item.1, d))
              (readable_from off supplier);
    Return (sdf_dict ++ rows)).
  { induction supplier as [|mol rest IH]; intros off sdf_dict.
    - cbn. by rewrite app_nil_r.
    - rewrite imap_cons. cbn [for_each fst snd]. rewrite Nat.add_0_r.
      assert (Himap : imap ((fun i mol => (off + i, mol)) ∘ S) rest =
                      imap (fun i mol => (S off + i, mol)) rest).
      { apply imap_ext. intros i x _. simpl. f_equal. lia. }
      rewrite Himap. destruct mol as [mol|]; cbn [readable_from comprehension fst snd].
      + py_unfold. destruct (mol_dict protocol mol) as [d|e]; [|done].
        rewrite IH. py_unfold.
        destruct (comprehension _ (readable_from (S off) rest)) as [rows|e]; [|done].
        by rewrite <- app_assoc.
      + py_unfold. apply IH. }
  specialize (Hloop 0 []). py_unfold.
  rewrite (imap_ext _ pair) in Hloop by done. rewrite Hloop.
  by destruct (comprehension _ _).
Qed.

(** X14 (src/dockingAnalysis.py, [rdockOutputToDataFrame]): the rows
    of the frame are exactly the molecules that the supplier could read,
    each under its position in the file (unreadable records leave gaps in
    the labels, which stay increasing). A row holds the name and the
    conformer of its molecule and the 22 score columns, where an
    annotation that is missing or is no float reads as the integer 0:
    no score annotation can end the run. The run ends with an exception
    only at a molecule that cannot be given a name and a conformer:
    [KeyError] for a missing annotation and, for a protocol other than
    'dock', [IndexError] for a name without a slash. Every protocol
    other than 'dock' is read as rescoring. *)
Theorem sd_annotations `{PyFloat} (supplier : list (option SDMol)) (protocol : string) :
  match rdockOutputToDataFrame supplier protocol with
  | Return rows =>
    (forall i d, (i, d) ∈ rows <->
       exists mol, supplier !! i = Some (Some mol) /\
         identified protocol mol (Name d) (Conformer d) /\
         Forall2 (fun prop item =>
                    item = (prop, match mol !! prop ≫= float_of_string with
                                  | Some x => PyFloatValue x
                                  | None => PyIntValue 0
                                  end))
                 properties (scores d)) /\
    StronglySorted lt rows.*1
  | Raise e =>
    (e = KeyError \/ (e = IndexError /\ protocol ≠ "dock")) /\
    exists i mol, supplier !! i = Some (Some mol) /\
      forall name conformer, ~ identified protocol mol name conformer
  end.
Proof.
  rewrite rdockOutputToDataFrame_readable.
  destruct (comprehension _ (readable_from 0 supplier)) as [rows|e] eqn:Hrows.
  - apply comprehension_Return in Hrows.
    assert (Hrow : forall (item : nat * SDMol) (row : nat * MolDict),
      (d ← mol_dict protocol item.2; Return (item.1, d)) = Return row <->
      row.1 = item.1 /\ mol_dict protocol item.2 = Return row.2).
    { intros item row. py_unfold. destruct (mol_dict protocol item.2) as [d|e].
      - split; [by intros [= <-]|]. intros [Hi [= ->]]. destruct row. simpl in *. by subst.
      - split; [discriminate|]. by intros [_ ?]. }
    split.
    + intros i d. rewrite list_elem_of_lookup. split.
      * intros [k Hk].
        destruct (Forall2_lookup_r _ _ _ _ _ Hrows Hk) as ([j mol] & Hj & Hitem).
        apply Hrow in Hitem as [[= ->] Hd]. cbn [fst snd] in Hd.
        apply list_elem_of_lookup_2, elem_of_readable_from in Hj as (j' & -> & Hmol).
        apply mol_dict_Return in Hd as [Hid Hscores].
        exists mol. split_and!; [done..|]. by apply Forall2_fmap_eq.
      * intros (mol & Hmol & Hid & Hscores). apply Forall2_fmap_eq in Hscores.
        assert (Hd : mol_dict protocol mol = Return d) by (by apply mol_dict_Return).
        assert (Hin : (i, mol) ∈ readable_from 0 supplier)
          by (apply elem_of_readable_from; by exists i).
        apply list_elem_of_lookup in Hin as [k Hk].
        destruct (Forall2_lookup_l _ _ _ _ _ Hrows Hk) as (row & Hrowk & Hitem).
        apply Hrow in Hitem as [Hi Hd']. cbn [fst snd] in Hi, Hd'.
        exists k. rewrite Hrowk. f_equal. destruct row as [i' d']. simpl in *.
        congruence.
    + assert (Hkeys : rows.*1 = (readable_from 0 supplier).*1).
      { clear -Hrows Hrow. induction Hrows as [|item row items rows Hitem _ IH]; [done|].
        rewrite !fmap_cons, IH. f_equal. by apply Hrow in Hitem as [-> _]. }
      rewrite Hkeys. apply readable_from_sorted.
  - apply comprehension_Raise in Hrows as ([i mol] & Hin & Hraise).
    cbn [fst snd] in Hraise. py_unfold.
    destruct (mol_dict protocol mol) as [d|e'] eqn:Hd; [discriminate|].
    injection Hraise as ->. apply mol_dict_Raise in Hd as [Hkind Hnot].
    split; [done|]. apply elem_of_readable_from in Hin as (j & -> & Hmol).
    by exists j, mol.
Qed.

Example sd_annotations_sample :
  fmap (M := PyResult) (fmap (fun row : nat * MolDict => (row.1, Name row.2, Conformer row.2)))
    (@rdockOutputToDataFrame float_stand_in supplier_sample "rescore") =
    Return [(0, "L1", "-"); (2, "L2", "-")] /\
  fmap (M := PyResult)
    (fmap (fun row : nat * MolDict => (row.1, Name row.2, snd <$> take 2 (scores row.2))))
    (@rdockOutputToDataFrame float_stand_in supplier_sample "dock") =
    Return [(0, "runs/L1/ligand", [PyFloatValue (-8.5); PyIntValue 0]);
            (2, "runs/L2/ligand", [PyIntValue 0; PyFloatValue 1.25])].
Proof. split; vm_compute; reflexivity. Qed.

(** ** The file of experimental energies *)

Lemma split_on_from_plain (sep : ascii) (field : list ascii) (s : string) :
  Forall (fun a => a ≠ sep) (chars s) ->
  split_on_from sep field s = [String.string_of_list_ascii (reverse (reverse (chars s) ++ field))].
Proof.
  revert field. induction s as [|a s IH]; intros field Hs; [done|].
  unfold chars in Hs. simpl in Hs. apply Forall_cons in Hs as [Ha Hs]. cbv beta in Ha.
  cbn [split_on_from]. rewrite (proj2 (Ascii.eqb_neq a sep) Ha), IH by done.
  unfold chars. simpl. by rewrite reverse_cons, <- app_assoc.
Qed.

Lemma split_on_from_nonempty (sep : ascii) (s : string) (field : list ascii) :
  split_on_from sep field s ≠ [].
Proof.
  revert field. induction s as [|a s IH]; intros field; [done|].
  cbn [split_on_from]. destruct (Ascii.eqb a sep); [done|apply IH].
Qed.

Lemma last_split_on_from (sep : ascii) (folders file : string) :
  Forall (fun a => a ≠ sep) (chars file) ->
  forall field, last (split_on_from sep field (folders +:+ String sep file)) = Some file.
Proof.
  intros Hfile. induction folders as [|a folders IH]; intros field.
  - change (EmptyString +:+ ?x) with x. cbn [split_on_from]. rewrite Ascii.eqb_refl.
    rewrite split_on_from_plain by done.
    by rewrite app_nil_r, reverse_involutive, string_of_chars.
  - rewrite append_cons. cbn [split_on_from]. destruct (Ascii.eqb a sep); [|apply IH].
    rewrite last_cons, IH. done.
Qed.

Lemma base_name_file (folders file : string) :
  Forall (fun a => a ≠ "/"%char) (chars file) ->
  base_name (folders +:+ "/" +:+ file) = file /\ base_name file = file.
Proof.
  intros Hfile. unfold base_name, split_on. split.
  - change ("/" +:+ file) with (String "/" file). by rewrite last_split_on_from.
  - rewrite split_on_from_plain by done.
    by rewrite app_nil_r, reverse_involutive, string_of_chars.
Qed.

(** X15 (src/dockingAnalysis.py, [_correlation],
    [experimental_data.split('/')[-1]]): of the path given for the
    experimental energies only the file name counts. A path made of any
    folders, a slash and a name without slash has that name as its file
    name, and the correlation step does with it exactly what it does
    with the bare name: the folders given are not looked at. *)
Theorem correlation_ignores_folders `{NumericLibraries} (cwd : Node) (self : Analyzer.t)
    (folders file column_name protocol : string) :
  Forall (fun a => a ≠ "/"%char) (chars file) ->
  base_name (folders +:+ "/" +:+ file) = file /\
  _correlation cwd self [folders +:+ "/" +:+ file; column_name; protocol] =
    _correlation cwd self [file; column_name; protocol].
Proof.
  intros Hfile. destruct (base_name_file folders file Hfile) as [Hpath Hname].
  split; [done|]. unfold _correlation, call_method. rewrite decide_True by done.
  unfold correlation_body. by rewrite Hpath, Hname.
Qed.

Lemma correlation_ignores_folders_witness :
  base_name ("data/2024" +:+ "/" +:+ "affinities.csv") = "affinities.csv" /\
  @_correlation numeric_stand_in images_folder Analyzer.init
    ["data/2024" +:+ "/" +:+ "affinities.csv"; "dG"; "dock"] =
  @_correlation numeric_stand_in images_folder Analyzer.init
    ["affinities.csv"; "dG"; "dock"].
Proof.
  apply (@correlation_ignores_folders numeric_stand_in images_folder Analyzer.init
           "data/2024" "affinities.csv" "dG" "dock").
  unfold chars. cbn [String.list_ascii_of_string].
  repeat apply Forall_cons_2; try apply Forall_nil_2; done.
Defined.
